(** * Selective-disclosure JWT: issuance, release and verification

    A shallow embedding of [sd_jwt/operations.py].  Python values that
    travel through [json.dumps]/[json.loads] are modelled by the inductive
    type [json]; a Python [dict] is an association list in insertion order;
    [str] and [bytes] are both [string] (a [str] stands for its UTF-8
    bytes, so [.encode("utf-8")] and [.decode("ascii")] are the identity);
    a raised exception is the [Err] case of [result].

    The collaborators that live outside the repository (hashing, the JSON
    codec, keys, the signature primitive, the random module, the process
    settings) are the fields of the class [Collaborators]. *)

From Stdlib Require Import String Ascii List ZArith NArith Bool Lia.
From Stdlib Require Import DecimalPos DecimalZ.
Import ListNotations.
Open Scope string_scope.

Set Implicit Arguments.

(* ================================================================== *)
(** ** Exceptions and results *)

(** The exceptions the module can raise.  Every [raise ValueError(...)] of
    the source carries its message; the other constructors are exceptions
    of the interpreter and of the libraries, but for [StructureMismatch],
    the name that the specification gives to the failure of the structural
    transform, whose code is not among the sources. *)
Inductive exn : Type :=
| ValueError (msg : string)
| KeyError (key : string)
| TypeError
| AttributeError
| JSONDecodeError
| BinasciiError
| InvalidJWSObject
| InvalidJWSSignature
| InvalidJWSOperation
| InvalidJWKValue
| StructureMismatch.

Inductive result (A : Type) : Type :=
| OK (a : A)
| Err (e : exn).

Arguments OK {A} a.
Arguments Err {A} e.

Definition bind {A B} (r : result A) (k : A -> result B) : result B :=
  match r with
  | OK a => k a
  | Err e => Err e
  end.

Declare Scope result_scope.
Delimit Scope result_scope with result.
Notation "x <- r ;; k" := (bind r (fun x => k))
  (at level 61, r at next level, right associativity) : result_scope.
Notation "' p <- r ;; k" := (bind r (fun x => let p := x in k))
  (at level 61, p pattern, r at next level, right associativity) : result_scope.
Open Scope result_scope.

(** The error kinds of the specification, as the exceptions of the source. *)
Definition CommitmentMismatch : exn :=
  ValueError "Claim release value does not match the claim value in the SD-JWT".
Definition ReleaseNotAList : exn :=
  ValueError "Claim release value is not a list".
Definition ReleaseNotOfLength2 : exn :=
  ValueError "Claim release value is not of length 2".
Definition InvalidIssuer : exn := ValueError "Invalid issuer".
Definition InvalidAudience : exn := ValueError "Invalid audience".
Definition InvalidNonce : exn := ValueError "Invalid nonce".
Definition HolderKeyMismatch : exn :=
  ValueError "sub_jwk is not matching with HOLDER Public Key.".
Definition InvalidArguments : exn :=
  ValueError "When holder binding is to be checked, aud and nonce need to be provided.".
Definition MalformedPresentation : exn :=
  ValueError "Invalid number of parts in the combined presentation".
Definition MissingCommitments_sd_jwt : exn :=
  ValueError "No selective disclosure claims in SD-JWT".
Definition MissingCommitments_release : exn :=
  ValueError "No selective disclosure claims in SD-JWT-Release".


(* ================================================================== *)
(** ** JSON values and dictionaries *)

Unset Elimination Schemes.
Inductive json : Type :=
| JNull
| JBool (b : bool)
| JNum (n : Z)
| JStr (s : string)
| JArr (items : list json)
| JObj (members : list (string * json)).
Set Elimination Schemes.

(** Induction over a JSON document: the hypothesis is available for every
    element of a list and for every value of a dictionary. *)
Definition json_ind (P : json -> Prop)
    (Hnull : P JNull)
    (Hbool : forall b, P (JBool b))
    (Hnum : forall n, P (JNum n))
    (Hstr : forall s, P (JStr s))
    (Harr : forall items, Forall P items -> P (JArr items))
    (Hobj : forall members, Forall (fun kv => P (snd kv)) members -> P (JObj members))
  : forall v, P v :=
  fix go (v : json) : P v :=
    match v with
    | JNull => Hnull
    | JBool b => Hbool b
    | JNum n => Hnum n
    | JStr s => Hstr s
    | JArr items =>
        Harr items
          ((fix all (l : list json) : Forall P l :=
              match l with
              | [] => Forall_nil _
              | x :: r => Forall_cons x (go x) (all r)
              end) items)
    | JObj members =>
        Hobj members
          ((fix all (l : list (string * json)) : Forall (fun kv => P (snd kv)) l :=
              match l with
              | [] => Forall_nil _
              | kv :: r => Forall_cons kv (go (snd kv)) (all r)
              end) members)
    end.

Definition dict : Type := list (string * json).

(** [d.get(k)] *)
Fixpoint lookup (k : string) (d : dict) : option json :=
  match d with
  | [] => None
  | (k', v) :: rest => if String.eqb k k' then Some v else lookup k rest
  end.

(** [d[k] = v]: an existing key keeps its place, a new one goes last. *)
Fixpoint dict_set (k : string) (v : json) (d : dict) : dict :=
  match d with
  | [] => [(k, v)]
  | (k', v') :: rest =>
      if String.eqb k k' then (k, v) :: rest else (k', v') :: dict_set k v rest
  end.

(** A dictionary display [{k1: v1, ..., kn: vn}]. *)
Definition mkdict (entries : list (string * json)) : dict :=
  fold_left (fun d kv => dict_set (fst kv) (snd kv) d) entries [].

(** Truth value of a JSON value in a condition. *)
Definition truthy (v : json) : bool :=
  match v with
  | JNull => false
  | JBool b => b
  | JNum n => negb (n =? 0)%Z
  | JStr s => negb (String.eqb s EmptyString)
  | JArr l => match l with [] => false | _ => true end
  | JObj d => match d with [] => false | _ => true end
  end.

(** [s1 in s2] on strings. *)
Fixpoint substring_of (needle hay : string) : bool :=
  if String.prefix needle hay then true
  else match hay with
       | EmptyString => false
       | String _ rest => substring_of needle rest
       end.

(** [k in v] for a string [k]: key membership in a dict, element
    membership in a list, substring test in a string; the other values are
    not containers. *)
Definition py_in (k : string) (v : json) : result bool :=
  match v with
  | JObj d => OK (match lookup k d with Some _ => true | None => false end)
  | JArr l => OK (existsb (fun x => match x with JStr s => String.eqb s k | _ => false end) l)
  | JStr s => OK (substring_of k s)
  | _ => Err TypeError
  end.

(** [v[k]] for a string [k]: only a dict can be indexed by a string. *)
Definition getitem (v : json) (k : string) : result json :=
  match v with
  | JObj d => match lookup k d with
              | Some x => OK x
              | None => Err (KeyError k)
              end
  | _ => Err TypeError
  end.

(** [v == e] where [e] is a string argument that may have been left at
    its default [None]. *)
Definition py_eq_opt_str (v : json) (e : option string) : bool :=
  match e, v with
  | Some s, JStr s' => String.eqb s' s
  | None, JNull => true
  | _, _ => false
  end.

(* ================================================================== *)
(** ** Strings: [split], [join], [strip] *)

Definition dot : ascii := "."%char.
Definition eq_sign : ascii := "="%char.

(** [s.split(".")] *)
Fixpoint split_dot (s : string) : list string :=
  match s with
  | EmptyString => [EmptyString]
  | String c rest =>
      if Ascii.eqb c dot then EmptyString :: split_dot rest
      else match split_dot rest with
           | [] => [String c EmptyString]
           | p :: ps => String c p :: ps
           end
  end.

(** [".".join(parts)] *)
Fixpoint join_dot (parts : list string) : string :=
  match parts with
  | [] => EmptyString
  | [p] => p
  | p :: ps => p ++ String dot (join_dot ps)
  end.

(** [s.strip("=")] *)
Fixpoint lstrip_eq (s : string) : string :=
  match s with
  | EmptyString => EmptyString
  | String c rest => if Ascii.eqb c eq_sign then lstrip_eq rest else s
  end.

Fixpoint rstrip_eq (s : string) : string :=
  match s with
  | EmptyString => EmptyString
  | String c rest =>
      match rstrip_eq rest with
      | EmptyString => if Ascii.eqb c eq_sign then EmptyString else String c EmptyString
      | r => String c r
      end
  end.

Definition strip_eq (s : string) : string := lstrip_eq (rstrip_eq s).

(** No character of [s] is [c]. *)
Fixpoint free_of (c : ascii) (s : string) : bool :=
  match s with
  | EmptyString => true
  | String x rest => negb (Ascii.eqb x c) && free_of c rest
  end.

(* ================================================================== *)
(** ** URL-safe base64 (RFC 4648, section 5) *)

Definition b64_alphabet : string :=
  "ABCDEFGHIJKLMNOPQRSTUVWXYZabcdefghijklmnopqrstuvwxyz0123456789-_".

(** The value of six bits, most significant first. *)
Definition six (x5 x4 x3 x2 x1 x0 : bool) : nat :=
  (if x5 then 32 else 0) + (if x4 then 16 else 0) + (if x3 then 8 else 0)
  + (if x2 then 4 else 0) + (if x1 then 2 else 0) + (if x0 then 1 else 0).

Definition b64_char (n : nat) : ascii :=
  match String.get n b64_alphabet with
  | Some c => c
  | None => "A"%char
  end.

Fixpoint index_from (i : nat) (c : ascii) (s : string) : option nat :=
  match s with
  | EmptyString => None
  | String x rest => if Ascii.eqb x c then Some i else index_from (S i) c rest
  end.

Definition b64_index (c : ascii) : option nat := index_from 0 c b64_alphabet.

Definition bit (n i : nat) : bool := N.testbit (N.of_nat n) (N.of_nat i).

(** Three bytes give four characters, two bytes three, one byte two. *)
Definition enc3 (a b c : ascii) : string :=
  let '(Ascii a0 a1 a2 a3 a4 a5 a6 a7) := a in
  let '(Ascii b0 b1 b2 b3 b4 b5 b6 b7) := b in
  let '(Ascii c0 c1 c2 c3 c4 c5 c6 c7) := c in
  String (b64_char (six a7 a6 a5 a4 a3 a2))
    (String (b64_char (six a1 a0 b7 b6 b5 b4))
       (String (b64_char (six b3 b2 b1 b0 c7 c6))
          (String (b64_char (six c5 c4 c3 c2 c1 c0)) EmptyString))).

Definition enc2 (a b : ascii) : string :=
  let '(Ascii a0 a1 a2 a3 a4 a5 a6 a7) := a in
  let '(Ascii b0 b1 b2 b3 b4 b5 b6 b7) := b in
  String (b64_char (six a7 a6 a5 a4 a3 a2))
    (String (b64_char (six a1 a0 b7 b6 b5 b4))
       (String (b64_char (six b3 b2 b1 b0 false false)) EmptyString)).

Definition enc1 (a : ascii) : string :=
  let '(Ascii a0 a1 a2 a3 a4 a5 a6 a7) := a in
  String (b64_char (six a7 a6 a5 a4 a3 a2))
    (String (b64_char (six a1 a0 false false false false)) EmptyString).

(** [urlsafe_b64encode(s)]: the groups, then the padding. *)
Fixpoint urlsafe_b64encode (s : string) : string :=
  match s with
  | EmptyString => EmptyString
  | String a EmptyString => enc1 a ++ "=="
  | String a (String b EmptyString) => enc2 a b ++ "="
  | String a (String b (String c rest)) => enc3 a b c ++ urlsafe_b64encode rest
  end.

(** The bytes of a group, from the values of its characters. *)
Definition dec_first (n1 n2 : nat) : ascii :=
  Ascii (bit n2 4) (bit n2 5) (bit n1 0) (bit n1 1) (bit n1 2) (bit n1 3) (bit n1 4) (bit n1 5).
Definition dec_second (n2 n3 : nat) : ascii :=
  Ascii (bit n3 2) (bit n3 3) (bit n3 4) (bit n3 5) (bit n2 0) (bit n2 1) (bit n2 2) (bit n2 3).
Definition dec_third (n3 n4 : nat) : ascii :=
  Ascii (bit n4 0) (bit n4 1) (bit n4 2) (bit n4 3) (bit n4 4) (bit n4 5) (bit n3 0) (bit n3 1).

(** The value of a character for the decoder: [urlsafe_b64decode]
    translates ["-"] and ["_"] to ["+"] and ["/"] and hands the text to the
    decoder of the standard alphabet, so both spellings of the last two
    values are read. *)
Definition b64_value (c : ascii) : option nat :=
  if Ascii.eqb c "+"%char then Some 62
  else if Ascii.eqb c "/"%char then Some 63
  else b64_index c.

(** [binascii.a2b_base64] as [b64decode] calls it (not in strict mode).
    The characters are read one by one: a character that is neither of
    the alphabet nor padding is discarded; a data character fills the
    next of the four positions of a group and, from the second position
    on, completes a byte; padding is ignored before the third position of
    a group, and ends the decoding once the group it closes is complete
    (one padding character after three data characters, two after two).
    Text that ends inside a group is rejected.  [quad_pos] is the position
    in the group, [leftchar] the value of the character read last, [pads]
    the number of padding characters seen since. *)
Fixpoint a2b_base64 (s : string) (quad_pos leftchar pads : nat) : result string :=
  match s with
  | EmptyString =>
      match quad_pos with
      | 0 => OK EmptyString
      | _ => Err BinasciiError
      end
  | String c rest =>
      if Ascii.eqb c eq_sign then
        if Nat.leb 2 quad_pos && Nat.leb 4 (quad_pos + S pads) then OK EmptyString
        else a2b_base64 rest quad_pos leftchar (if Nat.leb 2 quad_pos then S pads else pads)
      else
        match b64_value c with
        | None => a2b_base64 rest quad_pos leftchar pads
        | Some v =>
            match quad_pos with
            | 0 => a2b_base64 rest 1 v 0
            | 1 => tl <- a2b_base64 rest 2 v 0 ;; OK (String (dec_first leftchar v) tl)
            | 2 => tl <- a2b_base64 rest 3 v 0 ;; OK (String (dec_second leftchar v) tl)
            | _ => tl <- a2b_base64 rest 0 v 0 ;; OK (String (dec_third leftchar v) tl)
            end
        end
  end.

(** A character of the ASCII range, and text made of such characters. *)
Definition is_ascii_char (c : ascii) : bool :=
  let '(Ascii _ _ _ _ _ _ _ b7) := c in negb b7.

Fixpoint is_ascii (s : string) : bool :=
  match s with
  | EmptyString => true
  | String c rest => is_ascii_char c && is_ascii rest
  end.

Definition NotAsciiText : exn :=
  ValueError "string argument should contain only ASCII characters".

(** [urlsafe_b64decode(s)] on a [str]: the text is encoded as ASCII, which
    fails on any other character, and decoded. *)
Definition urlsafe_b64decode (s : string) : result string :=
  if is_ascii s then a2b_base64 s 0 0 0 else Err NotAsciiText.

(* ================================================================== *)
(** ** The collaborators *)

(** What the module imports from outside the repository: [hashlib],
    [json], [jwcrypto.jwk], the signature primitive behind [jwcrypto.jws],
    and the two constants of [sd_jwt.demo_settings]. *)
Class Collaborators : Type := {
  sha256_digest : string -> string;
  dumps : json -> string;
  dumps_indent : json -> string;
  json_decode : string -> option json;
  JWK : Type;
  export_public : JWK -> json;
  JWK_import : string -> option JWK;
  JWK_eqb : JWK -> JWK -> bool;
  sign : string -> JWK -> string -> string;
  check_signature : string -> JWK -> string -> string -> bool;
  DEFAULT_SIGNIGN_ALG : string;
  SD_CLAIMS_KEY : string
}.

(** [json.loads(s)] *)
Definition loads {X : Collaborators} (s : string) : result json :=
  match json_decode s with
  | Some v => OK v
  | None => Err JSONDecodeError
  end.

(** [JWK.from_json(s)] *)
Definition JWK_from_json {X : Collaborators} (s : string) : result JWK :=
  match JWK_import s with
  | Some k => OK k
  | None => Err InvalidJWKValue
  end.

(** The contract of the JSON codec that the protocol relies on: a document
    that was written is read back unchanged, with or without indentation. *)
Class JsonCodec (X : Collaborators) : Prop := {
  loads_dumps : forall v, loads (dumps v) = OK v;
  loads_dumps_indent : forall v, loads (dumps_indent v) = OK v
}.

(** The settings do not reuse a field name of the token payloads. *)
Definition reserved_names : list string :=
  ["iss"; "sub_jwk"; "iat"; "exp"; "nonce"; "aud"].

Class Settings (X : Collaborators) : Prop := {
  SD_CLAIMS_KEY_fresh : existsb (String.eqb SD_CLAIMS_KEY) reserved_names = false
}.

(** [key_pair signing verifying]: a signature made with the first key is
    accepted under the second. *)
Definition key_pair {X : Collaborators} (signing verifying : JWK) : Prop :=
  forall alg msg, check_signature alg verifying msg (sign alg signing msg) = true.

(* ================================================================== *)
(** ** Randomness and time *)

(** A generator is the sequence of values it is going to produce together
    with the number of values already drawn. *)
Record generator : Type := {
  tape : nat -> N;
  cursor : nat
}.

Definition draw (k : N) (g : generator) : N * generator :=
  ((tape g (cursor g) mod 2 ^ k)%N, {| tape := tape g; cursor := S (cursor g) |}).

(** The state a call can read or change: the generator of module [random]
    (a general-purpose, seedable pseudo-random generator), the entropy of
    the operating system (what [secrets] and [os.urandom] draw from), and
    the clock. *)
Record world : Type := {
  random_module : generator;
  os_entropy : generator;
  utcnow_timestamp : Z
}.

(** [random.getrandbits(k)] *)
Definition random_getrandbits (k : N) (w : world) : N * world :=
  let '(n, g) := draw k (random_module w) in
  (n, {| random_module := g; os_entropy := os_entropy w;
         utcnow_timestamp := utcnow_timestamp w |}).

(** [os.urandom(n)], the source behind module [secrets]. *)
Fixpoint os_urandom (n : nat) (w : world) : string * world :=
  match n with
  | O => (EmptyString, w)
  | S n' =>
      let '(b, g) := draw 8 (os_entropy w) in
      let '(rest, w') :=
        os_urandom n' {| random_module := random_module w; os_entropy := g;
                         utcnow_timestamp := utcnow_timestamp w |} in
      (String (ascii_of_N b) rest, w')
  end.

(** [bytes(random.getrandbits(8) for _ in range(n))] *)
Fixpoint random_bytes (n : nat) (w : world) : string * world :=
  match n with
  | O => (EmptyString, w)
  | S n' =>
      let '(b, w1) := random_getrandbits 8 w in
      let '(rest, w2) := random_bytes n' w1 in
      (String (ascii_of_N b) rest, w2)
  end.

(* ================================================================== *)
(** ** Commitments *)

Definition generate_salt (w : world) : string * world :=
  let '(bytes, w') := random_bytes 16 w in
  (strip_eq (urlsafe_b64encode bytes), w').

Section Operations.

Context {X : Collaborators}.

Definition hash_raw (raw : string) : string :=
  strip_eq (urlsafe_b64encode (sha256_digest raw)).

Definition hash_claim (salt value : json) (return_raw : bool) : string :=
  let raw := dumps (JArr [salt; value]) in
  if return_raw then raw else hash_raw raw.

(** Modelled from the spec: how [sd_jwt.walk.by_structure], which is not
    part of the sources at hand, calls a leaf function when the structure
    has no leaf at the key.  The specification (4.1, 4.4) says that the
    transform fails, with [StructureMismatch], when a leaf function needs
    the structure leaf and there is none: such are the functions whose
    third parameter has no default, [_create_sd_claim_entry],
    [_create_svc_entry], [_check_claim] and the function of the release. *)
Definition required (leaf : option json) : result json :=
  match leaf with
  | Some x => OK x
  | None => Err StructureMismatch
  end.

(** [_create_sd_claim_entry(key, value, salt)] and
    [_create_svc_entry(key, value, salt)]: the commitment, and the text it
    commits to.  The salt is the structure leaf that the transform hands
    over; its absence is the case of [required]. *)
Definition _create_sd_claim_entry (key : string) (value : json) (salt : option json)
  : result json :=
  s <- required salt ;;
  OK (JStr (hash_claim s value false)).

Definition _create_svc_entry (key : string) (value : json) (salt : option json)
  : result json :=
  s <- required salt ;;
  OK (JStr (hash_claim s value true)).

(** [secrets.compare_digest] on two [str]: it raises [TypeError] when one
    of them has a character outside the ASCII range, and otherwise tells
    whether they are equal (its running time is outside the model). *)
Definition compare_digest (a b : string) : result bool :=
  if is_ascii a && is_ascii b then OK (String.eqb a b) else Err TypeError.

(* ================================================================== *)
(** ** The structural transform *)

Section Walk.

Variable S : Type.
Variable fn : string -> json -> option json -> S -> result (json * S).

(** Modelled from the spec: [sd_jwt.walk.by_structure] is imported by the
    module but is not part of the sources at hand.  For each key of the
    data, in order: a nested tree is transformed against the structure's
    tree at that key (the empty tree when the structure has no such key),
    a leaf is handed to [fn] with the structure's leaf at that key, if any.
    A leaf facing a tree, or a tree facing a leaf, is a mismatch. *)
Fixpoint walk_value (key : string) (s : option json) (v : json) (st : S) {struct v}
  : result (json * S) :=
  match v with
  | JObj members =>
      let sub :=
        match s with
        | None => OK []
        | Some (JObj d) => OK d
        | Some _ => Err StructureMismatch
        end in
      structure <- sub ;;
      ' (out, st') <-
        (fix walk (ms : list (string * json)) (st : S) {struct ms}
           : result (dict * S) :=
           match ms with
           | [] => OK ([], st)
           | (k, x) :: rest =>
               ' (r, st1) <- walk_value k (lookup k structure) x st ;;
               ' (rs, st2) <- walk rest st1 ;;
               OK ((k, r) :: rs, st2)
           end) members st ;;
      OK (JObj out, st')
  | _ =>
      match s with
      | Some (JObj _) => Err StructureMismatch
      | _ => fn key v s st
      end
  end.

(** Modelled from the spec: the loop of the transform over the members
    of the data, the result of each member under its own key. *)
Fixpoint walk_members (structure : dict) (ms : dict) (st : S) : result (dict * S) :=
  match ms with
  | [] => OK ([], st)
  | (k, x) :: rest =>
      ' (r, st1) <- walk_value k (lookup k structure) x st ;;
      ' (rs, st2) <- walk_members structure rest st1 ;;
      OK ((k, r) :: rs, st2)
  end.

(** Modelled from the spec: [by_structure(structure, obj, fn)], the entry
    point of the transform, on two trees. *)
Definition by_structure (structure data : dict) (st : S) : result (dict * S) :=
  walk_members structure data st.

End Walk.

(** A leaf function without effect. *)
Definition pure_leaf (f : string -> json -> option json -> result json)
  : string -> json -> option json -> unit -> result (json * unit) :=
  fun k v s st => r <- f k v s ;; OK (r, st).

(** Modelled from the spec: [walk_by_structure(structure, obj, fn)], the
    name under which the module imports the transform, for a leaf function
    without effect. *)
Definition walk_by_structure (structure data : dict)
    (f : string -> json -> option json -> result json) : result dict :=
  r <- by_structure (pure_leaf f) structure data tt ;;
  OK (fst r).

(** The transform is defined on trees: a value that is not a dictionary
    has no items to walk over. *)
Definition as_tree (v : json) : result dict :=
  match v with
  | JObj d => OK d
  | _ => Err TypeError
  end.

(* ================================================================== *)
(** ** Signed tokens in compact form *)

(** [base64url_encode] of the token library: URL-safe, no padding. *)
Definition base64url_encode (s : string) : string :=
  strip_eq (urlsafe_b64encode s).

(** [base64url_decode] of the token library: the padding that the length
    calls for is appended, and the text is decoded. *)
Definition base64url_decode (payload : string) : result string :=
  match String.length payload mod 4 with
  | 0 => a2b_base64 payload 0 0 0
  | 2 => a2b_base64 (payload ++ "==") 0 0 0
  | 3 => a2b_base64 (payload ++ "=") 0 0 0
  | _ => Err (ValueError "Invalid base64 string")
  end.

(** A token object: the text that was signed, the decoded header, payload
    and signature, and whether a signature of the object has been
    verified.  The library hands out the payload of a verified object
    only. *)
Record JWS : Type := {
  jws_signing_input : string;
  jws_protected : string;
  jws_payload : string;
  jws_signature : string;
  jws_valid : bool
}.

(** [JWS(payload=p)], [add_signature(key, alg, protected)] and
    [serialize(compact=True)]. *)
Definition JWS_serialize_compact (payload : string) (key : JWK) (alg protected : string)
  : string :=
  let input := base64url_encode protected ++ String dot (base64url_encode payload) in
  input ++ String dot (base64url_encode (sign alg key input)).

(** [JWS().deserialize(raw)] on a compact token. *)
Definition JWS_deserialize (raw : string) : result JWS :=
  match split_dot raw with
  | [h; p; s] =>
      match base64url_decode h, base64url_decode p, base64url_decode s with
      | OK h', OK p', OK s' =>
          OK {| jws_signing_input := h ++ String dot p;
                jws_protected := h'; jws_payload := p'; jws_signature := s';
                jws_valid := false |}
      | _, _, _ => Err InvalidJWSObject
      end
  | _ => Err InvalidJWSObject
  end.

(** [jws.verify(key, alg=alg)]: the object after the call, marked as
    verified when the signature is good. *)
Definition JWS_verify (t : JWS) (key : JWK) (alg : string) : result JWS :=
  if check_signature alg key (jws_signing_input t) (jws_signature t)
  then OK {| jws_signing_input := jws_signing_input t;
             jws_protected := jws_protected t;
             jws_payload := jws_payload t;
             jws_signature := jws_signature t;
             jws_valid := true |}
  else Err InvalidJWSSignature.

(** [jws.payload]: the library raises [InvalidJWSOperation] ("Payload not
    verified") on an object no signature of which has been verified. *)
Definition JWS_payload (t : JWS) : result string :=
  if jws_valid t then OK (jws_payload t) else Err InvalidJWSOperation.

(* ================================================================== *)
(** ** Issuance *)

Definition DEFAULT_EXP_MINS : Z := 15.

(** [x or d] for an optional integer [x]: [None] and [0] both give [d]. *)
Definition or_int (x : option Z) (d : Z) : Z :=
  match x with
  | Some z => if (z =? 0)%Z then d else z
  | None => d
  end.

(** [lambda _, __, ___=None: generate_salt()] *)
Definition salt_leaf (_ : string) (_ : json) (_ : option json) (w : world)
  : result (json * world) :=
  let '(s, w') := generate_salt w in OK (JStr s, w').

Definition create_sd_jwt_and_svc
    (user_claims : dict) (issuer : string) (issuer_key holder_key : JWK)
    (claim_structure : dict) (iat exp : option Z) (w : world)
  : result ((json * string * json * string) * world) :=
  ' (salts, w') <- by_structure salt_leaf claim_structure user_claims w ;;
  let _iat := or_int iat (utcnow_timestamp w') in
  let _exp := or_int exp (_iat + DEFAULT_EXP_MINS * 60)%Z in
  commitments <- walk_by_structure salts user_claims _create_sd_claim_entry ;;
  let sd_jwt_payload :=
    JObj (mkdict [("iss", JStr issuer);
                  ("sub_jwk", export_public holder_key);
                  ("iat", JNum _iat);
                  ("exp", JNum _exp);
                  (SD_CLAIMS_KEY, JObj commitments)]) in
  let serialized_sd_jwt :=
    JWS_serialize_compact (dumps sd_jwt_payload) issuer_key DEFAULT_SIGNIGN_ALG
      (dumps (JObj (mkdict [("alg", JStr DEFAULT_SIGNIGN_ALG)]))) in
  disclosures <- walk_by_structure salts user_claims _create_svc_entry ;;
  let svc_payload := JObj (mkdict [(SD_CLAIMS_KEY, JObj disclosures)]) in
  let serialized_svc := strip_eq (urlsafe_b64encode (dumps_indent svc_payload)) in
  OK ((sd_jwt_payload, serialized_sd_jwt, svc_payload, serialized_svc), w').

(* ================================================================== *)
(** ** Release *)

(** [lambda _, __, raw: raw] *)
Definition release_leaf (_ : string) (_ : json) (raw : json) : json := raw.

(** Modelled from the spec: the call, by the transform, of a leaf function
    whose third parameter has no default, see [required]. *)
Definition without_default (f : string -> json -> json -> json)
  : string -> json -> option json -> result json :=
  fun key value leaf => x <- required leaf ;; OK (f key value x).

Definition create_release_jwt
    (nonce aud : string) (disclosed_claims : dict) (serialized_svc : string)
    (holder_key : JWK)
  : result (json * string) :=
  bytes <- urlsafe_b64decode (serialized_svc ++ "==") ;;
  svc <- loads bytes ;;
  raw_values <- getitem svc SD_CLAIMS_KEY ;;
  hash_raw_values <- as_tree raw_values ;;
  released <- walk_by_structure hash_raw_values disclosed_claims
                (without_default release_leaf) ;;
  let sd_jwt_release_payload :=
    JObj (mkdict [("nonce", JStr nonce);
                  ("aud", JStr aud);
                  (SD_CLAIMS_KEY, JObj released)]) in
  let serialized_sd_jwt_release :=
    JWS_serialize_compact (dumps sd_jwt_release_payload) holder_key DEFAULT_SIGNIGN_ALG
      (dumps (JObj (mkdict [("alg", JStr DEFAULT_SIGNIGN_ALG)]))) in
  OK (sd_jwt_release_payload, serialized_sd_jwt_release).

(* ================================================================== *)
(** ** Verification *)

Definition _verify_sd_jwt (sd_jwt : string) (issuer_public_key : JWK)
    (expected_issuer : string)
  : result (json * option json) :=
  parsed_input_sd_jwt <- JWS_deserialize sd_jwt ;;
  parsed_input_sd_jwt <-
    JWS_verify parsed_input_sd_jwt issuer_public_key DEFAULT_SIGNIGN_ALG ;;
  payload <- JWS_payload parsed_input_sd_jwt ;;
  sd_jwt_payload <- loads payload ;;
  iss <- getitem sd_jwt_payload "iss" ;;
  if negb (py_eq_opt_str iss (Some expected_issuer)) then Err InvalidIssuer
  else
    present <- py_in SD_CLAIMS_KEY sd_jwt_payload ;;
    if negb present then Err MissingCommitments_sd_jwt
    else
      has_key <- py_in "sub_jwk" sd_jwt_payload ;;
      holder_public_key_payload <-
        (if has_key
         then k <- getitem sd_jwt_payload "sub_jwk" ;; OK (Some k)
         else OK None) ;;
      claims <- getitem sd_jwt_payload SD_CLAIMS_KEY ;;
      OK (claims, holder_public_key_payload).

Definition _verify_sd_jwt_release (sd_jwt_release : string)
    (holder_public_key : option JWK) (expected_aud expected_nonce : option string)
    (holder_public_key_payload : option json)
  : result json :=
  parsed_input_sd_jwt_release <- JWS_deserialize sd_jwt_release ;;
  _ <- match holder_public_key, holder_public_key_payload with
       | Some key, Some embedded =>
           if truthy embedded then
             pubkey <- JWK_from_json (dumps embedded) ;;
             if negb (JWK_eqb key pubkey) then Err HolderKeyMismatch else OK tt
           else OK tt
       | _, _ => OK tt
       end ;;
  parsed_input_sd_jwt_release <-
    match holder_public_key with
    | Some key => JWS_verify parsed_input_sd_jwt_release key DEFAULT_SIGNIGN_ALG
    | None => OK parsed_input_sd_jwt_release
    end ;;
  payload <- JWS_payload parsed_input_sd_jwt_release ;;
  sd_jwt_release_payload <- loads payload ;;
  _ <- match holder_public_key with
       | Some _ =>
           a <- getitem sd_jwt_release_payload "aud" ;;
           if negb (py_eq_opt_str a expected_aud) then Err InvalidAudience
           else
             n <- getitem sd_jwt_release_payload "nonce" ;;
             if negb (py_eq_opt_str n expected_nonce) then Err InvalidNonce
             else OK tt
       | None => OK tt
       end ;;
  present <- py_in SD_CLAIMS_KEY sd_jwt_release_payload ;;
  if negb present then Err MissingCommitments_release
  else getitem sd_jwt_release_payload SD_CLAIMS_KEY.

(** [_check_claim(claim_name, released_value, sd_jwt_claim_value)].  The
    commitment is the structure leaf that the transform hands over; its
    absence is the case of [required].  A released value that is not text
    has no [encode] ([AttributeError]); a commitment that is not text
    cannot be compared with the hash ([TypeError]). *)
Definition _check_claim (claim_name : string) (released_value : json)
    (sd_jwt_claim_value : option json)
  : result json :=
  expected <- required sd_jwt_claim_value ;;
  match released_value, expected with
  | JStr raw, JStr commitment =>
      let hashed_release_value := hash_raw raw in
      same <- compare_digest hashed_release_value commitment ;;
      if negb same
      then Err CommitmentMismatch
      else
        decoded <- loads raw ;;
        match decoded with
        | JArr [_; value] => OK value
        | JArr _ => Err ReleaseNotOfLength2
        | _ => Err ReleaseNotAList
        end
  | JStr _, _ => Err TypeError
  | _, _ => Err AttributeError
  end.

(** The truth value of an optional string argument. *)
Definition given (s : option string) : bool :=
  match s with
  | Some x => negb (String.eqb x EmptyString)
  | None => false
  end.

Definition verify (combined_presentation : string) (issuer_public_key : JWK)
    (expected_issuer : string) (holder_public_key : option JWK)
    (expected_aud expected_nonce : option string)
  : result dict :=
  if match holder_public_key with
     | Some _ => negb (given expected_aud) || negb (given expected_nonce)
     | None => false
     end
  then Err InvalidArguments
  else
    let parts := split_dot combined_presentation in
    if negb (Nat.eqb (List.length parts) 6) then Err MalformedPresentation
    else
      let input_sd_jwt := join_dot (firstn 3 parts) in
      ' (sd_jwt_claims, holder_public_key_payload) <-
        _verify_sd_jwt input_sd_jwt issuer_public_key expected_issuer ;;
      let input_sd_jwt_release := join_dot (skipn 3 parts) in
      sd_jwt_release_claims <-
        _verify_sd_jwt_release input_sd_jwt_release holder_public_key
          expected_aud expected_nonce holder_public_key_payload ;;
      structure <- as_tree sd_jwt_claims ;;
      data <- as_tree sd_jwt_release_claims ;;
      walk_by_structure structure data _check_claim.

End Operations.

(* ================================================================== *)
(** ** Vocabulary of the statements *)

(** The characters of [urlsafe_b64encode s] before the padding. *)
Fixpoint b64_body (s : string) : string :=
  match s with
  | EmptyString => EmptyString
  | String a EmptyString => enc1 a
  | String a (String b EmptyString) => enc2 a b
  | String a (String b (String c rest)) => enc3 a b c ++ b64_body rest
  end.

Definition is_b64_char (c : ascii) : bool :=
  match b64_index c with Some _ => true | None => false end.

Fixpoint all_chars (p : ascii -> bool) (s : string) : bool :=
  match s with
  | EmptyString => true
  | String c rest => p c && all_chars p rest
  end.

Fixpoint distinct (l : list string) : bool :=
  match l with
  | [] => true
  | x :: r => negb (existsb (String.eqb x) r) && distinct r
  end.

(** A tree as a Python [dict] holds it: no key occurs twice in a
    dictionary, at any depth of nesting. *)
Fixpoint well_formed (v : json) : bool :=
  match v with
  | JObj members =>
      distinct (map fst members)
      && (fix all (l : list (string * json)) : bool :=
            match l with
            | [] => true
            | (_, x) :: r => well_formed x && all r
            end) members
  | _ => true
  end.

(** [claim_structure] fits the claims: where the claims have a tree the
    structure has a tree or nothing, where they have a leaf the structure
    has no tree. *)
Fixpoint fits (s : option json) (v : json) : bool :=
  match v with
  | JObj members =>
      match s with
      | None => true
      | Some (JObj d) =>
          (fix all (l : list (string * json)) : bool :=
             match l with
             | [] => true
             | (k, x) :: r => fits (lookup k d) x && all r
             end) members
      | Some _ => false
      end
  | _ => match s with Some (JObj _) => false | _ => true end
  end.

Definition congruent (claim_structure user_claims : dict) : bool :=
  fits (Some (JObj claim_structure)) (JObj user_claims).

(** The chosen claims are a subset of the claims by key: a chosen tree
    sits on a tree, a chosen placeholder on a leaf. *)
Fixpoint within (c : json) (o : option json) : bool :=
  match c with
  | JObj members =>
      match o with
      | Some (JObj d) =>
          (fix all (l : list (string * json)) : bool :=
             match l with
             | [] => true
             | (k, x) :: r => within x (lookup k d) && all r
             end) members
      | _ => false
      end
  | _ =>
      match o with
      | Some (JObj _) => false
      | Some _ => true
      | None => false
      end
  end.

Definition subset_of (chosen user_claims : dict) : bool :=
  within (JObj chosen) (Some (JObj user_claims)).

(** The part of the claims that the chosen keys select. *)
Fixpoint select (c : json) (o : option json) : json :=
  match c with
  | JObj members =>
      JObj ((fix each (l : list (string * json)) : dict :=
               match l with
               | [] => []
               | (k, x) :: r =>
                   (k, select x (match o with
                                 | Some (JObj d) => lookup k d
                                 | _ => None
                                 end)) :: each r
               end) members)
  | _ => match o with Some x => x | None => JNull end
  end.

Definition selected (chosen user_claims : dict) : dict :=
  match select (JObj chosen) (Some (JObj user_claims)) with
  | JObj d => d
  | _ => []
  end.

(** The leaf found by following a path of keys from the root of a tree. *)
Fixpoint leaf_at (path : list string) (v : json) : option json :=
  match path, v with
  | [], JObj _ => None
  | [], _ => Some v
  | k :: p, JObj d =>
      match lookup k d with
      | Some x => leaf_at p x
      | None => None
      end
  | _ :: _, _ => None
  end.

Definition is_tree (v : json) : bool :=
  match v with JObj _ => true | _ => false end.

(** Two dictionaries with the same keys in the same order, their values
    related by [R]. *)
Definition aligned (R : string -> json -> json -> Prop) (a b : dict) : Prop :=
  Forall2 (fun x y => fst x = fst y /\ R (fst x) (snd x) (snd y)) a b.

Unset Elimination Schemes.

(** A tree of salts for a tree of claims: a string at each leaf. *)
Inductive salted : json -> json -> Prop :=
| salted_leaf v s : is_tree v = false -> salted v (JStr s)
| salted_tree ms sms :
    Forall2 (fun x y => fst x = fst y /\ salted (snd x) (snd y)) ms sms ->
    salted (JObj ms) (JObj sms).

(** A commitment tree and a disclosure tree made from the same salts for
    a tree of claims: each disclosure opens the commitment beside it. *)
Inductive opens {X : Collaborators} : json -> json -> json -> Prop :=
| opens_leaf v salt :
    is_tree v = false ->
    opens v (JStr (hash_claim salt v false)) (JStr (hash_claim salt v true))
| opens_tree ms cms dms :
    (forall k x, lookup k ms = Some x ->
       exists c d, lookup k cms = Some c /\ lookup k dms = Some d /\ opens x c d) ->
    opens (JObj ms) (JObj cms) (JObj dms).

Set Elimination Schemes.

(** The text of a compact token with the given header, payload and
    signature. *)
Definition compact (h p s : string) : string :=
  base64url_encode h ++ String dot (base64url_encode p ++ String dot (base64url_encode s)).

Definition succeeds {A : Type} (r : result A) : bool :=
  match r with OK _ => true | Err _ => false end.

(** The payload among the results of issuance. *)
Definition issued_payload {A B C W : Type} (r : result ((json * A * B * C) * W))
  : result json :=
  match r with
  | OK ((p, _, _, _), _) => OK p
  | Err e => Err e
  end.

(** The holder key that the verifier supplies accepts the holder's
    signatures and equals the key that the issuer embedded, and the
    audience and the nonce are not empty. *)
Definition holder_binding {X : Collaborators} (holder_key holder_public_key : JWK)
    (aud nonce : string) : Prop :=
  key_pair holder_key holder_public_key
  /\ (exists pubkey, JWK_from_json (dumps (export_public holder_key)) = OK pubkey
                     /\ JWK_eqb holder_public_key pubkey = true)
  /\ aud <> EmptyString /\ nonce <> EmptyString.

(** The salt comes from the entropy of the operating system: sixteen
    bytes of it are consumed and encoded. *)
Definition drawn_from_os_entropy (w : world) : Prop :=
  generate_salt w =
  (strip_eq (urlsafe_b64encode (fst (os_urandom 16 w))), snd (os_urandom 16 w)).

(** The value found by following a path of keys from the root of a tree,
    whatever that value is. *)
Fixpoint value_at (path : list string) (v : json) : option json :=
  match path with
  | [] => Some v
  | k :: p =>
      match v with
      | JObj d =>
          match lookup k d with
          | Some x => value_at p x
          | None => None
          end
      | _ => None
      end
  end.

(** Two trees with the same keys in the same order and the same nesting;
    their leaves may differ. *)
Fixpoint same_shape (a b : json) : bool :=
  match a, b with
  | JObj ma, JObj mb =>
      (fix go (la lb : list (string * json)) : bool :=
         match la, lb with
         | [], [] => true
         | (k, x) :: ra, (k', y) :: rb => String.eqb k k' && same_shape x y && go ra rb
         | _, _ => false
         end) ma mb
  | JObj _, _ => false
  | _, JObj _ => false
  | _, _ => true
  end.

(** The number of leaves of a tree. *)
Fixpoint leaves (v : json) : nat :=
  match v with
  | JObj members =>
      (fix sum (l : list (string * json)) : nat :=
         match l with
         | [] => 0
         | (_, x) :: r => leaves x + sum r
         end) members
  | _ => 1
  end.

(** The number of dots in a text. *)
Fixpoint count_dots (s : string) : nat :=
  match s with
  | EmptyString => 0
  | String c rest => (if Ascii.eqb c dot then 1 else 0) + count_dots rest
  end.

(** [rejects signing verifying]: no signature made with the first key is
    accepted under the second. *)
Definition rejects {X : Collaborators} (signing verifying : JWK) : Prop :=
  forall alg msg, check_signature alg verifying msg (sign alg signing msg) = false.

(** The exceptions of the three stages of verification. *)
Definition sd_jwt_errors : list exn :=
  [InvalidJWSObject; InvalidJWSSignature; JSONDecodeError; KeyError "iss"; TypeError;
   InvalidIssuer; MissingCommitments_sd_jwt].

Definition release_errors : list exn :=
  [InvalidJWSObject; InvalidJWKValue; HolderKeyMismatch; InvalidJWSSignature;
   InvalidJWSOperation; JSONDecodeError; KeyError "aud"; KeyError "nonce"; TypeError;
   InvalidAudience;
   InvalidNonce; MissingCommitments_release].

Definition check_errors : list exn :=
  [StructureMismatch; TypeError; AttributeError; CommitmentMismatch; JSONDecodeError;
   ReleaseNotAList; ReleaseNotOfLength2].

(** The embedded holder key, if there is a non-empty one, is the key [k]. *)
Definition embedded_key_is {X : Collaborators} (k : JWK) (embedded : option json) : Prop :=
  match embedded with
  | Some e =>
      truthy e = true ->
      exists pubkey, JWK_from_json (dumps e) = OK pubkey /\ JWK_eqb k pubkey = true
  | None => True
  end.

(* ================================================================== *)
(** ** A concrete set of collaborators

    A compact JSON printer and reader, a checksum in the place of the
    digest, and keys that are names: enough to run the three operations on
    concrete inputs. *)

Module Demo.

Fixpoint print_uint (d : Decimal.uint) : string :=
  match d with
  | Decimal.Nil => EmptyString
  | Decimal.D0 r => String "0" (print_uint r)
  | Decimal.D1 r => String "1" (print_uint r)
  | Decimal.D2 r => String "2" (print_uint r)
  | Decimal.D3 r => String "3" (print_uint r)
  | Decimal.D4 r => String "4" (print_uint r)
  | Decimal.D5 r => String "5" (print_uint r)
  | Decimal.D6 r => String "6" (print_uint r)
  | Decimal.D7 r => String "7" (print_uint r)
  | Decimal.D8 r => String "8" (print_uint r)
  | Decimal.D9 r => String "9" (print_uint r)
  end.

Definition print_Z (z : Z) : string :=
  match Z.to_int z with
  | Decimal.Pos d => print_uint d
  | Decimal.Neg d => String "-" (print_uint d)
  end.

Definition is_digit (c : ascii) : bool :=
  match c with
  | "0" | "1" | "2" | "3" | "4" | "5" | "6" | "7" | "8" | "9" => true
  | _ => false
  end%char.

(** The longest run of digits at the head of a text, and what follows. *)
Fixpoint take_uint (s : string) : Decimal.uint * string :=
  match s with
  | EmptyString => (Decimal.Nil, s)
  | String c rest =>
      let '(d, r) := take_uint rest in
      match c with
      | "0" => (Decimal.D0 d, r)
      | "1" => (Decimal.D1 d, r)
      | "2" => (Decimal.D2 d, r)
      | "3" => (Decimal.D3 d, r)
      | "4" => (Decimal.D4 d, r)
      | "5" => (Decimal.D5 d, r)
      | "6" => (Decimal.D6 d, r)
      | "7" => (Decimal.D7 d, r)
      | "8" => (Decimal.D8 d, r)
      | "9" => (Decimal.D9 d, r)
      | _ => (Decimal.Nil, s)
      end%char
  end.

Definition starts_with_digit (s : string) : bool :=
  match s with
  | EmptyString => false
  | String c _ => is_digit c
  end.

Definition quote_char : ascii := "034"%char.
Definition backslash : ascii := "\"%char.

Fixpoint escape (s : string) : string :=
  match s with
  | EmptyString => EmptyString
  | String c rest =>
      if Ascii.eqb c quote_char || Ascii.eqb c backslash
      then String backslash (String c (escape rest))
      else String c (escape rest)
  end.

Definition print_string (s : string) : string :=
  String quote_char (escape s ++ String quote_char EmptyString).

(** The text of a string literal after its opening quote. *)
Fixpoint read_string (s : string) : option (string * string) :=
  match s with
  | EmptyString => None
  | String c rest =>
      if Ascii.eqb c quote_char then Some (EmptyString, rest)
      else if Ascii.eqb c backslash then
        match rest with
        | EmptyString => None
        | String c' rest' =>
            match read_string rest' with
            | Some (t, r) => Some (String c' t, r)
            | None => None
            end
        end
      else
        match read_string rest with
        | Some (t, r) => Some (String c t, r)
        | None => None
        end
  end.

Fixpoint print_json (v : json) : string :=
  match v with
  | JNull => "null"
  | JBool true => "true"
  | JBool false => "false"
  | JNum n => print_Z n
  | JStr s => print_string s
  | JArr items =>
      String "["
        (match items with
         | [] => "]"
         | x :: r =>
             print_json x ++
             (fix more (l : list json) : string :=
                match l with
                | [] => "]"
                | y :: l' => ", " ++ print_json y ++ more l'
                end) r
         end)
  | JObj members =>
      String "{"
        (match members with
         | [] => "}"
         | (k, x) :: r =>
             print_string k ++ ": " ++ print_json x ++
             (fix more (l : list (string * json)) : string :=
                match l with
                | [] => "}"
                | (k', y) :: l' => ", " ++ print_string k' ++ ": " ++ print_json y ++ more l'
                end) r
         end)
  end.

Fixpoint print_more_items (l : list json) : string :=
  match l with
  | [] => "]"
  | y :: l' => ", " ++ print_json y ++ print_more_items l'
  end.

Fixpoint print_more_members (l : list (string * json)) : string :=
  match l with
  | [] => "}"
  | (k, y) :: l' => ", " ++ print_string k ++ ": " ++ print_json y ++ print_more_members l'
  end.

Definition read_number (s : string) : option (json * string) :=
  match s with
  | String "-" rest =>
      match take_uint rest with
      | (Decimal.Nil, _) => None
      | (d, r) => Some (JNum (Z.of_int (Decimal.Neg d)), r)
      end
  | _ =>
      match take_uint s with
      | (Decimal.Nil, _) => None
      | (d, r) => Some (JNum (Z.of_int (Decimal.Pos d)), r)
      end
  end.

(** A recursive-descent reader; [fuel] bounds the number of values and
    separators it may still read. *)
Fixpoint read_value (fuel : nat) (s : string) {struct fuel} : option (json * string) :=
  match fuel with
  | O => None
  | S fuel' =>
      match s with
      | String "n" (String "u" (String "l" (String "l" r))) => Some (JNull, r)
      | String "t" (String "r" (String "u" (String "e" r))) => Some (JBool true, r)
      | String "f" (String "a" (String "l" (String "s" (String "e" r)))) =>
          Some (JBool false, r)
      | String "034" r =>
          match read_string r with
          | Some (t, r') => Some (JStr t, r')
          | None => None
          end
      | String "[" (String "]" r) => Some (JArr [], r)
      | String "[" r =>
          match read_value fuel' r with
          | Some (x, r1) =>
              match read_more_items fuel' r1 with
              | Some (xs, r2) => Some (JArr (x :: xs), r2)
              | None => None
              end
          | None => None
          end
      | String "{" (String "}" r) => Some (JObj [], r)
      | String "{" (String "034" r) =>
          match read_string r with
          | Some (k, String ":" (String " " r0)) =>
              match read_value fuel' r0 with
              | Some (x, r1) =>
                  match read_more_members fuel' r1 with
                  | Some (xs, r2) => Some (JObj ((k, x) :: xs), r2)
                  | None => None
                  end
              | None => None
              end
          | _ => None
          end
      | _ => read_number s
      end
  end

with read_more_items (fuel : nat) (s : string) {struct fuel} : option (list json * string) :=
  match fuel with
  | O => None
  | S fuel' =>
      match s with
      | String "]" r => Some ([], r)
      | String "," (String " " r) =>
          match read_value fuel' r with
          | Some (x, r1) =>
              match read_more_items fuel' r1 with
              | Some (xs, r2) => Some (x :: xs, r2)
              | None => None
              end
          | None => None
          end
      | _ => None
      end
  end

with read_more_members (fuel : nat) (s : string) {struct fuel}
  : option (list (string * json) * string) :=
  match fuel with
  | O => None
  | S fuel' =>
      match s with
      | String "}" r => Some ([], r)
      | String "," (String " " (String "034" r)) =>
          match read_string r with
          | Some (k, String ":" (String " " r0)) =>
              match read_value fuel' r0 with
              | Some (x, r1) =>
                  match read_more_members fuel' r1 with
                  | Some (xs, r2) => Some ((k, x) :: xs, r2)
                  | None => None
                  end
              | None => None
              end
          | _ => None
          end
      | _ => None
      end
  end.

(** The number of values and separators in a document: a bound on the
    fuel that reading its text takes. *)
Fixpoint json_size (v : json) : nat :=
  match v with
  | JArr items =>
      S ((fix go (l : list json) : nat :=
            match l with
            | [] => 0
            | x :: r => S (json_size x + go r)
            end) items)
  | JObj members =>
      S ((fix go (l : list (string * json)) : nat :=
            match l with
            | [] => 0
            | (_, x) :: r => S (json_size x + go r)
            end) members)
  | _ => 1
  end.

Fixpoint items_size (l : list json) : nat :=
  match l with
  | [] => 0
  | x :: r => S (json_size x + items_size r)
  end.

Fixpoint members_size (l : list (string * json)) : nat :=
  match l with
  | [] => 0
  | (_, x) :: r => S (json_size x + members_size r)
  end.

(** The whole text must be one document. *)
Definition read_json (s : string) : option json :=
  match read_value (S (String.length s)) s with
  | Some (v, EmptyString) => Some v
  | _ => None
  end.

(** A four-byte checksum standing in for the digest. *)
Definition checksum (s : string) : string :=
  let h := fold_left (fun acc c => ((acc * 31 + N.of_nat (nat_of_ascii c)) mod 4294967296)%N)
             (list_ascii_of_string s) 7%N in
  String (ascii_of_N (h / 16777216))
    (String (ascii_of_N ((h / 65536) mod 256))
       (String (ascii_of_N ((h / 256) mod 256))
          (String (ascii_of_N (h mod 256)) EmptyString))).

(** A key is the name of its owner; the public export carries the name. *)
Definition key_export (k : string) : json :=
  JObj [("kty", JStr "demo"); ("kid", JStr k)].

Definition key_import (s : string) : option string :=
  match read_json s with
  | Some (JObj d) =>
      match lookup "kid" d with
      | Some (JStr k) => Some k
      | _ => None
      end
  | _ => None
  end.

Definition make_signature (alg key msg : string) : string :=
  alg ++ "/" ++ key ++ "/" ++ checksum msg.

#[export] Instance collaborators : Collaborators := {|
  sha256_digest := checksum;
  dumps := print_json;
  dumps_indent := print_json; (* the indented form is printed like the compact one *)
  json_decode := read_json;
  JWK := string;
  export_public := key_export;
  JWK_import := key_import;
  JWK_eqb := String.eqb;
  sign := make_signature;
  check_signature := fun alg key msg sig => String.eqb sig (make_signature alg key msg);
  DEFAULT_SIGNIGN_ALG := "RS256";
  SD_CLAIMS_KEY := "_sd"
|}.

(** An all-zero generator, a counter, and two worlds built from them. *)
Definition counting : generator := {| tape := fun n => N.of_nat (7 * n + 3); cursor := 0 |}.
Definition silent : generator := {| tape := fun _ => 0%N; cursor := 0 |}.

Definition world0 : world :=
  {| random_module := counting; os_entropy := silent; utcnow_timestamp := 1000 |}.

Definition claims0 : dict :=
  [("sub", JStr "abc"); ("address", JObj [("city", JStr "X"); ("zip", JNum 42)])].

Definition chosen0 : dict :=
  [("address", JObj [("city", JNull)])].

(** One run of issuance and release, and its parts. *)
Definition issued0 :=
  create_sd_jwt_and_svc claims0 "iss" "issuer" "holder" [] None None world0.

Definition sd_jwt_payload0 : json :=
  match issued0 with OK ((p, _, _, _), _) => p | Err _ => JNull end.
Definition sd_jwt0 : string :=
  match issued0 with OK ((_, t, _, _), _) => t | Err _ => EmptyString end.
Definition svc_payload0 : json :=
  match issued0 with OK ((_, _, p, _), _) => p | Err _ => JNull end.
Definition svc0 : string :=
  match issued0 with OK ((_, _, _, s), _) => s | Err _ => EmptyString end.

Definition commitments0 : json :=
  match getitem sd_jwt_payload0 "_sd" with OK c => c | Err _ => JNull end.

Definition released0 := create_release_jwt "n1" "aud1" chosen0 svc0 "holder".

Definition release_payload0 : json :=
  match released0 with OK (p, _) => p | Err _ => JNull end.
Definition release0 : string :=
  match released0 with OK (_, t) => t | Err _ => EmptyString end.

Definition presentation0 : string := sd_jwt0 ++ "." ++ release0.

Definition protected0 : string := print_json (JObj [("alg", JStr "RS256")]).

(** A token of the same issuer over the same commitments that embeds no
    holder key. *)
Definition keyless_sd_jwt : string :=
  JWS_serialize_compact
    (print_json (JObj [("iss", JStr "iss"); ("iat", JNum 1000); ("exp", JNum 1900);
                       ("_sd", commitments0)]))
    "issuer" "RS256" protected0.

(** The state of the process after the run of issuance. *)
Definition world1 : world :=
  match issued0 with OK (_, w) => w | Err _ => world0 end.

(** A second run of issuance from the same state, with timestamps of the
    caller that lie in the past of the clock. *)
Definition issued1 :=
  create_sd_jwt_and_svc claims0 "iss" "issuer" "holder" [] (Some 5%Z) (Some 6%Z) world0.

Definition sd_jwt_payload1 : json :=
  match issued1 with OK ((p, _, _, _), _) => p | Err _ => JNull end.
Definition sd_jwt1 : string :=
  match issued1 with OK ((_, t, _, _), _) => t | Err _ => EmptyString end.

(** A choice with the keys of [chosen0] and another placeholder. *)
Definition chosen1 : dict :=
  [("address", JObj [("city", JBool true)])].

End Demo.

Unset Implicit Arguments.

(* ================================================================== *)
(** * Properties *)

(** ** Strings *)

Lemma append_assoc (a b c : string) : (a ++ b) ++ c = a ++ (b ++ c).
Proof. induction a as [|x a IH]; simpl; [reflexivity | now rewrite IH]. Qed.

Lemma append_nil_r (a : string) : a ++ EmptyString = a.
Proof. induction a as [|x a IH]; simpl; [reflexivity | now rewrite IH]. Qed.

Lemma length_append (a b : string) :
  String.length (a ++ b) = String.length a + String.length b.
Proof. induction a as [|x a IH]; simpl; [reflexivity | now rewrite IH]. Qed.

Lemma free_of_append c (a b : string) :
  free_of c (a ++ b) = free_of c a && free_of c b.
Proof.
  induction a as [|x a IH]; simpl; [reflexivity|].
  rewrite IH. now rewrite andb_assoc.
Qed.

Lemma split_dot_free s : free_of dot s = true -> split_dot s = [s].
Proof.
  induction s as [|c s IH]; simpl; [reflexivity|].
  intros H. apply andb_true_iff in H as [Hc Hs].
  apply negb_true_iff in Hc. rewrite Hc, (IH Hs). reflexivity.
Qed.

Lemma split_dot_app s r :
  free_of dot s = true -> split_dot (s ++ String dot r) = s :: split_dot r.
Proof.
  induction s as [|c s IH]; simpl.
  - intros _. reflexivity.
  - intros H. apply andb_true_iff in H as [Hc Hs].
    apply negb_true_iff in Hc. rewrite Hc, (IH Hs). reflexivity.
Qed.

Lemma rstrip_eq_free s : free_of eq_sign s = true -> rstrip_eq s = s.
Proof.
  induction s as [|c s IH]; simpl; [reflexivity|].
  intros H. apply andb_true_iff in H as [Hc Hs].
  apply negb_true_iff in Hc. rewrite (IH Hs), Hc. now destruct s.
Qed.

Lemma rstrip_eq_padding s p :
  free_of eq_sign s = true -> all_chars (Ascii.eqb eq_sign) p = true ->
  rstrip_eq (s ++ p) = s.
Proof.
  intros Hs Hp.
  assert (Hpad : rstrip_eq p = EmptyString).
  { induction p as [|c p IH]; [reflexivity|].
    cbn [all_chars] in Hp. apply andb_true_iff in Hp as [Hc Hp].
    cbn [rstrip_eq]. rewrite (IH Hp).
    rewrite Ascii.eqb_sym in Hc. now rewrite Hc. }
  induction s as [|c s IH]; simpl; [exact Hpad|].
  simpl in Hs. apply andb_true_iff in Hs as [Hc Hs].
  apply negb_true_iff in Hc. rewrite (IH Hs), Hc. now destruct s.
Qed.

Lemma lstrip_eq_free s : free_of eq_sign s = true -> lstrip_eq s = s.
Proof.
  destruct s as [|c s]; simpl; [reflexivity|].
  intros H. apply andb_true_iff in H as [Hc _].
  apply negb_true_iff in Hc. now rewrite Hc.
Qed.

Lemma strip_eq_padding s p :
  free_of eq_sign s = true -> all_chars (Ascii.eqb eq_sign) p = true ->
  strip_eq (s ++ p) = s.
Proof.
  intros Hs Hp. unfold strip_eq.
  rewrite (rstrip_eq_padding _ _ Hs Hp). now apply lstrip_eq_free.
Qed.

(** Induction over a text three characters at a time. *)
Lemma string_ind3 (P : string -> Prop) :
  P EmptyString ->
  (forall a, P (String a EmptyString)) ->
  (forall a b, P (String a (String b EmptyString))) ->
  (forall a b c r, P r -> P (String a (String b (String c r)))) ->
  forall s, P s.
Proof.
  intros H0 H1 H2 H3.
  fix go 1. intros [|a [|b [|c r]]].
  - exact H0.
  - apply H1.
  - apply H2.
  - apply H3, go.
Qed.

(** ** URL-safe base64 *)

Lemma b64_index_char x5 x4 x3 x2 x1 x0 :
  b64_index (b64_char (six x5 x4 x3 x2 x1 x0)) = Some (six x5 x4 x3 x2 x1 x0).
Proof. destruct x5, x4, x3, x2, x1, x0; reflexivity. Qed.

Lemma bit_six x5 x4 x3 x2 x1 x0 :
  let n := six x5 x4 x3 x2 x1 x0 in
  bit n 5 = x5 /\ bit n 4 = x4 /\ bit n 3 = x3
  /\ bit n 2 = x2 /\ bit n 1 = x1 /\ bit n 0 = x0.
Proof. destruct x5, x4, x3, x2, x1, x0; repeat split; reflexivity. Qed.

Lemma b64_char_plain x5 x4 x3 x2 x1 x0 :
  let c := b64_char (six x5 x4 x3 x2 x1 x0) in
  Ascii.eqb c eq_sign = false /\ Ascii.eqb c dot = false.
Proof. destruct x5, x4, x3, x2, x1, x0; split; reflexivity. Qed.

Ltac plain_chars :=
  repeat match goal with
         | |- context [Ascii.eqb (b64_char (six ?a ?b ?c ?d ?e ?f)) eq_sign] =>
             rewrite (proj1 (b64_char_plain a b c d e f))
         | |- context [Ascii.eqb (b64_char (six ?a ?b ?c ?d ?e ?f)) dot] =>
             rewrite (proj2 (b64_char_plain a b c d e f))
         end.

Lemma b64_body_plain s :
  free_of eq_sign (b64_body s) = true /\ free_of dot (b64_body s) = true.
Proof.
  induction s as [|a|a b|a b c r [IH1 IH2]] using string_ind3.
  - split; reflexivity.
  - destruct a; simpl; plain_chars; split; reflexivity.
  - destruct a, b; simpl; plain_chars; split; reflexivity.
  - destruct a, b, c. cbn [b64_body enc3 append free_of].
    plain_chars. rewrite IH1, IH2. split; reflexivity.
Qed.

Lemma urlsafe_b64encode_body s :
  exists p, urlsafe_b64encode s = b64_body s ++ p
            /\ all_chars (Ascii.eqb eq_sign) p = true.
Proof.
  induction s as [|a|a b|a b c r [p [IH1 IH2]]] using string_ind3.
  - exists EmptyString. split; reflexivity.
  - exists "==". split; reflexivity.
  - exists "=". split; reflexivity.
  - exists p. split; [|exact IH2].
    cbn [urlsafe_b64encode b64_body]. rewrite IH1. now rewrite append_assoc.
Qed.

Lemma base64url_encode_body s : base64url_encode s = b64_body s.
Proof.
  unfold base64url_encode.
  destruct (urlsafe_b64encode_body s) as [p [-> Hp]].
  apply strip_eq_padding; [apply b64_body_plain | exact Hp].
Qed.

Ltac index_chars :=
  repeat match goal with
         | |- context [b64_index (b64_char (six ?a ?b ?c ?d ?e ?f))] =>
             rewrite (b64_index_char a b c d e f)
         end.

Ltac six_bits :=
  repeat match goal with
         | |- context [bit (six ?a ?b ?c ?d ?e ?f) _] =>
             let H := fresh in
             let H5 := fresh in let H4 := fresh in let H3 := fresh in
             let H2 := fresh in let H1 := fresh in let H0 := fresh in
             pose proof (bit_six a b c d e f) as H; cbv zeta in H;
             destruct H as (H5 & H4 & H3 & H2 & H1 & H0);
             rewrite ?H5, ?H4, ?H3, ?H2, ?H1, ?H0;
             clear H5 H4 H3 H2 H1 H0
         end.

Lemma b64_value_char x5 x4 x3 x2 x1 x0 :
  b64_value (b64_char (six x5 x4 x3 x2 x1 x0)) = Some (six x5 x4 x3 x2 x1 x0).
Proof. destruct x5, x4, x3, x2, x1, x0; reflexivity. Qed.

(** One step of the decoder on a character of the alphabet. *)
Lemma a2b_base64_char x5 x4 x3 x2 x1 x0 rest quad_pos leftchar pads :
  a2b_base64 (String (b64_char (six x5 x4 x3 x2 x1 x0)) rest) quad_pos leftchar pads =
  let v := six x5 x4 x3 x2 x1 x0 in
  match quad_pos with
  | 0 => a2b_base64 rest 1 v 0
  | 1 => tl <- a2b_base64 rest 2 v 0 ;; OK (String (dec_first leftchar v) tl)
  | 2 => tl <- a2b_base64 rest 3 v 0 ;; OK (String (dec_second leftchar v) tl)
  | _ => tl <- a2b_base64 rest 0 v 0 ;; OK (String (dec_third leftchar v) tl)
  end.
Proof.
  cbn [a2b_base64].
  rewrite (proj1 (b64_char_plain x5 x4 x3 x2 x1 x0)), b64_value_char. reflexivity.
Qed.

Lemma a2b_base64_padding quad_pos leftchar :
  a2b_base64 "==" (match quad_pos with 1 => 0 | _ => quad_pos end) leftchar 0
  = OK EmptyString.
Proof. destruct quad_pos as [|[|[|[|n]]]]; reflexivity. Qed.

Lemma a2b_base64_pad leftchar : a2b_base64 "=" 3 leftchar 0 = OK EmptyString.
Proof. reflexivity. Qed.

(** The decoder reads back the characters of an encoding, followed by
    the padding of the encoder or by two padding characters. *)
Lemma a2b_base64_body s : forall leftchar,
  a2b_base64 (urlsafe_b64encode s) 0 leftchar 0 = OK s
  /\ a2b_base64 (b64_body s ++ "==") 0 leftchar 0 = OK s.
Proof.
  induction s as [|a|a b|a b c r IH] using string_ind3; intros l.
  - split; reflexivity.
  - destruct a. cbn [urlsafe_b64encode b64_body enc1 append].
    repeat (rewrite a2b_base64_char; cbv beta iota zeta).
    rewrite (a2b_base64_padding 2). cbn [bind].
    unfold dec_first. six_bits. split; reflexivity.
  - destruct a, b. cbn [urlsafe_b64encode b64_body enc2 append].
    repeat (rewrite a2b_base64_char; cbv beta iota zeta).
    rewrite a2b_base64_pad, (a2b_base64_padding 3). cbn [bind].
    unfold dec_first, dec_second. six_bits. split; reflexivity.
  - destruct a, b, c. cbn [urlsafe_b64encode b64_body enc3 append].
    repeat (rewrite a2b_base64_char; cbv beta iota zeta).
    destruct (IH (six b5 b4 b3 b2 b1 b0)) as [E1 E2].
    match goal with |- context [a2b_base64 (urlsafe_b64encode r) 0 ?v 0] =>
      destruct (IH v) as [E1' E2'] end.
    rewrite E1', E2'. cbn [bind].
    unfold dec_first, dec_second, dec_third. six_bits. split; reflexivity.
Qed.

Lemma is_b64_char_ascii c : is_b64_char c = true -> is_ascii_char c = true.
Proof.
  destruct c as [b0 b1 b2 b3 b4 b5 b6 []]; [|reflexivity].
  destruct b0, b1, b2, b3, b4, b5, b6; intros H; discriminate H.
Qed.

Lemma is_ascii_append a b : is_ascii (a ++ b) = is_ascii a && is_ascii b.
Proof.
  induction a as [|x a IH]; [reflexivity|].
  cbn [append is_ascii]. rewrite IH. now rewrite andb_assoc.
Qed.

Lemma b64_char_ascii x5 x4 x3 x2 x1 x0 :
  is_ascii_char (b64_char (six x5 x4 x3 x2 x1 x0)) = true.
Proof. destruct x5, x4, x3, x2, x1, x0; reflexivity. Qed.

Lemma b64_body_ascii s : is_ascii (b64_body s) = true.
Proof.
  induction s as [|a|a b|a b c r IH] using string_ind3.
  - reflexivity.
  - destruct a. cbn [b64_body enc1 is_ascii]. now rewrite !b64_char_ascii.
  - destruct a, b. cbn [b64_body enc2 is_ascii]. now rewrite !b64_char_ascii.
  - destruct a, b, c. cbn [b64_body enc3 append is_ascii].
    now rewrite !b64_char_ascii, IH.
Qed.

Lemma base64url_encode_ascii s : is_ascii (base64url_encode s) = true.
Proof. rewrite base64url_encode_body. apply b64_body_ascii. Qed.

(** Decoding undoes encoding, once two padding characters are put back. *)
Lemma urlsafe_b64decode_encode s :
  urlsafe_b64decode (base64url_encode s ++ "==") = OK s.
Proof.
  unfold urlsafe_b64decode.
  rewrite is_ascii_append, base64url_encode_ascii. cbn [is_ascii is_ascii_char andb negb].
  rewrite base64url_encode_body. apply a2b_base64_body.
Qed.

(** The padding that the token library appends is the padding that the
    encoder had produced. *)
Lemma padding_by_length s :
  match String.length (b64_body s) mod 4 with
  | 0 => Some (b64_body s)
  | 2 => Some (b64_body s ++ "==")
  | 3 => Some (b64_body s ++ "=")
  | _ => None
  end = Some (urlsafe_b64encode s).
Proof.
  induction s as [|a|a b|a b c r IH] using string_ind3.
  - reflexivity.
  - destruct a. reflexivity.
  - destruct a, b. reflexivity.
  - assert (L : String.length (b64_body (String a (String b (String c r))))
                = String.length (b64_body r) + 1 * 4).
    { destruct a, b, c. cbn [b64_body enc3 append String.length]. lia. }
    rewrite L, Nat.Div0.mod_add.
    assert (E : forall p, b64_body (String a (String b (String c r))) ++ p
                          = enc3 a b c ++ (b64_body r ++ p))
      by (intros p; cbn [b64_body]; apply append_assoc).
    cbn [urlsafe_b64encode].
    destruct (String.length (b64_body r) mod 4) as [|[|[|[|n]]]];
      try discriminate IH; injection IH as <-.
    + reflexivity.
    + now rewrite E.
    + now rewrite E.
Qed.

Lemma base64url_decode_encode s : base64url_decode (base64url_encode s) = OK s.
Proof.
  rewrite base64url_encode_body. unfold base64url_decode.
  pose proof (padding_by_length s) as P.
  destruct (String.length (b64_body s) mod 4) as [|[|[|[|n]]]];
    try discriminate P; injection P as ->; apply a2b_base64_body.
Qed.

Lemma base64url_encode_free_dot s : free_of dot (base64url_encode s) = true.
Proof. rewrite base64url_encode_body. apply b64_body_plain. Qed.

(** ** Compact tokens *)

Section Tokens.

Context {X : Collaborators}.

Lemma JWS_serialize_compact_parts payload key alg protected :
  JWS_serialize_compact payload key alg protected =
  compact protected payload
    (sign alg key (base64url_encode protected ++ String dot (base64url_encode payload))).
Proof.
  unfold JWS_serialize_compact, compact. cbv zeta.
  rewrite append_assoc. reflexivity.
Qed.

Lemma split_dot_compact h p s :
  split_dot (compact h p s) =
  [base64url_encode h; base64url_encode p; base64url_encode s].
Proof.
  unfold compact.
  rewrite split_dot_app by apply base64url_encode_free_dot.
  rewrite split_dot_app by apply base64url_encode_free_dot.
  rewrite split_dot_free by apply base64url_encode_free_dot.
  reflexivity.
Qed.

Lemma JWS_deserialize_compact h p s :
  JWS_deserialize (compact h p s) =
  OK {| jws_signing_input := base64url_encode h ++ String dot (base64url_encode p);
        jws_protected := h; jws_payload := p; jws_signature := s;
        jws_valid := false |}.
Proof.
  unfold JWS_deserialize. rewrite split_dot_compact.
  rewrite !base64url_decode_encode. reflexivity.
Qed.

Lemma JWS_verify_compact payload signing verifying alg protected t :
  key_pair signing verifying ->
  JWS_deserialize (JWS_serialize_compact payload signing alg protected) = OK t ->
  (verified <- JWS_verify t verifying alg ;; JWS_payload verified) = OK payload
  /\ jws_payload t = payload.
Proof.
  intros Hk. rewrite JWS_serialize_compact_parts, JWS_deserialize_compact.
  intros [= <-]. unfold JWS_verify, JWS_payload.
  cbn [jws_signing_input jws_signature jws_payload jws_protected jws_valid].
  rewrite Hk. split; reflexivity.
Qed.

(** A presentation made of two compact tokens has six parts, and they
    are put back into the two tokens. *)
Lemma split_dot_presentation h1 p1 s1 h2 p2 s2 :
  let parts := split_dot (compact h1 p1 s1 ++ String dot (compact h2 p2 s2)) in
  List.length parts = 6
  /\ join_dot (firstn 3 parts) = compact h1 p1 s1
  /\ join_dot (skipn 3 parts) = compact h2 p2 s2.
Proof.
  cbv zeta.
  assert (E : split_dot (compact h1 p1 s1 ++ String dot (compact h2 p2 s2)) =
              [base64url_encode h1; base64url_encode p1; base64url_encode s1;
               base64url_encode h2; base64url_encode p2; base64url_encode s2]).
  { unfold compact at 1. rewrite !append_assoc. cbn [append].
    rewrite !append_assoc. cbn [append].
    rewrite !split_dot_app by apply base64url_encode_free_dot.
    rewrite split_dot_compact. reflexivity. }
  rewrite E. repeat split; reflexivity.
Qed.

End Tokens.

(** ** Dictionaries *)

Lemma lookup_In k d x : lookup k d = Some x -> In (k, x) d.
Proof.
  induction d as [|[k' v] d IH]; simpl; [discriminate|].
  destruct (String.eqb_spec k k') as [->|_].
  - intros [= ->]. now left.
  - intros H. right. now apply IH.
Qed.

Lemma existsb_eqb_In x l : existsb (String.eqb x) l = true <-> In x l.
Proof.
  rewrite existsb_exists. split.
  - intros [y [Hy E]]. apply String.eqb_eq in E. now subst.
  - intros H. exists x. split; [exact H | apply String.eqb_refl].
Qed.

Lemma distinct_lookup k x d :
  distinct (map fst d) = true -> In (k, x) d -> lookup k d = Some x.
Proof.
  induction d as [|[k' v] d IH]; simpl; [intros _ []|].
  intros H. apply andb_true_iff in H as [Hk Hd].
  intros [[= -> ->]|Hin].
  - now rewrite String.eqb_refl.
  - destruct (String.eqb_spec k k') as [->|_]; [|now apply IH].
    apply negb_true_iff in Hk.
    assert (In k' (map fst d)) as Hin' by (apply (in_map fst) in Hin; exact Hin).
    apply existsb_eqb_In in Hin'. congruence.
Qed.

Lemma aligned_lookup R a b k x :
  aligned R a b -> lookup k a = Some x ->
  exists y, lookup k b = Some y /\ R k x y.
Proof.
  induction 1 as [|[k1 v1] [k2 v2] a b [Hk HR] _ IH]; simpl; [discriminate|].
  simpl in Hk, HR. subst k2.
  destruct (String.eqb_spec k k1) as [->|_].
  - intros [= ->]. now exists v2.
  - exact IH.
Qed.

Lemma aligned_lookup_none R a b k :
  aligned R a b -> lookup k a = None -> lookup k b = None.
Proof.
  induction 1 as [|[k1 v1] [k2 v2] a b [Hk HR] _ IH]; simpl; [reflexivity|].
  simpl in Hk. subst k2. destruct (String.eqb k k1); [discriminate | exact IH].
Qed.

(** ** The structural transform *)

Section WalkFacts.

Context {X : Collaborators}.

Lemma walk_value_tree S (fn : string -> json -> option json -> S -> result (json * S))
    key s ms st :
  walk_value fn key s (JObj ms) st =
  match s with
  | Some (JObj d) =>
      match walk_members fn d ms st with
      | OK (out, st') => OK (JObj out, st')
      | Err e => Err e
      end
  | None =>
      match walk_members fn [] ms st with
      | OK (out, st') => OK (JObj out, st')
      | Err e => Err e
      end
  | Some _ => Err StructureMismatch
  end.
Proof.
  assert (E : forall structure st0,
             (fix walk (ms : list (string * json)) (st : S) {struct ms}
                : result (dict * S) :=
                match ms with
                | [] => OK ([], st)
                | (k, x) :: rest =>
                    ' (r, st1) <- walk_value fn k (lookup k structure) x st ;;
                    ' (rs, st2) <- walk rest st1 ;;
                    OK ((k, r) :: rs, st2)
                end) ms st0 = walk_members fn structure ms st0).
  { intros structure. induction ms as [|[k x] ms IH]; intros st0; [reflexivity|].
    cbn [walk_members].
    destruct (walk_value fn k (lookup k structure) x st0) as [[r st1]|e];
      [|reflexivity].
    cbn [bind]. rewrite IH. reflexivity. }
  cbn [walk_value].
  destruct s as [[]|]; cbn [bind]; try reflexivity; rewrite E;
    match goal with |- context [walk_members ?f ?d ?m ?t] =>
      destruct (walk_members f d m t) as [[out st']|e] end; reflexivity.
Qed.

Lemma walk_value_leaf S (fn : string -> json -> option json -> S -> result (json * S))
    key s v st :
  is_tree v = false ->
  walk_value fn key s v st =
  match s with
  | Some (JObj _) => Err StructureMismatch
  | _ => fn key v s st
  end.
Proof. destruct v; try reflexivity. discriminate. Qed.

Lemma walk_members_cons S (fn : string -> json -> option json -> S -> result (json * S))
    structure k x rest st :
  walk_members fn structure ((k, x) :: rest) st =
  match walk_value fn k (lookup k structure) x st with
  | OK (r, st1) =>
      match walk_members fn structure rest st1 with
      | OK (rs, st2) => OK ((k, r) :: rs, st2)
      | Err e => Err e
      end
  | Err e => Err e
  end.
Proof.
  cbn [walk_members].
  destruct (walk_value fn k (lookup k structure) x st) as [[r st1]|e]; [|reflexivity].
  cbn [bind].
  destruct (walk_members fn structure rest st1) as [[rs st2]|e]; reflexivity.
Qed.

(** With a leaf function that has no effect, every member that is
    transformed gives the transformed dictionary, key by key. *)
Lemma walk_members_pure f structure ms (Q : string -> json -> json -> Prop) :
  (forall k x, In (k, x) ms ->
     exists r, walk_value (pure_leaf f) k (lookup k structure) x tt = OK (r, tt)
               /\ Q k x r) ->
  exists out, walk_members (pure_leaf f) structure ms tt = OK (out, tt)
              /\ aligned Q ms out.
Proof.
  induction ms as [|[k x] ms IH]; intros H.
  - exists []. split; [reflexivity | constructor].
  - destruct (H k x (or_introl eq_refl)) as [r [Hr HQ]].
    destruct IH as [out [Hout Hal]].
    { intros k' x' Hin. apply H. now right. }
    exists ((k, r) :: out). rewrite walk_members_cons, Hr, Hout.
    split; [reflexivity|]. constructor; [now split | exact Hal].
Qed.

Lemma walk_members_pure_map f structure (h : string -> json -> json) src data :
  aligned (fun k a b => walk_value (pure_leaf f) k (lookup k structure) b tt
                        = OK (h k a, tt)) src data ->
  walk_members (pure_leaf f) structure data tt =
  OK (map (fun a => (fst a, h (fst a) (snd a))) src, tt).
Proof.
  induction 1 as [|[k1 a] [k2 b] src data [Hk Hw] _ IH]; [reflexivity|].
  simpl in Hk, Hw. subst k2.
  rewrite walk_members_cons, Hw, IH. reflexivity.
Qed.

End WalkFacts.

(** ** Shapes of trees *)

Lemma fits_none v : fits None v = true.
Proof. destruct v; reflexivity. Qed.

Lemma fits_tree d ms :
  fits (Some (JObj d)) (JObj ms) = true ->
  forall k x, In (k, x) ms -> fits (lookup k d) x = true.
Proof.
  cbn [fits]. induction ms as [|[k' x'] ms IH]; [intros _ k x []|].
  intros H. apply andb_true_iff in H as [H1 H2].
  intros k x [[= -> ->]|Hin]; [exact H1 | exact (IH H2 k x Hin)].
Qed.

Lemma well_formed_tree ms :
  well_formed (JObj ms) = true ->
  distinct (map fst ms) = true
  /\ forall k x, In (k, x) ms -> well_formed x = true.
Proof.
  cbn [well_formed]. intros H. apply andb_true_iff in H as [Hd Hall].
  split; [exact Hd|].
  induction ms as [|[k' x'] ms IH]; [intros k x []|].
  apply andb_true_iff in Hall as [H1 H2].
  intros k x [[= -> ->]|Hin]; [exact H1|].
  simpl in Hd. apply andb_true_iff in Hd as [_ Hd].
  exact (IH Hd H2 k x Hin).
Qed.

Lemma within_none c : within c None = false.
Proof. destruct c; reflexivity. Qed.

Lemma within_leaf c o :
  is_tree c = false -> within c o = true ->
  exists v, o = Some v /\ is_tree v = false.
Proof.
  intros Hc. destruct c; try discriminate;
    (destruct o as [v|]; [|discriminate]);
    intros H; exists v; (split; [reflexivity|]); destruct v; try reflexivity; discriminate.
Qed.

Lemma within_tree ms v :
  within (JObj ms) (Some v) = true ->
  exists d, v = JObj d /\ forall k x, In (k, x) ms -> within x (lookup k d) = true.
Proof.
  cbn [within]. destruct v as [| | | | |d]; try discriminate.
  intros Hall. exists d. split; [reflexivity|].
  induction ms as [|[k' x'] ms IH]; [intros k x []|].
  apply andb_true_iff in Hall as [H1 H2].
  intros k x [[= -> ->]|Hin]; [exact H1 | exact (IH H2 k x Hin)].
Qed.

Lemma select_leaf c v : is_tree c = false -> select c (Some v) = v.
Proof. destruct c; try reflexivity. discriminate. Qed.

Lemma select_tree ms d :
  select (JObj ms) (Some (JObj d)) =
  JObj (map (fun a => (fst a, select (snd a) (lookup (fst a) d))) ms).
Proof.
  cbn [select]. f_equal.
  induction ms as [|[k x] ms IH]; [reflexivity|].
  cbn [map fst snd]. now rewrite IH.
Qed.

(** ** Issuance builds commitments that the disclosures open *)

Lemma random_bytes_clock n w :
  utcnow_timestamp (snd (random_bytes n w)) = utcnow_timestamp w.
Proof.
  revert w. induction n as [|n IH]; intros w; [reflexivity|].
  cbn [random_bytes]. unfold random_getrandbits.
  destruct (draw 8 (random_module w)) as [b g].
  match goal with |- context [random_bytes n ?w1] =>
    specialize (IH w1); destruct (random_bytes n w1) as [rest w2] end.
  exact IH.
Qed.

Lemma generate_salt_clock w :
  utcnow_timestamp (snd (generate_salt w)) = utcnow_timestamp w.
Proof.
  unfold generate_salt. pose proof (random_bytes_clock 16 w) as H.
  destruct (random_bytes 16 w) as [bytes w']. exact H.
Qed.

Section Issuance.

Context {X : Collaborators}.

Lemma salt_leaf_salts key v s w :
  is_tree v = false -> fits s v = true ->
  exists sv w', walk_value salt_leaf key s v w = OK (sv, w')
                /\ salted v sv /\ utcnow_timestamp w' = utcnow_timestamp w.
Proof.
  intros Hv Hs. rewrite walk_value_leaf by exact Hv.
  assert (E : match s with
              | Some (JObj _) => Err StructureMismatch
              | _ => salt_leaf key v s w
              end = salt_leaf key v s w).
  { destruct s as [[]|]; try reflexivity. destruct v; discriminate. }
  rewrite E. unfold salt_leaf.
  pose proof (generate_salt_clock w) as Hc.
  destruct (generate_salt w) as [str w'].
  exists (JStr str), w'. repeat split; [now constructor | exact Hc].
Qed.

Lemma salts_exist v : forall key s w,
  fits s v = true ->
  exists sv w', walk_value salt_leaf key s v w = OK (sv, w')
                /\ salted v sv /\ utcnow_timestamp w' = utcnow_timestamp w.
Proof.
  induction v as [| | | | |ms IH] using json_ind; intros key o w Hs;
    try (apply salt_leaf_salts; [reflexivity | exact Hs]).
  rewrite Forall_forall in IH.
  assert (Hmembers : forall d, (forall k x, In (k, x) ms -> fits (lookup k d) x = true) ->
            forall w0, exists out w',
              walk_members salt_leaf d ms w0 = OK (out, w')
              /\ aligned (fun _ => salted) ms out
              /\ utcnow_timestamp w' = utcnow_timestamp w0).
  { intros d Hd. clear Hs. induction ms as [|[k x] ms IHms]; intros w0.
    - exists [], w0. repeat split. constructor.
    - destruct (IH (k, x) (or_introl eq_refl) k (lookup k d) w0) as (sv & w1 & E1 & S1 & C1).
      { apply Hd. now left. }
      cbn [snd] in E1, S1.
      destruct IHms with (w0 := w1) as (out & w2 & E2 & S2 & C2).
      { intros kv Hin. apply IH. now right. }
      { intros k' x' Hin. apply Hd. now right. }
      exists ((k, sv) :: out), w2. rewrite walk_members_cons, E1, E2.
      repeat split; [|congruence]. constructor; [now split | exact S2]. }
  rewrite walk_value_tree.
  destruct o as [[| | | | |d]|]; try discriminate.
  - destruct (Hmembers d (fits_tree _ _ Hs) w) as (out & w' & E & Sa & C).
    rewrite E. exists (JObj out), w'. repeat split; [|exact C]. now constructor.
  - destruct (Hmembers [] (fun k x _ => fits_none x) w) as (out & w' & E & Sa & C).
    rewrite E. exists (JObj out), w'. repeat split; [|exact C]. now constructor.
Qed.

Lemma commitments_open v : forall sv,
  salted v sv -> well_formed v = true ->
  exists c d,
    (forall key, walk_value (pure_leaf _create_sd_claim_entry) key (Some sv) v tt = OK (c, tt))
    /\ (forall key, walk_value (pure_leaf _create_svc_entry) key (Some sv) v tt = OK (d, tt))
    /\ opens v c d.
Proof.
  induction v as [| | | | |ms IH] using json_ind; intros sv Hsalt Hwf.
  1-5: inversion Hsalt as [v0 s0 Hleaf|]; subst;
       eexists; eexists; (split; [|split]);
       [ intros key; rewrite walk_value_leaf by reflexivity; reflexivity
       | intros key; rewrite walk_value_leaf by reflexivity; reflexivity
       | now constructor ].
  rewrite Forall_forall in IH.
  inversion Hsalt as [v0 s0 Hleaf|ms0 sms Hal]; subst; [discriminate|].
  apply well_formed_tree in Hwf as [Hdist Hwf].
  assert (Heach : forall k x, In (k, x) ms ->
            exists c d,
              walk_value (pure_leaf _create_sd_claim_entry) k (lookup k sms) x tt = OK (c, tt)
              /\ walk_value (pure_leaf _create_svc_entry) k (lookup k sms) x tt = OK (d, tt)
              /\ opens x c d).
  { intros k x Hin.
    destruct (aligned_lookup (fun _ => salted) ms sms k x Hal
                (distinct_lookup _ _ _ Hdist Hin)) as [y [Hy Hxy]].
    destruct (IH (k, x) Hin y Hxy (Hwf k x Hin)) as (c & d & Hc & Hd & Ho).
    cbn [snd] in Hc, Hd, Ho.
    exists c, d. rewrite Hy. auto. }
  destruct (walk_members_pure _create_sd_claim_entry sms ms
              (fun k x c => exists d,
                 walk_value (pure_leaf _create_svc_entry) k (lookup k sms) x tt = OK (d, tt)
                 /\ opens x c d)) as [cms [Ecms Hcms]].
  { intros k x Hin. destruct (Heach k x Hin) as (c & d & Hc & Hd & Ho).
    exists c. split; [exact Hc | now exists d]. }
  destruct (walk_members_pure _create_svc_entry sms ms
              (fun k x d =>
                 walk_value (pure_leaf _create_svc_entry) k (lookup k sms) x tt = OK (d, tt)))
    as [dms [Edms Hdms]].
  { intros k x Hin. destruct (Heach k x Hin) as (c & d & Hc & Hd & Ho).
    exists d. split; exact Hd. }
  exists (JObj cms), (JObj dms). split; [|split].
  - intros key. rewrite walk_value_tree, Ecms. reflexivity.
  - intros key. rewrite walk_value_tree, Edms. reflexivity.
  - constructor. intros k x Hk.
    destruct (aligned_lookup _ _ _ k x Hcms Hk) as [c [Hc [d [Hd Ho]]]].
    destruct (aligned_lookup _ _ _ k x Hdms Hk) as [d' [Hd' Hd'']].
    exists c, d. repeat split; try assumption. congruence.
Qed.

(** A commitment is ASCII text, so that the comparison of two
    commitments is their equality. *)
Lemma hash_raw_ascii raw : is_ascii (hash_raw raw) = true.
Proof. exact (base64url_encode_ascii (sha256_digest raw)). Qed.

Lemma compare_digest_ascii a b :
  is_ascii a = true -> is_ascii b = true -> compare_digest a b = OK (String.eqb a b).
Proof. intros Ha Hb. unfold compare_digest. now rewrite Ha, Hb. Qed.

(** Releasing chosen keys and checking them against the commitments
    gives back the chosen part of the claims. *)
Lemma release_then_check_leaf (J : JsonCodec X) c v cm dt key :
  is_tree c = false -> within c (Some v) = true -> opens v cm dt ->
  exists rt,
    walk_value (pure_leaf (without_default release_leaf)) key (Some dt) c tt = OK (rt, tt)
    /\ walk_value (pure_leaf _check_claim) key (Some cm) rt tt = OK (select c (Some v), tt).
Proof.
  intros Hc Hin Ho.
  destruct (within_leaf _ _ Hc Hin) as [v' [[= <-] Hv]].
  inversion Ho as [v0 salt Hleaf|]; subst; [|discriminate].
  exists (JStr (hash_claim salt v true)). split.
  - rewrite walk_value_leaf by exact Hc. reflexivity.
  - rewrite walk_value_leaf by reflexivity.
    unfold pure_leaf, _check_claim, hash_claim. cbn [required bind].
    rewrite compare_digest_ascii by apply hash_raw_ascii. cbn [bind].
    rewrite String.eqb_refl. cbn [negb]. rewrite loads_dumps. cbn [bind].
    now rewrite select_leaf.
Qed.

Lemma release_then_check (J : JsonCodec X) c : forall v cm dt key,
  within c (Some v) = true -> opens v cm dt ->
  exists rt,
    walk_value (pure_leaf (without_default release_leaf)) key (Some dt) c tt = OK (rt, tt)
    /\ walk_value (pure_leaf _check_claim) key (Some cm) rt tt = OK (select c (Some v), tt).
Proof.
  induction c as [| | | | |ms IH] using json_ind; intros v cm dt key Hin Ho;
    try (apply release_then_check_leaf; [exact J | reflexivity | exact Hin | exact Ho]).
  rewrite Forall_forall in IH.
  destruct (within_tree _ _ Hin) as [d [-> Hd]].
  inversion Ho as [v0 salt Hleaf|ms0 cms dms Hopen]; subst; [discriminate|].
  destruct (walk_members_pure (without_default release_leaf) dms ms
              (fun k x r =>
                 walk_value (pure_leaf _check_claim) k (lookup k cms) r tt
                 = OK (select x (lookup k d), tt))) as [out [Eout Hout]].
  { intros k x Hkx. specialize (Hd k x Hkx).
    destruct (lookup k d) as [vx|] eqn:Evx; [|now rewrite within_none in Hd].
    destruct (Hopen k vx Evx) as (c' & d' & Hc' & Hd' & Ho').
    rewrite Hc', Hd'. exact (IH (k, x) Hkx vx c' d' k Hd Ho'). }
  exists (JObj out). split.
  - rewrite walk_value_tree, Eout. reflexivity.
  - rewrite walk_value_tree.
    rewrite (walk_members_pure_map _check_claim cms
               (fun k x => select x (lookup k d)) ms out Hout).
    now rewrite select_tree.
Qed.

End Issuance.

(** ** Payloads *)

Ltac literal_keys :=
  repeat match goal with
         | |- context [String.eqb ?a ?b] =>
             let v := eval compute in (String.eqb a b) in
             match v with
             | true => change (String.eqb a b) with true
             | false => change (String.eqb a b) with false
             end
         end.

Ltac reserved := unfold reserved_names; repeat first [left; reflexivity | right].

Section Payloads.

Context {X : Collaborators} (T : Settings X).

Lemma SD_CLAIMS_KEY_not_reserved k :
  In k reserved_names ->
  String.eqb SD_CLAIMS_KEY k = false /\ String.eqb k SD_CLAIMS_KEY = false.
Proof.
  intros Hk. assert (E : String.eqb SD_CLAIMS_KEY k = false).
  { destruct (String.eqb SD_CLAIMS_KEY k) eqn:E; [|reflexivity].
    pose proof SD_CLAIMS_KEY_fresh as F.
    assert (existsb (String.eqb SD_CLAIMS_KEY) reserved_names = true) as F'
      by (apply existsb_exists; now exists k).
    congruence. }
  split; [exact E | now rewrite String.eqb_sym].
Qed.

Ltac settings_keys :=
  repeat match goal with
         | |- context [String.eqb SD_CLAIMS_KEY SD_CLAIMS_KEY] =>
             rewrite (String.eqb_refl SD_CLAIMS_KEY)
         | |- context [String.eqb SD_CLAIMS_KEY ?k] =>
             rewrite (fun H => proj1 (@SD_CLAIMS_KEY_not_reserved k H)) by reserved
         | |- context [String.eqb ?k SD_CLAIMS_KEY] =>
             rewrite (fun H => proj2 (@SD_CLAIMS_KEY_not_reserved k H)) by reserved
         end.

Lemma sd_jwt_payload_display a b c d e :
  mkdict [("iss", a); ("sub_jwk", b); ("iat", c); ("exp", d); (SD_CLAIMS_KEY, e)] =
  [("iss", a); ("sub_jwk", b); ("iat", c); ("exp", d); (SD_CLAIMS_KEY, e)].
Proof.
  unfold mkdict.
  repeat (progress (cbn [fold_left fst snd dict_set]; literal_keys; settings_keys)).
  reflexivity.
Qed.

Lemma release_payload_display a b e :
  mkdict [("nonce", a); ("aud", b); (SD_CLAIMS_KEY, e)] =
  [("nonce", a); ("aud", b); (SD_CLAIMS_KEY, e)].
Proof.
  unfold mkdict.
  repeat (progress (cbn [fold_left fst snd dict_set]; literal_keys; settings_keys)).
  reflexivity.
Qed.

Lemma sd_jwt_payload_fields a b c d e :
  let p := [("iss", a); ("sub_jwk", b); ("iat", c); ("exp", d); (SD_CLAIMS_KEY, e)] in
  lookup "iss" p = Some a /\ lookup "sub_jwk" p = Some b
  /\ lookup "iat" p = Some c /\ lookup "exp" p = Some d
  /\ lookup SD_CLAIMS_KEY p = Some e.
Proof.
  cbv zeta.
  repeat (progress (cbn [lookup]; literal_keys; settings_keys)).
  repeat split.
Qed.

Lemma release_payload_fields a b e :
  let p := [("nonce", a); ("aud", b); (SD_CLAIMS_KEY, e)] in
  lookup "nonce" p = Some a /\ lookup "aud" p = Some b
  /\ lookup SD_CLAIMS_KEY p = Some e.
Proof.
  cbv zeta.
  repeat (progress (cbn [lookup]; literal_keys; settings_keys)).
  repeat split.
Qed.

(** ** Verification of the tokens that issuance and release produce *)

Context (J : JsonCodec X).

Lemma _verify_sd_jwt_issued issuer embedded iat exp commitments
    issuer_key issuer_public_key protected :
  key_pair issuer_key issuer_public_key ->
  _verify_sd_jwt
    (JWS_serialize_compact
       (dumps (JObj [("iss", JStr issuer); ("sub_jwk", embedded); ("iat", iat);
                     ("exp", exp); (SD_CLAIMS_KEY, commitments)]))
       issuer_key DEFAULT_SIGNIGN_ALG protected)
    issuer_public_key issuer
  = OK (commitments, Some embedded).
Proof.
  intros Hk. unfold _verify_sd_jwt.
  rewrite JWS_serialize_compact_parts, JWS_deserialize_compact. cbn [bind].
  unfold JWS_verify, JWS_payload.
  cbn [jws_signing_input jws_signature jws_payload jws_protected jws_valid].
  rewrite Hk. cbn [bind jws_valid jws_payload]. rewrite loads_dumps. cbn [bind].
  unfold getitem, py_in.
  destruct (sd_jwt_payload_fields (JStr issuer) embedded iat exp commitments)
    as (E1 & E2 & _ & _ & E5).
  rewrite E1, E2, E5. cbn [bind py_eq_opt_str].
  rewrite String.eqb_refl. reflexivity.
Qed.

Lemma _verify_sd_jwt_release_made nonce aud released holder_key holder_public_key protected :
  holder_binding holder_key holder_public_key aud nonce ->
  _verify_sd_jwt_release
    (JWS_serialize_compact
       (dumps (JObj [("nonce", JStr nonce); ("aud", JStr aud); (SD_CLAIMS_KEY, released)]))
       holder_key DEFAULT_SIGNIGN_ALG protected)
    (Some holder_public_key) (Some aud) (Some nonce) (Some (export_public holder_key))
  = OK released.
Proof.
  intros (Hk & (pubkey & Hp & He) & _ & _). unfold _verify_sd_jwt_release.
  rewrite JWS_serialize_compact_parts, JWS_deserialize_compact. cbn [bind].
  destruct (release_payload_fields (JStr nonce) (JStr aud) released) as (E1 & E2 & E3).
  assert (Echeck : (if truthy (export_public holder_key)
                    then pubkey0 <- JWK_from_json (dumps (export_public holder_key)) ;;
                         (if negb (JWK_eqb holder_public_key pubkey0)
                          then Err HolderKeyMismatch else OK tt)
                    else OK tt) = OK tt).
  { destruct (truthy (export_public holder_key)); [|reflexivity].
    rewrite Hp. cbn [bind]. now rewrite He. }
  rewrite Echeck. cbn [bind].
  unfold JWS_verify, JWS_payload.
  cbn [jws_signing_input jws_signature jws_payload jws_protected jws_valid].
  rewrite Hk. cbn [bind jws_valid jws_payload]. rewrite loads_dumps. cbn [bind].
  unfold getitem, py_in. rewrite E1, E2, E3. cbn [bind py_eq_opt_str].
  rewrite !String.eqb_refl. reflexivity.
Qed.

End Payloads.

(** ** The three operations, end to end *)

Section Protocol.

Context {X : Collaborators}.

(** Issuance returns, and what it returns is built from one commitment
    tree and one disclosure tree over the same salts. *)
Lemma issuance_runs user_claims issuer issuer_key holder_key claim_structure iat exp w :
  well_formed (JObj user_claims) = true ->
  congruent claim_structure user_claims = true ->
  exists cms dms w',
    opens (JObj user_claims) (JObj cms) (JObj dms)
    /\ utcnow_timestamp w' = utcnow_timestamp w
    /\ create_sd_jwt_and_svc user_claims issuer issuer_key holder_key
         claim_structure iat exp w =
       let _iat := or_int iat (utcnow_timestamp w) in
       let _exp := or_int exp (_iat + DEFAULT_EXP_MINS * 60)%Z in
       let sd_jwt_payload :=
         JObj (mkdict [("iss", JStr issuer);
                       ("sub_jwk", export_public holder_key);
                       ("iat", JNum _iat);
                       ("exp", JNum _exp);
                       (SD_CLAIMS_KEY, JObj cms)]) in
       let svc_payload := JObj (mkdict [(SD_CLAIMS_KEY, JObj dms)]) in
       OK ((sd_jwt_payload,
            JWS_serialize_compact (dumps sd_jwt_payload) issuer_key DEFAULT_SIGNIGN_ALG
              (dumps (JObj (mkdict [("alg", JStr DEFAULT_SIGNIGN_ALG)]))),
            svc_payload,
            base64url_encode (dumps_indent svc_payload)), w').
Proof.
  intros Hwf Hfit.
  destruct (salts_exist (JObj user_claims) EmptyString (Some (JObj claim_structure)) w Hfit)
    as (sv & w' & Esalt & Hsalt & Hclock).
  rewrite walk_value_tree in Esalt.
  destruct (walk_members salt_leaf claim_structure user_claims w) as [[salts w1]|e] eqn:Ew;
    [|discriminate].
  injection Esalt as <- <-.
  destruct (commitments_open _ _ Hsalt Hwf) as (c & d & Hc & Hd & Ho).
  specialize (Hc EmptyString). specialize (Hd EmptyString).
  rewrite walk_value_tree in Hc, Hd.
  destruct (walk_members (pure_leaf _create_sd_claim_entry) salts user_claims tt)
    as [[cms []]|e] eqn:Ec; [|discriminate].
  destruct (walk_members (pure_leaf _create_svc_entry) salts user_claims tt)
    as [[dms []]|e] eqn:Ed; [|discriminate].
  injection Hc as <-. injection Hd as <-.
  exists cms, dms, w1. split; [exact Ho|]. split; [exact Hclock|].
  unfold create_sd_jwt_and_svc, walk_by_structure, by_structure.
  rewrite Ew. cbn [bind]. rewrite Ec. cbn [bind fst]. rewrite Ed. cbn [bind fst].
  rewrite Hclock. reflexivity.
Qed.

Lemma given_nonempty s : s <> EmptyString -> given (Some s) = true.
Proof.
  intros H. cbn [given]. destruct (String.eqb_spec s EmptyString); [contradiction | reflexivity].
Qed.

(** C1, as the code has it.  Round trip: for well-formed claims, a claim
    structure that fits them and a chosen subset of their keys, issuance
    returns a token and a disclosure container, release returns a release
    token, and verifying the two tokens joined by a dot, with the issuer's
    key, the holder's key and the audience and nonce of the release, both
    of them not empty, returns exactly the chosen part of the claims. *)
Theorem round_trip (J : JsonCodec X) (T : Settings X)
    user_claims claim_structure chosen issuer
    issuer_key issuer_public_key holder_key holder_public_key
    nonce aud iat exp w :
  well_formed (JObj user_claims) = true ->
  congruent claim_structure user_claims = true ->
  subset_of chosen user_claims = true ->
  key_pair issuer_key issuer_public_key ->
  holder_binding holder_key holder_public_key aud nonce ->
  exists sd_jwt_payload sd_jwt svc_payload svc w' release_payload release,
    create_sd_jwt_and_svc user_claims issuer issuer_key holder_key
      claim_structure iat exp w = OK ((sd_jwt_payload, sd_jwt, svc_payload, svc), w')
    /\ create_release_jwt nonce aud chosen svc holder_key = OK (release_payload, release)
    /\ verify (sd_jwt ++ "." ++ release) issuer_public_key issuer
         (Some holder_public_key) (Some aud) (Some nonce)
       = OK (selected chosen user_claims).
Proof.
  intros Hwf Hfit Hsub Hik Hb.
  destruct (@issuance_runs user_claims issuer issuer_key holder_key claim_structure
              iat exp w Hwf Hfit)
    as (cms & dms & w' & Ho & _ & Eissue).
  cbv zeta in Eissue. rewrite (sd_jwt_payload_display T) in Eissue.
  change (mkdict [(SD_CLAIMS_KEY, JObj dms)]) with [(SD_CLAIMS_KEY, JObj dms)] in Eissue.
  destruct (@release_then_check X J (JObj chosen) (JObj user_claims) (JObj cms) (JObj dms)
              EmptyString Hsub Ho) as (rt & Hrel & Hchk).
  rewrite walk_value_tree in Hrel.
  destruct (walk_members (pure_leaf (without_default release_leaf)) dms chosen tt)
    as [[out []]|e] eqn:Er;
    [|discriminate].
  injection Hrel as <-.
  rewrite walk_value_tree in Hchk.
  destruct (walk_members (pure_leaf _check_claim) cms out tt) as [[sel []]|e] eqn:Ek;
    [|discriminate].
  injection Hchk as Hsel.
  do 7 eexists. split; [exact Eissue|]. split.
  - unfold create_release_jwt.
    rewrite urlsafe_b64decode_encode. cbn [bind].
    rewrite loads_dumps_indent. cbn [bind getitem lookup].
    rewrite String.eqb_refl. cbn [bind as_tree].
    unfold walk_by_structure, by_structure. rewrite Er. cbn [bind fst].
    rewrite (release_payload_display T). reflexivity.
  - unfold verify.
    assert (Eargs : negb (given (Some aud)) || negb (given (Some nonce)) = false).
    { destruct Hb as (_ & _ & Ha & Hn).
      now rewrite (given_nonempty _ Ha), (given_nonempty _ Hn). }
    rewrite Eargs.
    match goal with
    | |- context [split_dot (JWS_serialize_compact ?p1 ?k1 ?a1 ?h1 ++ "." ++
                             JWS_serialize_compact ?p2 ?k2 ?a2 ?h2)] =>
        pose proof (JWS_serialize_compact_parts p1 k1 a1 h1) as E1;
        pose proof (JWS_serialize_compact_parts p2 k2 a2 h2) as E2;
        change (JWS_serialize_compact p1 k1 a1 h1 ++ "." ++
                JWS_serialize_compact p2 k2 a2 h2)
          with (JWS_serialize_compact p1 k1 a1 h1 ++
                String dot (JWS_serialize_compact p2 k2 a2 h2));
        rewrite E1, E2
    end.
    match goal with
    | |- context [split_dot (compact ?h1 ?p1 ?s1 ++ String dot (compact ?h2 ?p2 ?s2))] =>
        destruct (split_dot_presentation h1 p1 s1 h2 p2 s2) as (L & F1 & F2)
    end.
    rewrite L, F1, F2. cbn [Nat.eqb negb]. rewrite <- E1, <- E2.
    rewrite (_verify_sd_jwt_issued T J) by exact Hik. cbn [bind].
    rewrite (_verify_sd_jwt_release_made T J) by exact Hb. cbn [bind as_tree].
    unfold walk_by_structure, by_structure. rewrite Ek. cbn [bind fst].
    unfold selected. rewrite Hsel. reflexivity.
Qed.

End Protocol.

(** ** The concrete collaborators meet their contracts *)

Module DemoFacts.

Import Demo.

Lemma not_digit_take c s :
  is_digit c = false -> take_uint (String c s) = (Decimal.Nil, String c s).
Proof.
  intros H. cbn [take_uint]. destruct (take_uint s) as [d r].
  destruct c as [b0 b1 b2 b3 b4 b5 b6 b7].
  destruct b0, b1, b2, b3, b4, b5, b6, b7; try reflexivity; discriminate H.
Qed.

Lemma take_uint_print d rest :
  starts_with_digit rest = false ->
  take_uint (print_uint d ++ rest) = (d, rest).
Proof.
  intros Hrest. induction d as [|d IH|d IH|d IH|d IH|d IH|d IH|d IH|d IH|d IH|d IH];
    [ | cbn [print_uint append take_uint]; rewrite IH; reflexivity .. ].
  cbn [print_uint append]. destruct rest as [|c r]; [reflexivity|].
  now apply not_digit_take.
Qed.

Lemma print_uint_head d :
  d <> Decimal.Nil ->
  exists c s, print_uint d = String c s /\ is_digit c = true.
Proof.
  destruct d; [congruence | intros _; eexists; eexists; split; reflexivity .. ].
Qed.

Lemma read_number_digit c s :
  is_digit c = true ->
  read_number (String c s) =
  match take_uint (String c s) with
  | (Decimal.Nil, _) => None
  | (d, r) => Some (JNum (Z.of_int (Decimal.Pos d)), r)
  end.
Proof.
  intros H. destruct c as [b0 b1 b2 b3 b4 b5 b6 b7].
  destruct b0, b1, b2, b3, b4, b5, b6, b7; try discriminate H; reflexivity.
Qed.

Lemma to_int_nonnil z :
  match Z.to_int z with Decimal.Pos d | Decimal.Neg d => d <> Decimal.Nil end.
Proof.
  destruct z; cbn [Z.to_int]; try apply DecimalPos.Unsigned.to_uint_nonnil.
  discriminate.
Qed.

Lemma print_Z_head z :
  exists c s, print_Z z = String c s
              /\ (is_digit c = true \/ c = "-"%char).
Proof.
  unfold print_Z. pose proof (to_int_nonnil z) as H.
  destruct (Z.to_int z) as [d|d].
  - destruct (print_uint_head d H) as (c & s & E & Hc). exists c, s. auto.
  - eexists; eexists; split; [reflexivity | now right].
Qed.

Lemma read_number_print z rest :
  starts_with_digit rest = false ->
  read_number (print_Z z ++ rest) = Some (JNum z, rest).
Proof.
  intros Hrest. pose proof (DecimalZ.of_to z) as Hz.
  pose proof (to_int_nonnil z) as Hn.
  unfold print_Z. destruct (Z.to_int z) as [d|d].
  - destruct (print_uint_head d Hn) as (c & s & E & Hc).
    pose proof (take_uint_print d rest Hrest) as Ht. rewrite E in *.
    cbn [append] in *. rewrite (read_number_digit _ _ Hc), Ht.
    destruct d; [congruence | now rewrite Hz ..].
  - cbn [append read_number]. rewrite (take_uint_print d rest Hrest).
    destruct d; [congruence | now rewrite Hz ..].
Qed.

Lemma read_string_escape s rest :
  read_string (escape s ++ String quote_char rest) = Some (s, rest).
Proof.
  induction s as [|c s IH]; [reflexivity|].
  cbn [escape]. destruct (Ascii.eqb c quote_char) eqn:Eq; cbn [orb].
  - cbn [append read_string]. rewrite IH. reflexivity.
  - destruct (Ascii.eqb c backslash) eqn:Eb.
    + cbn [append read_string]. rewrite IH. reflexivity.
    + cbn [append read_string]. rewrite Eq, Eb, IH. reflexivity.
Qed.

Lemma read_string_print s rest :
  exists body, print_string s ++ rest = String quote_char body
               /\ read_string body = Some (s, rest).
Proof.
  exists (escape s ++ String quote_char rest). split.
  - unfold print_string. cbn [append]. now rewrite append_assoc.
  - apply read_string_escape.
Qed.

(** How the reader starts on each kind of text. *)
Lemma read_value_number fuel c s :
  is_digit c = true \/ c = "-"%char ->
  read_value (S fuel) (String c s) = read_number (String c s).
Proof.
  intros H. destruct c as [b0 b1 b2 b3 b4 b5 b6 b7].
  destruct b0, b1, b2, b3, b4, b5, b6, b7; try reflexivity;
    exfalso; destruct H as [H|H]; discriminate H.
Qed.

Lemma read_value_string fuel s :
  read_value (S fuel) (String quote_char s) =
  match read_string s with
  | Some (t, r) => Some (JStr t, r)
  | None => None
  end.
Proof. reflexivity. Qed.

Lemma read_value_items fuel c s :
  Ascii.eqb c "]" = false ->
  read_value (S fuel) (String "[" (String c s)) =
  match read_value fuel (String c s) with
  | Some (x, r1) =>
      match read_more_items fuel r1 with
      | Some (xs, r2) => Some (JArr (x :: xs), r2)
      | None => None
      end
  | None => None
  end.
Proof.
  intros H. destruct c as [b0 b1 b2 b3 b4 b5 b6 b7].
  destruct b0, b1, b2, b3, b4, b5, b6, b7; try reflexivity; discriminate H.
Qed.

Lemma read_value_members fuel s :
  read_value (S fuel) (String "{" (String quote_char s)) =
  match read_string s with
  | Some (k, String ":" (String " " r0)) =>
      match read_value fuel r0 with
      | Some (x, r1) =>
          match read_more_members fuel r1 with
          | Some (xs, r2) => Some (JObj ((k, x) :: xs), r2)
          | None => None
          end
      | None => None
      end
  | _ => None
  end.
Proof. reflexivity. Qed.

Lemma print_json_items x r :
  print_json (JArr (x :: r)) = String "[" (print_json x ++ print_more_items r).
Proof. reflexivity. Qed.

Lemma print_json_members k x r :
  print_json (JObj ((k, x) :: r)) =
  String "{" (print_string k ++ ": " ++ print_json x ++ print_more_members r).
Proof. reflexivity. Qed.

Lemma json_size_items l : json_size (JArr l) = S (items_size l).
Proof. reflexivity. Qed.

Lemma json_size_members l : json_size (JObj l) = S (members_size l).
Proof. reflexivity. Qed.

(** The first character of a printed document is not a closing bracket. *)
Lemma print_json_head v :
  exists c s, print_json v = String c s /\ Ascii.eqb c "]" = false.
Proof.
  destruct v as [|[]|n|s|l|l]; try (eexists; eexists; split; reflexivity).
  destruct (print_Z_head n) as (c & s & E & [Hc| ->]).
  - exists c, s. split; [exact E|].
    destruct c as [b0 b1 b2 b3 b4 b5 b6 b7].
    destruct b0, b1, b2, b3, b4, b5, b6, b7; try discriminate Hc; reflexivity.
  - exists "-"%char, s. split; [exact E | reflexivity].
Qed.

Lemma read_print v : forall fuel rest,
  json_size v < fuel -> starts_with_digit rest = false ->
  read_value fuel (print_json v ++ rest) = Some (v, rest).
Proof.
  induction v as [|b|n|s|items IH|members IH] using json_ind;
    intros fuel rest Hfuel Hrest;
    (destruct fuel as [|fuel]; [inversion Hfuel|]).
  - reflexivity.
  - destruct b; reflexivity.
  - destruct (print_Z_head n) as (c & s & E & Hc).
    pose proof (read_number_print n rest Hrest) as Hn.
    cbn [print_json]. rewrite E in *. cbn [append] in *.
    now rewrite read_value_number.
  - cbn [print_json]. destruct (read_string_print s rest) as (body & -> & Hb).
    now rewrite read_value_string, Hb.
  - assert (Hmore : forall l f r, Forall (fun x => forall fuel rest,
                       json_size x < fuel -> starts_with_digit rest = false ->
                       read_value fuel (print_json x ++ rest) = Some (x, rest)) l ->
                     items_size l < f ->
                     read_more_items f (print_more_items l ++ r) = Some (l, r)).
    { clear. induction l as [|y l IHl]; intros f r Hall Hf;
        (destruct f as [|f]; [inversion Hf|]); [reflexivity|].
      inversion Hall as [|? ? Hy Hl]; subst.
      cbn [print_more_items]. rewrite !append_assoc. cbn [append read_more_items].
      cbn [items_size] in Hf.
      rewrite Hy; [|lia|now destruct l].
      rewrite IHl; [reflexivity | exact Hl | lia]. }
    destruct items as [|x r]; [reflexivity|].
    inversion IH as [|? ? Hx Hr]; subst.
    rewrite print_json_items. rewrite json_size_items in Hfuel. cbn [items_size] in Hfuel.
    cbn [append]. rewrite append_assoc.
    destruct (print_json_head x) as (c & s & E & Hc).
    pose proof (Hx fuel (print_more_items r ++ rest)) as Hx'.
    rewrite E in *. cbn [append] in *.
    rewrite read_value_items by exact Hc.
    rewrite Hx'; [|lia|now destruct r].
    rewrite Hmore; [reflexivity | exact Hr | lia].
  - assert (Hmore : forall l f r, Forall (fun kv => forall fuel rest,
                       json_size (snd kv) < fuel -> starts_with_digit rest = false ->
                       read_value fuel (print_json (snd kv) ++ rest) = Some (snd kv, rest)) l ->
                     members_size l < f ->
                     read_more_members f (print_more_members l ++ r) = Some (l, r)).
    { clear. induction l as [|[k y] l IHl]; intros f r Hall Hf;
        (destruct f as [|f]; [inversion Hf|]); [reflexivity|].
      inversion Hall as [|? ? Hy Hl]; subst. cbn [snd] in Hy.
      cbn [print_more_members]. rewrite !append_assoc.
      destruct (read_string_print k (": " ++ print_json y ++ print_more_members l ++ r))
        as (body & Ek & Hb).
      rewrite Ek. unfold quote_char. cbn [append read_more_members].
      rewrite Hb. cbn [append].
      cbn [members_size] in Hf.
      rewrite Hy; [|lia|destruct l as [|[? ?] ?]; reflexivity].
      rewrite IHl; [reflexivity | exact Hl | lia]. }
    destruct members as [|[k x] r]; [reflexivity|].
    inversion IH as [|? ? Hx Hr]; subst. cbn [snd] in Hx.
    rewrite print_json_members. rewrite json_size_members in Hfuel.
    cbn [members_size] in Hfuel.
    cbn [append]. rewrite !append_assoc. cbn [append]. rewrite !append_assoc.
    destruct (read_string_print k
                (String ":" (String " " (print_json x ++ print_more_members r ++ rest))))
      as (body & Ek & Hb).
    rewrite Ek, read_value_members, Hb.
    rewrite Hx; [|lia|destruct r as [|[? ?] ?]; reflexivity].
    rewrite Hmore; [reflexivity | exact Hr | lia].
Qed.

Lemma print_json_nonempty v : 1 <= String.length (print_json v).
Proof.
  destruct (print_json_head v) as (c & s & -> & _). cbn [String.length]. lia.
Qed.

Lemma json_size_length v : json_size v <= String.length (print_json v).
Proof.
  induction v as [|b|n|s|items IH|members IH] using json_ind;
    try (apply print_json_nonempty).
  - assert (Hmore : forall l, Forall (fun x => json_size x <= String.length (print_json x)) l ->
                     S (items_size l) <= String.length (print_more_items l)).
    { induction l as [|y l IHl]; intros Hall; [cbn; lia|].
      inversion Hall as [|? ? Hy Hl]; subst. specialize (IHl Hl).
      cbn [print_more_items items_size]. rewrite !length_append.
      cbn [String.length]. lia. }
    destruct items as [|x r]; [cbn; lia|].
    inversion IH as [|? ? Hx Hr]; subst. specialize (Hmore r Hr).
    rewrite print_json_items, json_size_items. cbn [items_size String.length].
    rewrite length_append. lia.
  - assert (Hmore : forall l, Forall (fun kv => json_size (snd kv)
                                                <= String.length (print_json (snd kv))) l ->
                     S (members_size l) <= String.length (print_more_members l)).
    { induction l as [|[k y] l IHl]; intros Hall; [cbn; lia|].
      inversion Hall as [|? ? Hy Hl]; subst. specialize (IHl Hl). cbn [snd] in Hy.
      cbn [print_more_members members_size]. rewrite !length_append.
      cbn [String.length]. lia. }
    destruct members as [|[k x] r]; [cbn; lia|].
    inversion IH as [|? ? Hx Hr]; subst. specialize (Hmore r Hr). cbn [snd] in Hx.
    rewrite print_json_members, json_size_members. cbn [members_size String.length].
    rewrite !length_append. lia.
Qed.

Lemma read_json_print v : read_json (print_json v) = Some v.
Proof.
  unfold read_json.
  pose proof (read_print v (S (String.length (print_json v))) EmptyString) as H.
  rewrite append_nil_r in H. rewrite H; [reflexivity | | reflexivity].
  pose proof (json_size_length v). lia.
Qed.

#[export] Instance json_codec : JsonCodec collaborators.
Proof.
  split; intros v; unfold loads; cbn [json_decode dumps dumps_indent collaborators];
    now rewrite read_json_print.
Qed.

#[export] Instance settings : Settings collaborators.
Proof. split. reflexivity. Qed.

Lemma own_key_pair k : key_pair (X := collaborators) k k.
Proof. intros alg msg. apply String.eqb_refl. Qed.

End DemoFacts.

(** The round trip on the claims [{sub, address: {city, zip}}], of which
    the city is chosen, with holder binding. *)
Lemma round_trip_witness :
  (well_formed (JObj Demo.claims0) = true
   /\ congruent [] Demo.claims0 = true
   /\ subset_of Demo.chosen0 Demo.claims0 = true
   /\ key_pair (X := Demo.collaborators) "issuer" "issuer"
   /\ holder_binding (X := Demo.collaborators) "holder" "holder" "aud1" "n1")
  /\ exists sd_jwt_payload sd_jwt svc_payload svc w' release_payload release,
       create_sd_jwt_and_svc (X := Demo.collaborators) Demo.claims0 "iss" "issuer" "holder" [] None None Demo.world0
       = OK ((sd_jwt_payload, sd_jwt, svc_payload, svc), w')
       /\ create_release_jwt (X := Demo.collaborators) "n1" "aud1" Demo.chosen0 svc "holder"
          = OK (release_payload, release)
       /\ verify (X := Demo.collaborators) (sd_jwt ++ "." ++ release) "issuer" "iss" (Some "holder")
            (Some "aud1") (Some "n1")
          = OK (selected Demo.chosen0 Demo.claims0).
Proof.
  assert (H1 : well_formed (JObj Demo.claims0) = true) by reflexivity.
  assert (H2 : congruent [] Demo.claims0 = true) by reflexivity.
  assert (H3 : subset_of Demo.chosen0 Demo.claims0 = true) by reflexivity.
  assert (H4 : key_pair (X := Demo.collaborators) "issuer" "issuer")
    by apply DemoFacts.own_key_pair.
  assert (H5 : holder_binding (X := Demo.collaborators) "holder" "holder" "aud1" "n1").
  { split; [apply DemoFacts.own_key_pair|].
    split; [exists "holder"; split; reflexivity|].
    split; discriminate. }
  split; [exact (conj H1 (conj H2 (conj H3 (conj H4 H5))))|].
  exact (round_trip DemoFacts.json_codec DemoFacts.settings
           Demo.claims0 [] Demo.chosen0 "iss" "issuer" "issuer" "holder" "holder"
           "n1" "aud1" None None Demo.world0 H1 H2 H3 H4 H5).
Defined.

(** A release for the empty audience, verified with the matching keys,
    the matching audience and the matching nonce, is refused. *)
Lemma round_trip_fails_for_an_empty_audience :
  exists release_payload release,
    create_sd_jwt_and_svc (X := Demo.collaborators) Demo.claims0 "iss" "issuer" "holder" []
      None None Demo.world0
    = OK ((Demo.sd_jwt_payload0, Demo.sd_jwt0, Demo.svc_payload0, Demo.svc0), Demo.world1)
    /\ create_release_jwt (X := Demo.collaborators) "n1" EmptyString Demo.chosen0 Demo.svc0
         "holder"
       = OK (release_payload, release)
    /\ verify (X := Demo.collaborators) (Demo.sd_jwt0 ++ "." ++ release) "issuer" "iss"
         (Some "holder") (Some EmptyString) (Some "n1")
       = Err InvalidArguments
    /\ verify (X := Demo.collaborators) (Demo.sd_jwt0 ++ "." ++ release) "issuer" "iss"
         (Some "holder") (Some EmptyString) (Some "n1")
       <> OK (selected Demo.chosen0 Demo.claims0).
Proof.
  do 2 eexists. split; [vm_compute; reflexivity|].
  split; [vm_compute; reflexivity|].
  split; [reflexivity | discriminate].
Qed.

(** ** The check of one disclosed leaf *)

Section LeafCheck.

Context {X : Collaborators}.


End LeafCheck.



(** ** Release of a key that has no disclosure *)

Section ReleaseFailure.

Context {X : Collaborators}.





End ReleaseFailure.



(** ** Verification: arguments, holder binding, anonymous presentations *)

Section Verification.

Context {X : Collaborators}.

(** C7. When a holder key is supplied and the expected audience or the
    expected nonce is not, verification fails with [InvalidArguments],
    whatever the presentation is: nothing of it has been looked at. *)
Theorem verify_requires_aud_and_nonce
    combined_presentation issuer_public_key expected_issuer key
    expected_aud expected_nonce :
  expected_aud = None \/ expected_nonce = None ->
  verify combined_presentation issuer_public_key expected_issuer (Some key)
    expected_aud expected_nonce
  = Err InvalidArguments.
Proof.
  intros [-> | ->]; unfold verify; cbn [given negb orb]; [reflexivity|].
  now rewrite orb_true_r.
Qed.

(** C10. An empty expected audience, or an empty expected nonce, counts
    as missing: with a holder key, verification fails with
    [InvalidArguments]. *)
Theorem verify_rejects_empty_aud_or_nonce :
  (forall combined_presentation issuer_public_key expected_issuer key expected_nonce,
     verify combined_presentation issuer_public_key expected_issuer (Some key)
       (Some EmptyString) expected_nonce
     = Err InvalidArguments)
  /\ (forall combined_presentation issuer_public_key expected_issuer key expected_aud,
        verify combined_presentation issuer_public_key expected_issuer (Some key)
          expected_aud (Some EmptyString)
        = Err InvalidArguments).
Proof.
  split; intros; unfold verify; cbn [given String.eqb negb orb]; [reflexivity|].
  now rewrite orb_true_r.
Qed.

Lemma JWS_deserialize_error raw e :
  JWS_deserialize raw = Err e -> e = InvalidJWSObject.
Proof.
  unfold JWS_deserialize.
  destruct (split_dot raw) as [|h [|p [|s [|x l]]]]; try (now intros [= <-]).
  destruct (base64url_decode h), (base64url_decode p), (base64url_decode s);
    try discriminate; now intros [= <-].
Qed.

(** No signature of a token that has just been parsed is verified. *)
Lemma JWS_deserialize_unverified raw t :
  JWS_deserialize raw = OK t -> jws_valid t = false.
Proof.
  unfold JWS_deserialize.
  destruct (split_dot raw) as [|h [|p [|s [|x l]]]]; try discriminate.
  destruct (base64url_decode h), (base64url_decode p), (base64url_decode s);
    try discriminate.
  now intros [= <-].
Qed.

Lemma getitem_error v k e :
  getitem v k = Err e -> e = KeyError k \/ e = TypeError.
Proof.
  unfold getitem. destruct v as [| | | | |d]; try (intros [= <-]; now right).
  destruct (lookup k d); [discriminate | intros [= <-]; now left].
Qed.

Lemma py_in_error k v e : py_in k v = Err e -> e = TypeError.
Proof. destruct v; cbn [py_in]; try discriminate; now intros [= <-]. Qed.

(** Without an embedded key, or with an empty one, the comparison of
    keys does not take place. *)
Lemma no_embedded_key_no_mismatch sd_jwt_release key expected_aud expected_nonce embedded :
  match embedded with Some v => truthy v = false | None => True end ->
  _verify_sd_jwt_release sd_jwt_release (Some key) expected_aud expected_nonce embedded
  <> Err HolderKeyMismatch.
Proof.
  intros He. unfold _verify_sd_jwt_release.
  destruct (JWS_deserialize sd_jwt_release) as [t|e] eqn:Ed;
    [|apply JWS_deserialize_error in Ed; subst; discriminate].
  cbn [bind].
  assert (E : match embedded with
              | Some v =>
                  if truthy v
                  then pubkey <- JWK_from_json (dumps v) ;;
                       (if negb (JWK_eqb key pubkey) then Err HolderKeyMismatch else OK tt)
                  else OK tt
              | None => OK tt
              end = OK tt).
  { destruct embedded as [v|]; [now rewrite He | reflexivity]. }
  rewrite E. cbn [bind]. unfold JWS_verify, JWS_payload.
  destruct (check_signature _ _ _ _); [|discriminate]. cbn [bind jws_valid jws_payload].
  unfold loads. destruct (json_decode _) as [p|]; [|discriminate]. cbn [bind].
  destruct (getitem p "aud") as [a|e] eqn:Ea;
    [|apply getitem_error in Ea as [-> | ->]; discriminate].
  cbn [bind].
  destruct (negb (py_eq_opt_str a expected_aud)); [discriminate|].
  destruct (getitem p "nonce") as [n|e] eqn:En;
    [|apply getitem_error in En as [-> | ->]; discriminate].
  cbn [bind].
  destruct (negb (py_eq_opt_str n expected_nonce)); [discriminate|]. cbn [bind].
  destruct (py_in SD_CLAIMS_KEY p) as [[]|e] eqn:Ei; cbn [bind negb];
    [ | discriminate | apply py_in_error in Ei; subst; discriminate ].
  destruct (getitem p SD_CLAIMS_KEY) as [x|e] eqn:Eg;
    [discriminate | apply getitem_error in Eg as [-> | ->]; discriminate].
Qed.

(** C3, as the code has it.  When a holder key is supplied and the token
    of the issuer embeds a non-empty key that is a key other than the
    supplied one, verification fails with [HolderKeyMismatch], provided the
    earlier steps passed (arguments, six parts, the issuer's token, the
    release token parses).  When the token embeds no key, or an empty one,
    the comparison is skipped and this failure cannot occur. *)
Theorem holder_key_is_compared
    combined_presentation issuer_public_key expected_issuer key
    expected_aud expected_nonce claims embedded pubkey :
  given expected_aud = true ->
  given expected_nonce = true ->
  List.length (split_dot combined_presentation) = 6 ->
  _verify_sd_jwt (join_dot (firstn 3 (split_dot combined_presentation)))
    issuer_public_key expected_issuer = OK (claims, Some embedded) ->
  succeeds (JWS_deserialize (join_dot (skipn 3 (split_dot combined_presentation)))) = true ->
  truthy embedded = true ->
  JWK_from_json (dumps embedded) = OK pubkey ->
  JWK_eqb key pubkey = false ->
  verify combined_presentation issuer_public_key expected_issuer (Some key)
    expected_aud expected_nonce = Err HolderKeyMismatch
  /\ forall sd_jwt_release aud nonce absent,
       match absent with Some v => truthy v = false | None => True end ->
       _verify_sd_jwt_release sd_jwt_release (Some key) aud nonce absent
       <> Err HolderKeyMismatch.
Proof.
  intros Ha Hn Hlen Hsd Hrel Ht Hp He. split.
  - unfold verify. rewrite Ha, Hn, Hlen, Hsd. cbn [negb orb Nat.eqb bind].
    unfold _verify_sd_jwt_release.
    destruct (JWS_deserialize _) as [t|e]; [|discriminate Hrel]. cbn [bind].
    rewrite Ht, Hp. cbn [bind]. rewrite He. reflexivity.
  - intros. now apply no_embedded_key_no_mismatch.
Qed.

(** C6, what the code does.  Without a holder key the signature of the
    release token is not checked and its audience and nonce are compared
    to nothing, but verification never returns claims: no signature of
    the release token has been verified when its payload is read, and the
    token library hands out the payload of a verified token only.  Once
    the presentation has six parts, the issuer's token is accepted and the
    release token parses, the outcome is [InvalidJWSOperation], whatever
    the release token holds and whatever audience and nonce are
    expected. *)
Theorem anonymous_presentation_is_refused
    combined_presentation issuer_public_key expected_issuer expected_aud expected_nonce :
  succeeds (verify combined_presentation issuer_public_key expected_issuer None
              expected_aud expected_nonce) = false
  /\ forall claims embedded t,
       List.length (split_dot combined_presentation) = 6 ->
       _verify_sd_jwt (join_dot (firstn 3 (split_dot combined_presentation)))
         issuer_public_key expected_issuer = OK (claims, embedded) ->
       JWS_deserialize (join_dot (skipn 3 (split_dot combined_presentation))) = OK t ->
       verify combined_presentation issuer_public_key expected_issuer None
         expected_aud expected_nonce = Err InvalidJWSOperation.
Proof.
  assert (Hrel : forall sd_jwt_release embedded,
            succeeds (_verify_sd_jwt_release sd_jwt_release None expected_aud
                        expected_nonce embedded) = false
            /\ forall t, JWS_deserialize sd_jwt_release = OK t ->
                 _verify_sd_jwt_release sd_jwt_release None expected_aud expected_nonce
                   embedded = Err InvalidJWSOperation).
  { intros sd_jwt_release embedded. unfold _verify_sd_jwt_release.
    destruct (JWS_deserialize sd_jwt_release) as [t|e] eqn:Ed;
      [|split; [reflexivity | discriminate]].
    cbn [bind]. unfold JWS_payload.
    rewrite (JWS_deserialize_unverified _ _ Ed). cbn [bind].
    split; [reflexivity | intros; reflexivity]. }
  unfold verify. split.
  - destruct (negb (Nat.eqb (List.length (split_dot combined_presentation)) 6));
      [reflexivity|].
    destruct (_verify_sd_jwt _ issuer_public_key expected_issuer) as [[claims embedded]|e];
      [|reflexivity].
    cbn [bind].
    match goal with |- context [_verify_sd_jwt_release ?r None _ _ ?e] =>
      pose proof (proj1 (Hrel r e)) as H;
      destruct (_verify_sd_jwt_release r None expected_aud expected_nonce e)
    end; [discriminate H | reflexivity].
  - intros claims embedded t Hlen Hsd Ht. rewrite Hlen, Hsd. cbn [Nat.eqb negb bind].
    now rewrite (proj2 (Hrel _ embedded) t Ht).
Qed.

End Verification.

Lemma verify_requires_aud_and_nonce_witness :
  (@None string = None \/ Some "n1" = None)
  /\ verify (X := Demo.collaborators) "not a presentation" "issuer" "iss"
       (Some "holder") None (Some "n1")
     = Err InvalidArguments.
Proof.
  split; [now left|].
  exact (verify_requires_aud_and_nonce (X := Demo.collaborators)
           "not a presentation" "issuer" "iss" "holder" None (Some "n1")
           (or_introl eq_refl)).
Defined.

Lemma verify_rejects_empty_aud_or_nonce_witness :
  verify (X := Demo.collaborators) Demo.presentation0 "issuer" "iss"
    (Some "holder") (Some EmptyString) (Some "n1") = Err InvalidArguments
  /\ verify (X := Demo.collaborators) Demo.presentation0 "issuer" "iss"
       (Some "holder") (Some "aud1") (Some EmptyString) = Err InvalidArguments.
Proof.
  split.
  - exact (proj1 (verify_rejects_empty_aud_or_nonce (X := Demo.collaborators))
             Demo.presentation0 "issuer" "iss" "holder" (Some "n1")).
  - exact (proj2 (verify_rejects_empty_aud_or_nonce (X := Demo.collaborators))
             Demo.presentation0 "issuer" "iss" "holder" (Some "aud1")).
Defined.

(** The verifier supplies another key than the one the issuer embedded. *)
Lemma holder_key_is_compared_witness :
  (given (Some "aud1") = true
   /\ given (Some "n1") = true
   /\ List.length (split_dot Demo.presentation0) = 6
   /\ _verify_sd_jwt (X := Demo.collaborators)
        (join_dot (firstn 3 (split_dot Demo.presentation0))) "issuer" "iss"
      = OK (Demo.commitments0, Some (Demo.key_export "holder"))
   /\ succeeds (JWS_deserialize (join_dot (skipn 3 (split_dot Demo.presentation0)))) = true
   /\ truthy (Demo.key_export "holder") = true
   /\ JWK_from_json (X := Demo.collaborators) (Demo.print_json (Demo.key_export "holder"))
      = OK "holder"
   /\ String.eqb "mallory" "holder" = false)
  /\ verify (X := Demo.collaborators) Demo.presentation0 "issuer" "iss"
       (Some "mallory") (Some "aud1") (Some "n1")
     = Err HolderKeyMismatch.
Proof.
  assert (H1 : given (Some "aud1") = true) by reflexivity.
  assert (H2 : given (Some "n1") = true) by reflexivity.
  assert (H3 : List.length (split_dot Demo.presentation0) = 6) by (vm_compute; reflexivity).
  assert (H4 : _verify_sd_jwt (X := Demo.collaborators)
                 (join_dot (firstn 3 (split_dot Demo.presentation0))) "issuer" "iss"
               = OK (Demo.commitments0, Some (Demo.key_export "holder")))
    by (vm_compute; reflexivity).
  assert (H5 : succeeds (JWS_deserialize
                           (join_dot (skipn 3 (split_dot Demo.presentation0)))) = true)
    by (vm_compute; reflexivity).
  assert (H6 : truthy (Demo.key_export "holder") = true) by reflexivity.
  assert (H7 : JWK_from_json (X := Demo.collaborators)
                 (Demo.print_json (Demo.key_export "holder")) = OK "holder")
    by (vm_compute; reflexivity).
  assert (H8 : String.eqb "mallory" "holder" = false) by reflexivity.
  split; [exact (conj H1 (conj H2 (conj H3 (conj H4 (conj H5 (conj H6 (conj H7 H8)))))))|].
  exact (proj1 (holder_key_is_compared (X := Demo.collaborators)
                  Demo.presentation0 "issuer" "iss" "mallory" (Some "aud1") (Some "n1")
                  Demo.commitments0 (Demo.key_export "holder") "holder"
                  H1 H2 H3 H4 H5 H6 H7 H8)).
Defined.

(** The issuer's token embeds no holder key, a holder key is supplied,
    and verification returns the disclosed claims. *)
Lemma absent_embedded_key_is_not_a_mismatch :
  _verify_sd_jwt (X := Demo.collaborators) Demo.keyless_sd_jwt "issuer" "iss"
  = OK (Demo.commitments0, None)
  /\ verify (X := Demo.collaborators) (Demo.keyless_sd_jwt ++ "." ++ Demo.release0)
       "issuer" "iss" (Some "holder") (Some "aud1") (Some "n1")
     = OK [("address", JObj [("city", JStr "X")])]
  /\ verify (X := Demo.collaborators) (Demo.keyless_sd_jwt ++ "." ++ Demo.release0)
       "issuer" "iss" (Some "holder") (Some "aud1") (Some "n1")
     <> Err HolderKeyMismatch.
Proof.
  split; [vm_compute; reflexivity|].
  split; [vm_compute; reflexivity|].
  vm_compute. discriminate.
Qed.

(** A presentation whose two tokens are signed by the issuer and by the
    holder is refused when no holder key is given. *)
Lemma anonymous_presentation_is_refused_witness :
  (List.length (split_dot Demo.presentation0) = 6
   /\ _verify_sd_jwt (X := Demo.collaborators)
        (join_dot (firstn 3 (split_dot Demo.presentation0))) "issuer" "iss"
      = OK (Demo.commitments0, Some (Demo.key_export "holder"))
   /\ succeeds (JWS_deserialize (join_dot (skipn 3 (split_dot Demo.presentation0)))) = true)
  /\ verify (X := Demo.collaborators) Demo.presentation0 "issuer" "iss" None None None
     = Err InvalidJWSOperation.
Proof.
  assert (H1 : List.length (split_dot Demo.presentation0) = 6) by (vm_compute; reflexivity).
  assert (H2 : _verify_sd_jwt (X := Demo.collaborators)
                 (join_dot (firstn 3 (split_dot Demo.presentation0))) "issuer" "iss"
               = OK (Demo.commitments0, Some (Demo.key_export "holder")))
    by (vm_compute; reflexivity).
  assert (H3 : succeeds (JWS_deserialize
                           (join_dot (skipn 3 (split_dot Demo.presentation0)))) = true)
    by (vm_compute; reflexivity).
  split; [exact (conj H1 (conj H2 H3))|].
  destruct (JWS_deserialize (join_dot (skipn 3 (split_dot Demo.presentation0))))
    as [t|e] eqn:Ed; [|discriminate H3].
  exact (proj2 (anonymous_presentation_is_refused (X := Demo.collaborators)
                  Demo.presentation0 "issuer" "iss" None None)
           Demo.commitments0 (Some (Demo.key_export "holder")) t H1 H2 Ed).
Defined.

(** ** Issuance: timestamps *)

Section Timestamps.

Context {X : Collaborators}.

Lemma or_int_zero d : or_int (Some 0%Z) d = d.
Proof. reflexivity. Qed.

Lemma or_int_nonzero z d : z <> 0%Z -> or_int (Some z) d = z.
Proof.
  intros H. unfold or_int. destruct (Z.eqb_spec z 0); [contradiction | reflexivity].
Qed.

(** C8, as the code has it.  Issuance returns; the payload it returns is
    the payload of the signed token; when no expiry is supplied the
    payload's expiry is its issuance timestamp plus 900 seconds, and when a
    non-zero expiry is supplied the payload carries that expiry. *)
Theorem default_expiry (J : JsonCodec X) (T : Settings X)
    user_claims issuer issuer_key holder_key claim_structure iat exp w :
  well_formed (JObj user_claims) = true ->
  congruent claim_structure user_claims = true ->
  exists sd_jwt_payload sd_jwt svc_payload svc w' t issued_at expires_at,
    create_sd_jwt_and_svc user_claims issuer issuer_key holder_key
      claim_structure iat exp w = OK ((sd_jwt_payload, sd_jwt, svc_payload, svc), w')
    /\ JWS_deserialize sd_jwt = OK t
    /\ loads (jws_payload t) = OK sd_jwt_payload
    /\ getitem sd_jwt_payload "iat" = OK (JNum issued_at)
    /\ getitem sd_jwt_payload "exp" = OK (JNum expires_at)
    /\ (exp = None -> expires_at = (issued_at + 900)%Z)
    /\ (forall e, exp = Some e -> e <> 0%Z -> expires_at = e).
Proof.
  intros Hwf Hfit.
  destruct (issuance_runs user_claims issuer issuer_key holder_key claim_structure
              iat exp w Hwf Hfit) as (cms & dms & w' & _ & _ & Eissue).
  cbv zeta in Eissue. rewrite (sd_jwt_payload_display T) in Eissue.
  destruct (sd_jwt_payload_fields T (JStr issuer) (export_public holder_key)
              (JNum (or_int iat (utcnow_timestamp w)))
              (JNum (or_int exp (or_int iat (utcnow_timestamp w) + DEFAULT_EXP_MINS * 60)))
              (JObj cms)) as (_ & _ & E3 & E4 & _).
  do 8 eexists. split; [exact Eissue|].
  split; [rewrite JWS_serialize_compact_parts; apply JWS_deserialize_compact|].
  cbn [jws_payload]. split; [apply loads_dumps|].
  unfold getitem. rewrite E3, E4.
  split; [reflexivity|]. split; [reflexivity|]. split.
  - intros ->. reflexivity.
  - intros e -> He. now apply or_int_nonzero.
Qed.

(** C9. A zero issuance timestamp, or a zero expiry, is treated exactly
    like an omitted one: issuance returns the same results; with [iat = 0]
    the payload's issuance timestamp is the current time, and with
    [exp = 0] its expiry is its issuance timestamp plus 900 seconds. *)
Theorem zero_timestamp_is_absent (T : Settings X)
    user_claims issuer issuer_key holder_key claim_structure w :
  well_formed (JObj user_claims) = true ->
  congruent claim_structure user_claims = true ->
  (forall exp,
     create_sd_jwt_and_svc user_claims issuer issuer_key holder_key
       claim_structure (Some 0%Z) exp w
     = create_sd_jwt_and_svc user_claims issuer issuer_key holder_key
         claim_structure None exp w)
  /\ (forall iat,
        create_sd_jwt_and_svc user_claims issuer issuer_key holder_key
          claim_structure iat (Some 0%Z) w
        = create_sd_jwt_and_svc user_claims issuer issuer_key holder_key
            claim_structure iat None w)
  /\ (forall exp, exists sd_jwt_payload,
        issued_payload (create_sd_jwt_and_svc user_claims issuer issuer_key holder_key
                          claim_structure (Some 0%Z) exp w) = OK sd_jwt_payload
        /\ getitem sd_jwt_payload "iat" = OK (JNum (utcnow_timestamp w)))
  /\ (forall iat, exists sd_jwt_payload issued_at,
        issued_payload (create_sd_jwt_and_svc user_claims issuer issuer_key holder_key
                          claim_structure iat (Some 0%Z) w) = OK sd_jwt_payload
        /\ getitem sd_jwt_payload "iat" = OK (JNum issued_at)
        /\ getitem sd_jwt_payload "exp" = OK (JNum (issued_at + 900))).
Proof.
  intros Hwf Hfit. split; [reflexivity|]. split; [reflexivity|]. split.
  - intros exp.
    destruct (issuance_runs user_claims issuer issuer_key holder_key claim_structure
                (Some 0%Z) exp w Hwf Hfit) as (cms & dms & w' & _ & _ & Eissue).
    cbv zeta in Eissue. rewrite (sd_jwt_payload_display T) in Eissue.
    rewrite Eissue. cbn [issued_payload]. eexists. split; [reflexivity|].
    unfold getitem.
    match goal with |- context [lookup "iat" [("iss", ?a); ("sub_jwk", ?b); ("iat", ?c);
                                             ("exp", ?d); (SD_CLAIMS_KEY, ?e)]] =>
      destruct (sd_jwt_payload_fields T a b c d e) as (_ & _ & -> & _ & _) end.
    reflexivity.
  - intros iat.
    destruct (issuance_runs user_claims issuer issuer_key holder_key claim_structure
                iat (Some 0%Z) w Hwf Hfit) as (cms & dms & w' & _ & _ & Eissue).
    cbv zeta in Eissue. rewrite (sd_jwt_payload_display T) in Eissue.
    rewrite Eissue. cbn [issued_payload]. eexists. eexists. split; [reflexivity|].
    unfold getitem.
    match goal with |- context [lookup "iat" [("iss", ?a); ("sub_jwk", ?b); ("iat", ?c);
                                             ("exp", ?d); (SD_CLAIMS_KEY, ?e)]] =>
      destruct (sd_jwt_payload_fields T a b c d e) as (_ & _ & -> & -> & _) end.
    split; reflexivity.
Qed.

End Timestamps.

Lemma default_expiry_witness :
  (well_formed (JObj Demo.claims0) = true /\ congruent [] Demo.claims0 = true)
  /\ exists sd_jwt_payload sd_jwt svc_payload svc w' t issued_at expires_at,
       create_sd_jwt_and_svc (X := Demo.collaborators) Demo.claims0 "iss" "issuer" "holder"
         [] None None Demo.world0 = OK ((sd_jwt_payload, sd_jwt, svc_payload, svc), w')
       /\ JWS_deserialize sd_jwt = OK t
       /\ loads (X := Demo.collaborators) (jws_payload t) = OK sd_jwt_payload
       /\ getitem sd_jwt_payload "iat" = OK (JNum issued_at)
       /\ getitem sd_jwt_payload "exp" = OK (JNum expires_at)
       /\ (@None Z = None -> expires_at = (issued_at + 900)%Z)
       /\ (forall e, @None Z = Some e -> e <> 0%Z -> expires_at = e).
Proof.
  assert (H1 : well_formed (JObj Demo.claims0) = true) by reflexivity.
  assert (H2 : congruent [] Demo.claims0 = true) by reflexivity.
  split; [exact (conj H1 H2)|].
  exact (default_expiry DemoFacts.json_codec DemoFacts.settings
           Demo.claims0 "iss" "issuer" "holder" [] None None Demo.world0 H1 H2).
Defined.

(** An expiry of zero is supplied, and the payload carries another one. *)
Lemma supplied_zero_expiry_is_not_kept :
  (r <- issued_payload
          (create_sd_jwt_and_svc (X := Demo.collaborators) Demo.claims0 "iss" "issuer"
             "holder" [] (Some 1000%Z) (Some 0%Z) Demo.world0) ;;
   getitem r "exp") = OK (JNum 1900)
  /\ JNum 1900 <> JNum 0.
Proof. split; [vm_compute; reflexivity | discriminate]. Qed.

Lemma zero_timestamp_is_absent_witness :
  (well_formed (JObj Demo.claims0) = true /\ congruent [] Demo.claims0 = true)
  /\ (r <- issued_payload
             (create_sd_jwt_and_svc (X := Demo.collaborators) Demo.claims0 "iss" "issuer"
                "holder" [] (Some 0%Z) (Some 0%Z) Demo.world0) ;;
      getitem r "iat") = OK (JNum 1000)
  /\ (r <- issued_payload
             (create_sd_jwt_and_svc (X := Demo.collaborators) Demo.claims0 "iss" "issuer"
                "holder" [] (Some 0%Z) (Some 0%Z) Demo.world0) ;;
      getitem r "exp") = OK (JNum 1900).
Proof.
  assert (H1 : well_formed (JObj Demo.claims0) = true) by reflexivity.
  assert (H2 : congruent [] Demo.claims0 = true) by reflexivity.
  split; [exact (conj H1 H2)|].
  pose proof (zero_timestamp_is_absent DemoFacts.settings
                Demo.claims0 "iss" "issuer" "holder" [] Demo.world0 H1 H2)
    as (_ & _ & Hiat & _).
  destruct (Hiat (Some 0%Z)) as (p & Ep & Hp).
  split; [now rewrite Ep | vm_compute; reflexivity].
Defined.

(** ** Salts *)

Lemma length_enc1 a : String.length (enc1 a) = 2.
Proof. destruct a; reflexivity. Qed.

Lemma length_enc3 a b c : String.length (enc3 a b c) = 4.
Proof. destruct a, b, c; reflexivity. Qed.

Lemma b64_body_length_16 s :
  String.length s = 16 -> String.length (b64_body s) = 22.
Proof.
  intros H.
  do 16 (destruct s as [|? s]; [discriminate H|]).
  destruct s; [|discriminate H].
  cbn [b64_body]. rewrite !length_append, !length_enc3, length_enc1. reflexivity.
Qed.

Lemma is_b64_char_six x5 x4 x3 x2 x1 x0 :
  is_b64_char (b64_char (six x5 x4 x3 x2 x1 x0)) = true.
Proof. unfold is_b64_char. now rewrite b64_index_char. Qed.

Lemma all_chars_append p a b :
  all_chars p (a ++ b) = all_chars p a && all_chars p b.
Proof.
  induction a as [|x a IH]; [reflexivity|].
  cbn [append all_chars]. rewrite IH. now rewrite andb_assoc.
Qed.

Lemma b64_body_alphabet s : all_chars is_b64_char (b64_body s) = true.
Proof.
  induction s as [|a|a b|a b c r IH] using string_ind3.
  - reflexivity.
  - destruct a. cbn [b64_body enc1 all_chars]. now rewrite !is_b64_char_six.
  - destruct a, b. cbn [b64_body enc2 all_chars]. now rewrite !is_b64_char_six.
  - destruct a, b, c. cbn [b64_body enc3 append all_chars].
    now rewrite !is_b64_char_six, IH.
Qed.

Lemma random_bytes_facts n : forall w,
  let r := random_bytes n w in
  String.length (fst r) = n
  /\ os_entropy (snd r) = os_entropy w
  /\ tape (random_module (snd r)) = tape (random_module w)
  /\ cursor (random_module (snd r)) = n + cursor (random_module w).
Proof.
  induction n as [|n IH]; intros w; cbv zeta; [repeat split|].
  cbn [random_bytes]. unfold random_getrandbits, draw.
  match goal with |- context [random_bytes n ?w1] =>
    specialize (IH w1); cbv zeta in IH; destruct (random_bytes n w1) as [rest w2] end.
  cbn [fst snd random_module os_entropy tape cursor String.length] in *.
  destruct IH as (L & O & Tp & C). repeat split; try assumption; lia.
Qed.

Lemma random_bytes_depends_on_random_module n : forall w1 w2,
  random_module w1 = random_module w2 ->
  fst (random_bytes n w1) = fst (random_bytes n w2).
Proof.
  induction n as [|n IH]; intros w1 w2 E; [reflexivity|].
  cbn [random_bytes]. unfold random_getrandbits, draw. rewrite E.
  match goal with
  | |- fst (let '(rest, w) := random_bytes n ?a in _) =
       fst (let '(rest', w') := random_bytes n ?b in _) =>
      specialize (IH a b eq_refl);
      destruct (random_bytes n a) as [ra wa], (random_bytes n b) as [rb wb]
  end.
  cbn [fst] in *. now rewrite IH.
Qed.

(** C4, as the code has it.  A salt is the URL-safe base64 encoding,
    without padding, of sixteen bytes: twenty-two characters of the
    alphabet that decode to those bytes.  The bytes are the next sixteen
    values of the generator of module [random]; the entropy of the
    operating system is not consumed, and two processes whose [random]
    generators are in the same state produce the same salt. *)
Theorem generate_salt_draws_from_random w :
  exists bytes w',
    generate_salt w = (base64url_encode bytes, w')
    /\ random_bytes 16 w = (bytes, w')
    /\ String.length bytes = 16
    /\ String.length (base64url_encode bytes) = 22
    /\ all_chars is_b64_char (base64url_encode bytes) = true
    /\ urlsafe_b64decode (base64url_encode bytes ++ "==") = OK bytes
    /\ os_entropy w' = os_entropy w
    /\ tape (random_module w') = tape (random_module w)
    /\ cursor (random_module w') = 16 + cursor (random_module w)
    /\ forall w2, random_module w2 = random_module w ->
                  fst (generate_salt w2) = base64url_encode bytes.
Proof.
  pose proof (random_bytes_facts 16 w) as F. cbv zeta in F.
  pose proof (random_bytes_depends_on_random_module 16) as D.
  unfold generate_salt.
  destruct (random_bytes 16 w) as [bytes w'] eqn:E. cbn [fst snd] in F.
  destruct F as (L & O & Tp & C).
  exists bytes, w'. repeat split; try assumption.
  - rewrite base64url_encode_body. now apply b64_body_length_16.
  - rewrite base64url_encode_body. apply b64_body_alphabet.
  - apply urlsafe_b64decode_encode.
  - intros w2 E2. specialize (D w2 w E2). rewrite E in D. cbn [fst] in D.
    destruct (random_bytes 16 w2) as [b2 w2']. cbn [fst] in *. now subst.
Qed.

(** In a process whose [random] generator counts and whose operating
    system would deliver zeros, the salt follows the [random] generator. *)
Lemma salt_is_not_drawn_from_os_entropy : ~ drawn_from_os_entropy Demo.world0.
Proof.
  unfold drawn_from_os_entropy. intros H.
  apply (f_equal fst) in H. vm_compute in H. discriminate H.
Qed.

Lemma generate_salt_draws_from_random_witness :
  String.length (fst (generate_salt Demo.world0)) = 22
  /\ cursor (random_module (snd (generate_salt Demo.world0))) = 16
  /\ os_entropy (snd (generate_salt Demo.world0)) = os_entropy Demo.world0.
Proof.
  destruct (generate_salt_draws_from_random Demo.world0)
    as (bytes & w' & E & _ & _ & L & _ & _ & O & _ & C & _).
  rewrite E. cbn [fst snd]. exact (conj L (conj C O)).
Defined.

(** * Further properties *)

(** ** The token of the issuer *)

Section IssuerToken.

Context {X : Collaborators}.

Lemma getitem_inv v k x :
  getitem v k = OK x <-> exists d, v = JObj d /\ lookup k d = Some x.
Proof.
  split.
  - unfold getitem. destruct v as [| | | | |d]; try discriminate.
    destruct (lookup k d) as [y|] eqn:E; [|discriminate].
    intros [= <-]. now exists d.
  - intros (d & -> & H). cbn [getitem]. now rewrite H.
Qed.




End IssuerToken.


(** ** What issuance and release return *)

Section Results.

Context {X : Collaborators}.

Lemma create_sd_jwt_and_svc_inv
    user_claims issuer issuer_key holder_key claim_structure iat exp w
    sd_jwt_payload sd_jwt svc_payload svc w' :
  create_sd_jwt_and_svc user_claims issuer issuer_key holder_key claim_structure iat exp w
  = OK ((sd_jwt_payload, sd_jwt, svc_payload, svc), w') ->
  exists salts commitments disclosures,
    by_structure salt_leaf claim_structure user_claims w = OK (salts, w')
    /\ walk_by_structure salts user_claims _create_sd_claim_entry = OK commitments
    /\ walk_by_structure salts user_claims _create_svc_entry = OK disclosures
    /\ sd_jwt_payload =
       JObj (mkdict [("iss", JStr issuer);
                     ("sub_jwk", export_public holder_key);
                     ("iat", JNum (or_int iat (utcnow_timestamp w')));
                     ("exp", JNum (or_int exp (or_int iat (utcnow_timestamp w')
                                               + DEFAULT_EXP_MINS * 60)));
                     (SD_CLAIMS_KEY, JObj commitments)])
    /\ sd_jwt =
       JWS_serialize_compact (dumps sd_jwt_payload) issuer_key DEFAULT_SIGNIGN_ALG
         (dumps (JObj (mkdict [("alg", JStr DEFAULT_SIGNIGN_ALG)])))
    /\ svc_payload = JObj (mkdict [(SD_CLAIMS_KEY, JObj disclosures)])
    /\ svc = base64url_encode (dumps_indent svc_payload).
Proof.
  unfold create_sd_jwt_and_svc.
  destruct (by_structure salt_leaf claim_structure user_claims w) as [[salts w1]|e] eqn:E1;
    [|discriminate]. cbn [bind].
  destruct (walk_by_structure salts user_claims _create_sd_claim_entry) as [cms|e] eqn:E2;
    [|discriminate]. cbn [bind].
  destruct (walk_by_structure salts user_claims _create_svc_entry) as [dms|e] eqn:E3;
    [|discriminate]. cbn [bind].
  intros [= <- <- <- <- <-]. exists salts, cms, dms.
  split; [reflexivity|]. split; [exact E2|]. split; [exact E3|].
  split; [reflexivity|]. split; [reflexivity|]. split; reflexivity.
Qed.

Lemma create_release_jwt_inv nonce aud disclosed_claims serialized_svc holder_key
    sd_jwt_release_payload sd_jwt_release :
  create_release_jwt nonce aud disclosed_claims serialized_svc holder_key
  = OK (sd_jwt_release_payload, sd_jwt_release) ->
  exists released,
    sd_jwt_release_payload =
    JObj (mkdict [("nonce", JStr nonce); ("aud", JStr aud); (SD_CLAIMS_KEY, JObj released)])
    /\ sd_jwt_release =
       JWS_serialize_compact (dumps sd_jwt_release_payload) holder_key DEFAULT_SIGNIGN_ALG
         (dumps (JObj (mkdict [("alg", JStr DEFAULT_SIGNIGN_ALG)]))).
Proof.
  unfold create_release_jwt.
  destruct (urlsafe_b64decode _) as [bytes|e]; [|discriminate]. cbn [bind].
  destruct (loads bytes) as [svc|e]; [|discriminate]. cbn [bind].
  destruct (getitem svc SD_CLAIMS_KEY) as [raw|e]; [|discriminate]. cbn [bind].
  destruct (as_tree raw) as [tree|e]; [|discriminate]. cbn [bind].
  destruct (walk_by_structure tree disclosed_claims (without_default release_leaf)) as [released|e];
    [|discriminate]. cbn [bind].
  intros [= <- <-]. exists released. split; reflexivity.
Qed.

(** What the check of the issuer's token makes of a token of the
    signer. *)
Lemma _verify_sd_jwt_outcome (J : JsonCodec X) (T : Settings X)
    issuer embedded iat exp commitments issuer_key key expected protected :
  _verify_sd_jwt
    (JWS_serialize_compact
       (dumps (JObj [("iss", JStr issuer); ("sub_jwk", embedded); ("iat", iat);
                     ("exp", exp); (SD_CLAIMS_KEY, commitments)]))
       issuer_key DEFAULT_SIGNIGN_ALG protected)
    key expected
  = if check_signature DEFAULT_SIGNIGN_ALG key
         (base64url_encode protected ++
          String dot (base64url_encode
                        (dumps (JObj [("iss", JStr issuer); ("sub_jwk", embedded);
                                      ("iat", iat); ("exp", exp);
                                      (SD_CLAIMS_KEY, commitments)]))))
         (sign DEFAULT_SIGNIGN_ALG issuer_key
            (base64url_encode protected ++
             String dot (base64url_encode
                           (dumps (JObj [("iss", JStr issuer); ("sub_jwk", embedded);
                                         ("iat", iat); ("exp", exp);
                                         (SD_CLAIMS_KEY, commitments)])))))
    then if String.eqb issuer expected
         then OK (commitments, Some embedded)
         else Err InvalidIssuer
    else Err InvalidJWSSignature.
Proof.
  unfold _verify_sd_jwt.
  rewrite JWS_serialize_compact_parts, JWS_deserialize_compact. cbn [bind].
  unfold JWS_verify, JWS_payload.
  cbn [jws_signing_input jws_signature jws_payload jws_protected jws_valid].
  destruct (check_signature _ _ _ _); [|reflexivity]. cbn [bind jws_valid jws_payload].
  rewrite loads_dumps. cbn [bind getitem py_in].
  destruct (sd_jwt_payload_fields T (JStr issuer) embedded iat exp commitments)
    as (E1 & E2 & _ & _ & E5).
  rewrite E1, E2, E5. cbn [bind py_eq_opt_str].
  destruct (String.eqb issuer expected); reflexivity.
Qed.

(** X2. A token that issuance returned is accepted under a key of the
    issuer's pair with the issuer's name, and gives the commitments of its
    payload and the holder key that was embedded; this holds for every
    [iat] and [exp], which are not examined.  With another expected issuer
    it fails with [InvalidIssuer]; under a key that rejects the issuer's
    signatures it fails with [InvalidJWSSignature], whatever issuer is
    expected. *)
Theorem issued_token_is_checked (J : JsonCodec X) (T : Settings X)
    user_claims issuer issuer_key issuer_public_key holder_key claim_structure iat exp w
    sd_jwt_payload sd_jwt svc_payload svc w' :
  create_sd_jwt_and_svc user_claims issuer issuer_key holder_key claim_structure iat exp w
  = OK ((sd_jwt_payload, sd_jwt, svc_payload, svc), w') ->
  key_pair issuer_key issuer_public_key ->
  (exists commitments,
     getitem sd_jwt_payload SD_CLAIMS_KEY = OK commitments
     /\ _verify_sd_jwt sd_jwt issuer_public_key issuer
        = OK (commitments, Some (export_public holder_key)))
  /\ (forall other, other <> issuer ->
        _verify_sd_jwt sd_jwt issuer_public_key other = Err InvalidIssuer)
  /\ (forall key expected, rejects issuer_key key ->
        _verify_sd_jwt sd_jwt key expected = Err InvalidJWSSignature).
Proof.
  intros Hc Hk.
  apply create_sd_jwt_and_svc_inv in Hc
    as (salts & cms & dms & _ & _ & _ & Hp & Ht & _ & _).
  rewrite (sd_jwt_payload_display T) in Hp. subst sd_jwt_payload sd_jwt.
  split; [|split].
  - exists (JObj cms). split.
    + cbn [getitem].
      match goal with |- context [lookup SD_CLAIMS_KEY [("iss", ?a); ("sub_jwk", ?b);
                                    ("iat", ?c); ("exp", ?d); (SD_CLAIMS_KEY, ?e)]] =>
        destruct (sd_jwt_payload_fields T a b c d e) as (_ & _ & _ & _ & ->) end.
      reflexivity.
    + rewrite (_verify_sd_jwt_outcome J T), Hk. now rewrite String.eqb_refl.
  - intros other Ho. rewrite (_verify_sd_jwt_outcome J T), Hk.
    destruct (String.eqb_spec issuer other) as [E|_]; [congruence | reflexivity].
  - intros key expected Hr. rewrite (_verify_sd_jwt_outcome J T). now rewrite Hr.
Qed.

End Results.

(** ** The token of the holder *)

Section HolderToken.

Context {X : Collaborators}.

Lemma py_eq_str_neq s e : e <> Some s -> py_eq_opt_str (JStr s) e = false.
Proof.
  intros H. destruct e as [s'|]; [|reflexivity]. cbn [py_eq_opt_str].
  destruct (String.eqb_spec s s') as [->|_]; [congruence | reflexivity].
Qed.

Lemma embedded_key_check k embedded :
  embedded_key_is k embedded ->
  match embedded with
  | Some e =>
      if truthy e
      then pubkey <- JWK_from_json (dumps e) ;;
           (if negb (JWK_eqb k pubkey) then Err HolderKeyMismatch else OK tt)
      else OK tt
  | None => OK tt
  end = OK tt.
Proof.
  destruct embedded as [e|]; [|reflexivity]. cbn [embedded_key_is].
  destruct (truthy e); [|reflexivity].
  intros H. destruct (H eq_refl) as (pubkey & -> & Hk). cbn [bind]. now rewrite Hk.
Qed.

(** What the check of the release token makes of a token of the
    signer. *)
Lemma _verify_sd_jwt_release_outcome (J : JsonCodec X) (T : Settings X)
    nonce aud released holder_key key expected_aud expected_nonce embedded protected :
  _verify_sd_jwt_release
    (JWS_serialize_compact
       (dumps (JObj [("nonce", JStr nonce); ("aud", JStr aud); (SD_CLAIMS_KEY, released)]))
       holder_key DEFAULT_SIGNIGN_ALG protected)
    (Some key) expected_aud expected_nonce embedded
  = (_ <- match embedded with
          | Some e =>
              if truthy e
              then pubkey <- JWK_from_json (dumps e) ;;
                   (if negb (JWK_eqb key pubkey) then Err HolderKeyMismatch else OK tt)
              else OK tt
          | None => OK tt
          end ;;
     if check_signature DEFAULT_SIGNIGN_ALG key
          (base64url_encode protected ++
           String dot (base64url_encode
                         (dumps (JObj [("nonce", JStr nonce); ("aud", JStr aud);
                                       (SD_CLAIMS_KEY, released)]))))
          (sign DEFAULT_SIGNIGN_ALG holder_key
             (base64url_encode protected ++
              String dot (base64url_encode
                            (dumps (JObj [("nonce", JStr nonce); ("aud", JStr aud);
                                          (SD_CLAIMS_KEY, released)])))))
     then if negb (py_eq_opt_str (JStr aud) expected_aud) then Err InvalidAudience
          else if negb (py_eq_opt_str (JStr nonce) expected_nonce) then Err InvalidNonce
               else OK released
     else Err InvalidJWSSignature).
Proof.
  unfold _verify_sd_jwt_release.
  rewrite JWS_serialize_compact_parts, JWS_deserialize_compact. cbn [bind].
  match goal with |- bind ?c _ = bind ?c _ => destruct c as [[]|e] end; [|reflexivity].
  cbn [bind]. unfold JWS_verify, JWS_payload.
  cbn [jws_signing_input jws_signature jws_payload jws_protected jws_valid].
  destruct (check_signature _ _ _ _); [|reflexivity]. cbn [bind jws_valid jws_payload].
  rewrite loads_dumps. cbn [bind getitem py_in].
  destruct (release_payload_fields T (JStr nonce) (JStr aud) released) as (E1 & E2 & E3).
  rewrite E1, E2, E3. cbn [bind].
  destruct (negb (py_eq_opt_str (JStr aud) expected_aud)); [reflexivity|].
  destruct (negb (py_eq_opt_str (JStr nonce) expected_nonce)); reflexivity.
Qed.



End HolderToken.

(** ** What verification vouches for *)

Section Soundness.

Context {X : Collaborators}.

Lemma walk_members_pure_inv f structure ms out :
  walk_members (pure_leaf f) structure ms tt = OK (out, tt) ->
  aligned (fun k x r => walk_value (pure_leaf f) k (lookup k structure) x tt = OK (r, tt))
    ms out.
Proof.
  revert out. induction ms as [|[k x] ms IH]; intros out.
  - intros [= <-]. constructor.
  - rewrite walk_members_cons.
    destruct (walk_value (pure_leaf f) k (lookup k structure) x tt) as [[r []]|e] eqn:Ex;
      [|discriminate].
    destruct (walk_members (pure_leaf f) structure ms tt) as [[rs []]|e] eqn:Ers;
      [|discriminate].
    intros [= <-]. constructor; [split; [reflexivity | exact Ex] | now apply IH].
Qed.




End Soundness.


(** ** Commitments and disclosures *)

Lemma base64url_encode_injective a b :
  base64url_encode a = base64url_encode b -> a = b.
Proof.
  intros H. pose proof (base64url_decode_encode a) as Ha.
  rewrite H, base64url_decode_encode in Ha. now injection Ha.
Qed.

Lemma length_enc2 a b : String.length (enc2 a b) = 3.
Proof. destruct a, b; reflexivity. Qed.

Lemma b64_body_length s :
  String.length (b64_body s) = (4 * String.length s + 2) / 3.
Proof.
  induction s as [|a|a b|a b c r IH] using string_ind3.
  - reflexivity.
  - apply length_enc1.
  - apply length_enc2.
  - cbn [b64_body]. rewrite length_append, length_enc3, IH. cbn [String.length].
    replace (4 * S (S (S (String.length r))) + 2)
      with ((4 * String.length r + 2) + 4 * 3) by lia.
    rewrite Nat.div_add by discriminate. lia.
Qed.

Section Commitments.

Context {X : Collaborators}.

(** X6. A commitment is text without padding, dots or any character
    outside the URL-safe alphabet, of length [(4 n + 2) / 3] for a digest
    of [n] bytes (forty-three characters for the thirty-two bytes of
    SHA-256), and it decodes to the digest. *)
Theorem hash_raw_is_unpadded_base64url raw :
  String.length (hash_raw raw) = (4 * String.length (sha256_digest raw) + 2) / 3
  /\ (String.length (sha256_digest raw) = 32 -> String.length (hash_raw raw) = 43)
  /\ all_chars is_b64_char (hash_raw raw) = true
  /\ free_of eq_sign (hash_raw raw) = true
  /\ free_of dot (hash_raw raw) = true
  /\ urlsafe_b64decode (hash_raw raw ++ "==") = OK (sha256_digest raw).
Proof.
  change (hash_raw raw) with (base64url_encode (sha256_digest raw)).
  rewrite base64url_encode_body.
  split; [apply b64_body_length|].
  split; [intros H; now rewrite b64_body_length, H|].
  split; [apply b64_body_alphabet|].
  split; [apply b64_body_plain|]. split; [apply b64_body_plain|].
  rewrite <- base64url_encode_body. apply urlsafe_b64decode_encode.
Qed.

(** X7. Tampering is detected: a disclosed text whose digest is not the
    digest of the text committed to fails the check with
    [CommitmentMismatch]. *)
Theorem tampered_disclosure_is_rejected claim_name raw tampered :
  sha256_digest tampered <> sha256_digest raw ->
  _check_claim claim_name (JStr tampered) (Some (JStr (hash_raw raw)))
  = Err CommitmentMismatch.
Proof.
  intros H. unfold _check_claim, compare_digest. cbn [required bind].
  rewrite !hash_raw_ascii. cbn [andb bind].
  destruct (String.eqb_spec (hash_raw tampered) (hash_raw raw)) as [E|_]; [|reflexivity].
  apply base64url_encode_injective in E. contradiction.
Qed.

(** X8. A commitment binds its salt and value: two commitments that are
    equal have equal digests, and if the digest does not collide on the
    two disclosure texts, the salts are equal and the values are equal. *)
Theorem equal_commitments_bind (J : JsonCodec X) salt value salt' value' :
  hash_claim salt value false = hash_claim salt' value' false ->
  sha256_digest (hash_claim salt value true) = sha256_digest (hash_claim salt' value' true)
  /\ (hash_claim salt value true = hash_claim salt' value' true ->
      salt = salt' /\ value = value').
Proof.
  unfold hash_claim, hash_raw. intros H.
  split; [now apply base64url_encode_injective|].
  intros E. pose proof (loads_dumps (JArr [salt; value])) as L.
  rewrite E, loads_dumps in L. injection L as -> ->. now split.
Qed.

(** X9. For every salt and value, the disclosure entry that issuance makes
    passes the check against the commitment entry made from the same salt
    and value, and the check gives the value back. *)
Theorem disclosure_opens_commitment (J : JsonCodec X) key salt value :
  (disclosure <- _create_svc_entry key value (Some salt) ;;
   commitment <- _create_sd_claim_entry key value (Some salt) ;;
   _check_claim key disclosure (Some commitment)) = OK value.
Proof.
  cbn [_create_svc_entry _create_sd_claim_entry required bind].
  unfold _check_claim, hash_claim, compare_digest. cbn [required bind].
  rewrite !hash_raw_ascii. cbn [andb bind].
  rewrite String.eqb_refl. cbn [negb]. now rewrite loads_dumps.
Qed.

End Commitments.

(** ** A presentation is bound to its issuer, audience, nonce and holder *)

Section Binding.

Context {X : Collaborators}.

(** Two tokens of the signer joined by a dot always have six segments,
    and verification takes them apart into the same two tokens. *)
Lemma verify_two_tokens p1 k1 a1 h1 p2 k2 a2 h2
    issuer_public_key expected_issuer holder_public_key expected_aud expected_nonce :
  verify (JWS_serialize_compact p1 k1 a1 h1 ++ "." ++ JWS_serialize_compact p2 k2 a2 h2)
    issuer_public_key expected_issuer holder_public_key expected_aud expected_nonce
  = if match holder_public_key with
       | Some _ => negb (given expected_aud) || negb (given expected_nonce)
       | None => false
       end
    then Err InvalidArguments
    else
      ' (sd_jwt_claims, holder_public_key_payload) <-
        _verify_sd_jwt (JWS_serialize_compact p1 k1 a1 h1) issuer_public_key expected_issuer ;;
      sd_jwt_release_claims <-
        _verify_sd_jwt_release (JWS_serialize_compact p2 k2 a2 h2) holder_public_key
          expected_aud expected_nonce holder_public_key_payload ;;
      structure <- as_tree sd_jwt_claims ;;
      data <- as_tree sd_jwt_release_claims ;;
      walk_by_structure structure data _check_claim.
Proof.
  unfold verify.
  destruct (match holder_public_key with
            | Some _ => negb (given expected_aud) || negb (given expected_nonce)
            | None => false
            end); [reflexivity|].
  pose proof (JWS_serialize_compact_parts p1 k1 a1 h1) as E1.
  pose proof (JWS_serialize_compact_parts p2 k2 a2 h2) as E2.
  change (JWS_serialize_compact p1 k1 a1 h1 ++ "." ++ JWS_serialize_compact p2 k2 a2 h2)
    with (JWS_serialize_compact p1 k1 a1 h1 ++
          String dot (JWS_serialize_compact p2 k2 a2 h2)).
  rewrite E1, E2.
  match goal with
  | |- context [split_dot (compact ?h1 ?p1 ?s1 ++ String dot (compact ?h2 ?p2 ?s2))] =>
      destruct (split_dot_presentation h1 p1 s1 h2 p2 s2) as (L & F1 & F2)
  end.
  rewrite L, F1, F2. reflexivity.
Qed.

(** X11. A presentation made of an issued token and a release token,
    verified with a holder key of the holder's pair that is the embedded
    key and with a non-empty expected audience and nonce: it fails with
    [InvalidIssuer] when another issuer is expected, with
    [InvalidAudience] when the expected audience is not that of the
    release, with [InvalidNonce] when the audience is right and the
    expected nonce is not that of the release, and with
    [InvalidJWSSignature] under an issuer key that rejects the issuer's
    signatures.  Under a holder key that rejects the holder's signatures
    it fails with [HolderKeyMismatch] or [InvalidJWSSignature]. *)
Theorem presentation_is_bound (J : JsonCodec X) (T : Settings X)
    user_claims issuer issuer_key issuer_public_key holder_key holder_public_key
    claim_structure iat exp w sd_jwt_payload sd_jwt svc_payload svc w'
    nonce aud disclosed_claims serialized_svc sd_jwt_release_payload sd_jwt_release
    expected_aud expected_nonce :
  create_sd_jwt_and_svc user_claims issuer issuer_key holder_key claim_structure iat exp w
  = OK ((sd_jwt_payload, sd_jwt, svc_payload, svc), w') ->
  create_release_jwt nonce aud disclosed_claims serialized_svc holder_key
  = OK (sd_jwt_release_payload, sd_jwt_release) ->
  key_pair issuer_key issuer_public_key ->
  key_pair holder_key holder_public_key ->
  embedded_key_is holder_public_key (Some (export_public holder_key)) ->
  given expected_aud = true ->
  given expected_nonce = true ->
  (forall other, other <> issuer ->
     verify (sd_jwt ++ "." ++ sd_jwt_release) issuer_public_key other
       (Some holder_public_key) expected_aud expected_nonce = Err InvalidIssuer)
  /\ (expected_aud <> Some aud ->
      verify (sd_jwt ++ "." ++ sd_jwt_release) issuer_public_key issuer
        (Some holder_public_key) expected_aud expected_nonce = Err InvalidAudience)
  /\ (expected_aud = Some aud -> expected_nonce <> Some nonce ->
      verify (sd_jwt ++ "." ++ sd_jwt_release) issuer_public_key issuer
        (Some holder_public_key) expected_aud expected_nonce = Err InvalidNonce)
  /\ (forall key expected, rejects issuer_key key ->
      verify (sd_jwt ++ "." ++ sd_jwt_release) key expected
        (Some holder_public_key) expected_aud expected_nonce = Err InvalidJWSSignature)
  /\ (forall key, rejects holder_key key ->
      verify (sd_jwt ++ "." ++ sd_jwt_release) issuer_public_key issuer
        (Some key) expected_aud expected_nonce = Err HolderKeyMismatch
      \/ verify (sd_jwt ++ "." ++ sd_jwt_release) issuer_public_key issuer
           (Some key) expected_aud expected_nonce = Err InvalidJWSSignature).
Proof.
  intros Hi Hr Hik Hhk He Ha Hn.
  apply create_sd_jwt_and_svc_inv in Hi
    as (salts & cms & dms & _ & _ & _ & Hp & Ht & _ & _).
  rewrite (sd_jwt_payload_display T) in Hp. subst sd_jwt_payload sd_jwt.
  apply create_release_jwt_inv in Hr as (released & Hp & Ht).
  rewrite (release_payload_display T) in Hp. subst sd_jwt_release_payload sd_jwt_release.
  pose proof (embedded_key_check holder_public_key _ He) as Echeck.
  cbn beta iota in Echeck.
  assert (Eargs : negb (given expected_aud) || negb (given expected_nonce) = false)
    by now rewrite Ha, Hn.
  split; [|split; [|split; [|split]]].
  - intros other Ho. rewrite verify_two_tokens. cbv beta iota. rewrite Eargs.
    rewrite (_verify_sd_jwt_outcome J T), Hik.
    destruct (String.eqb_spec issuer other) as [E|_]; [congruence | reflexivity].
  - intros Hea. rewrite verify_two_tokens. cbv beta iota. rewrite Eargs.
    rewrite (_verify_sd_jwt_outcome J T), Hik, String.eqb_refl. cbn [bind].
    rewrite (_verify_sd_jwt_release_outcome J T), Echeck. cbn [bind].
    now rewrite Hhk, (py_eq_str_neq aud expected_aud Hea).
  - intros Hea Hen. rewrite verify_two_tokens. cbv beta iota. rewrite Eargs.
    rewrite (_verify_sd_jwt_outcome J T), Hik, String.eqb_refl. cbn [bind].
    rewrite (_verify_sd_jwt_release_outcome J T), Echeck. cbn [bind].
    rewrite Hhk, Hea. cbn [py_eq_opt_str]. rewrite String.eqb_refl. cbn [negb].
    now rewrite (py_eq_str_neq nonce expected_nonce Hen).
  - intros key expected Hrej. rewrite verify_two_tokens. cbv beta iota. rewrite Eargs.
    rewrite (_verify_sd_jwt_outcome J T). now rewrite Hrej.
  - intros key Hrej. rewrite verify_two_tokens. cbv beta iota. rewrite Eargs.
    rewrite (_verify_sd_jwt_outcome J T), Hik, String.eqb_refl. cbn [bind].
    rewrite (_verify_sd_jwt_release_outcome J T).
    cbn [embedded_key_is] in He.
    destruct (truthy (export_public holder_key)).
    + destruct (He eq_refl) as (pubkey & -> & _). cbn [bind].
      destruct (JWK_eqb key pubkey); cbn [negb bind]; [|now left].
      right. now rewrite Hrej.
    + cbn [bind]. right. now rewrite Hrej.
Qed.

End Binding.

(** ** Leaves of a transformed tree *)

Lemma aligned_lookup_rev R a b k y :
  aligned R a b -> lookup k b = Some y ->
  exists x, lookup k a = Some x /\ R k x y.
Proof.
  induction 1 as [|[k1 v1] [k2 v2] a b [Hk HR] _ IH]; simpl; [discriminate|].
  simpl in Hk, HR. subst k2.
  destruct (String.eqb_spec k k1) as [->|_].
  - intros [= ->]. now exists v1.
  - exact IH.
Qed.

Lemma leaf_at_is_leaf path : forall v y, leaf_at path v = Some y -> is_tree y = false.
Proof.
  induction path as [|k p IH]; intros v y.
  - destruct v; intros [= <-]; reflexivity.
  - destruct v as [| | | | |d]; try discriminate. cbn [leaf_at].
    destruct (lookup k d) as [x|]; [apply IH | discriminate].
Qed.

Lemma leaf_at_value_at path : forall v y,
  leaf_at path v = Some y <-> value_at path v = Some y /\ is_tree y = false.
Proof.
  induction path as [|k p IH]; intros v y.
  - cbn [leaf_at value_at]. split.
    + destruct v; intros [= <-]; split; reflexivity.
    + intros [[= <-] Hy]. destruct v; try reflexivity. discriminate Hy.
  - destruct v as [| | | | |d]; cbn [leaf_at value_at];
      try (split; [discriminate | intros [H _]; discriminate H]).
    destruct (lookup k d) as [x|]; [apply IH|].
    split; [discriminate | intros [H _]; discriminate H].
Qed.

Section WalkLeaves.

Context {X : Collaborators}.

Lemma walk_value_tree_inv S (fn : string -> json -> option json -> S -> result (json * S))
    key s ms st out st' :
  walk_value fn key s (JObj ms) st = OK (out, st') ->
  exists d l,
    out = JObj l
    /\ walk_members fn d ms st = OK (l, st')
    /\ forall k q, match lookup k d with Some sv => leaf_at q sv | None => None end
                   = match s with Some sv => leaf_at (k :: q) sv | None => None end.
Proof.
  rewrite walk_value_tree. intros Hw.
  destruct s as [[| | | | |d]|]; try discriminate Hw.
  - exists d. destruct (walk_members fn d ms st) as [[l st1]|e]; [|discriminate Hw].
    injection Hw as <- <-. exists l. repeat split.
  - exists []. destruct (walk_members fn [] ms st) as [[l st1]|e]; [|discriminate Hw].
    injection Hw as <- <-. exists l. repeat split.
Qed.

(** Every leaf of the data was handed to the leaf function together with
    the leaf of the structure at the same path, and what the function
    returned is found at that path of the result. *)
Lemma walk_leaf_at f c : forall key s out,
  walk_value (pure_leaf f) key s c tt = OK (out, tt) ->
  forall path x, leaf_at path c = Some x ->
  exists k y,
    f k x (match s with Some sv => leaf_at path sv | None => None end) = OK y
    /\ value_at path out = Some y.
Proof.
  induction c as [| | | | |ms IH] using json_ind; intros key o out Hw path x Hx.
  1-5: rewrite walk_value_leaf in Hw by reflexivity;
       (destruct path; [|discriminate Hx]); injection Hx as <-;
       (destruct o as [[]|]; try discriminate Hw);
       unfold pure_leaf in Hw;
       match type of Hw with
       | bind ?r _ = _ =>
           destruct r as [y|err] eqn:Ef; [|discriminate Hw];
           cbn [bind] in Hw; injection Hw as <-;
           exists key, y; split; [exact Ef | reflexivity]
       end.
  rewrite Forall_forall in IH.
  destruct path as [|k p]; [discriminate Hx|].
  cbn [leaf_at] in Hx. destruct (lookup k ms) as [x'|] eqn:Ek; [|discriminate Hx].
  apply walk_value_tree_inv in Hw as (d & l & -> & Hm & Hq).
  apply walk_members_pure_inv in Hm.
  destruct (aligned_lookup _ ms l k x' Hm Ek) as (r & Er & Hr).
  destruct (IH (k, x') (lookup_In _ _ _ Ek) k (lookup k d) r Hr p x Hx)
    as (k0 & y & E1 & E2).
  exists k0, y. rewrite <- Hq. split; [exact E1|]. cbn [value_at]. now rewrite Er.
Qed.

(** When the leaf function returns leaves, the result has no leaf where
    the data has none. *)
Lemma walk_paths f c :
  (forall k v s y, f k v s = OK y ->
     match s with Some (JObj _) => True | _ => is_tree y = false end) ->
  forall key s out,
  walk_value (pure_leaf f) key s c tt = OK (out, tt) ->
  forall path y, leaf_at path out = Some y -> exists x, leaf_at path c = Some x.
Proof.
  intros Hf.
  induction c as [| | | | |ms IH] using json_ind; intros key o out Hw path y Hy.
  1-5: rewrite walk_value_leaf in Hw by reflexivity;
       unfold pure_leaf in Hw;
       match type of Hw with
       | context [bind ?c _] =>
           destruct c as [r|err] eqn:Ef;
           [|destruct o as [[]|]; discriminate Hw];
           pose proof (Hf _ _ _ _ Ef) as Hr;
           assert (E : out = r /\ is_tree r = false)
             by (destruct o as [[]|]; try discriminate Hw;
                 cbn [bind] in Hw; injection Hw as <-; now split);
           destruct E as [-> Hleaf];
           destruct path as [|k' p];
           [eexists; reflexivity
           |destruct r; try discriminate Hy; discriminate Hleaf]
       end.
  rewrite Forall_forall in IH.
  apply walk_value_tree_inv in Hw as (d & l & -> & Hm & _).
  destruct path as [|k p]; [discriminate Hy|].
  cbn [leaf_at] in Hy. destruct (lookup k l) as [r|] eqn:Ek; [|discriminate Hy].
  apply walk_members_pure_inv in Hm.
  destruct (aligned_lookup_rev _ ms l k r Hm Ek) as (x' & Ex & Hr).
  destruct (IH (k, x') (lookup_In _ _ _ Ex) k (lookup k d) r Hr p y Hy) as (x & Hx).
  exists x. cbn [leaf_at]. now rewrite Ex.
Qed.

End WalkLeaves.

(** ** What a release reveals *)

Section Release.

Context {X : Collaborators}.

Lemma release_leaf_leaf (k : string) (v : json) (s : option json) (y : json) :
  without_default release_leaf k v s = OK y ->
  match s with Some (JObj _) => True | _ => is_tree y = false end.
Proof.
  destruct s as [sv|]; [|discriminate].
  cbn [without_default release_leaf required bind].
  intros [= <-]. destruct sv; exact I || reflexivity.
Qed.

Lemma released_leaves c key s out :
  walk_value (pure_leaf (without_default release_leaf)) key s c tt = OK (out, tt) ->
  forall path y,
    leaf_at path out = Some y
    <-> (exists x, leaf_at path c = Some x)
        /\ match s with Some sv => leaf_at path sv | None => None end = Some y.
Proof.
  intros Hw path y. split.
  - intros Hy.
    destruct (walk_paths (without_default release_leaf) c release_leaf_leaf key s out Hw path y Hy)
      as (x & Hx).
    split; [now exists x|].
    destruct (walk_leaf_at (without_default release_leaf) c key s out Hw path x Hx)
      as (k & y' & E1 & E2).
    apply leaf_at_value_at in Hy as [Hy _]. rewrite E2 in Hy. injection Hy as ->.
    unfold without_default, release_leaf, required in E1.
    destruct (match s with Some sv => leaf_at path sv | None => None end);
      [cbn [bind] in E1; now injection E1 as -> | discriminate E1].
  - intros [(x & Hx) Hs].
    destruct (walk_leaf_at (without_default release_leaf) c key s out Hw path x Hx)
      as (k & y' & E1 & E2).
    rewrite Hs in E1. cbn [without_default release_leaf required bind] in E1.
    injection E1 as <-. apply leaf_at_value_at. split; [exact E2|].
    destruct s as [sv|]; [|discriminate Hs]. exact (leaf_at_is_leaf _ _ _ Hs).
Qed.

(** X12. A release reveals the chosen disclosures and nothing else.  When
    release returns, the container decodes to a document whose
    selective-disclosure entry is a tree of disclosures; the payload has
    the nonce, the audience and a tree of released values, and no other
    field; the token carries that payload; and the released tree has a
    leaf at a path exactly when the chosen claims have a leaf there and
    the disclosures have one there, which is the leaf released. *)
Theorem release_reveals_exactly_chosen (T : Settings X)
    nonce aud disclosed_claims serialized_svc holder_key
    sd_jwt_release_payload sd_jwt_release :
  create_release_jwt nonce aud disclosed_claims serialized_svc holder_key
  = OK (sd_jwt_release_payload, sd_jwt_release) ->
  exists svc_payload disclosures released t,
    (bytes <- urlsafe_b64decode (serialized_svc ++ "==") ;; loads bytes) = OK svc_payload
    /\ getitem svc_payload SD_CLAIMS_KEY = OK (JObj disclosures)
    /\ sd_jwt_release_payload =
       JObj [("nonce", JStr nonce); ("aud", JStr aud); (SD_CLAIMS_KEY, JObj released)]
    /\ JWS_deserialize sd_jwt_release = OK t
    /\ jws_payload t = dumps sd_jwt_release_payload
    /\ forall path y,
         leaf_at path (JObj released) = Some y
         <-> (exists x, leaf_at path (JObj disclosed_claims) = Some x)
             /\ leaf_at path (JObj disclosures) = Some y.
Proof.
  unfold create_release_jwt.
  destruct (urlsafe_b64decode _) as [bytes|e] eqn:Eb; [|discriminate]. cbn [bind].
  destruct (loads bytes) as [svc|e] eqn:El; [|discriminate]. cbn [bind].
  destruct (getitem svc SD_CLAIMS_KEY) as [raw|e] eqn:Eg; [|discriminate]. cbn [bind].
  destruct raw as [| | | | |tree]; try discriminate. cbn [as_tree bind].
  unfold walk_by_structure, by_structure.
  destruct (walk_members (pure_leaf (without_default release_leaf)) tree disclosed_claims tt)
    as [[released []]|e] eqn:Ew; [|discriminate]. cbn [bind fst].
  rewrite (release_payload_display T). intros [= <- <-].
  rewrite JWS_serialize_compact_parts, JWS_deserialize_compact.
  eexists svc, tree, released, _.
  split; [reflexivity|]. split; [exact Eg|]. split; [reflexivity|].
  split; [reflexivity|]. split; [reflexivity|].
  apply (released_leaves (JObj disclosed_claims) EmptyString (Some (JObj tree))).
  rewrite walk_value_tree, Ew. reflexivity.
Qed.

End Release.

(** ** What issuance commits to *)

Section Commit.

Context {X : Collaborators}.

Lemma generate_salt_shape w :
  String.length (fst (generate_salt w)) = 22
  /\ all_chars is_b64_char (fst (generate_salt w)) = true.
Proof.
  pose proof (random_bytes_facts 16 w) as F. cbv zeta in F.
  unfold generate_salt. destruct (random_bytes 16 w) as [bytes w'].
  cbn [fst snd] in *. destruct F as (L & _).
  change (strip_eq (urlsafe_b64encode bytes)) with (base64url_encode bytes).
  rewrite base64url_encode_body.
  split; [now apply b64_body_length_16 | apply b64_body_alphabet].
Qed.

Lemma generate_salt_state w :
  cursor (random_module (snd (generate_salt w))) = 16 + cursor (random_module w)
  /\ tape (random_module (snd (generate_salt w))) = tape (random_module w)
  /\ os_entropy (snd (generate_salt w)) = os_entropy w.
Proof.
  pose proof (random_bytes_facts 16 w) as F. cbv zeta in F.
  unfold generate_salt. destruct (random_bytes 16 w) as [bytes w'].
  cbn [fst snd] in *. destruct F as (_ & O & Tp & C). now repeat split.
Qed.

Lemma walk_members_lookup S (fn : string -> json -> option json -> S -> result (json * S))
    structure ms : forall st out st',
  walk_members fn structure ms st = OK (out, st') ->
  forall k y, lookup k out = Some y ->
  exists x st1 st2,
    In (k, x) ms /\ walk_value fn k (lookup k structure) x st1 = OK (y, st2).
Proof.
  induction ms as [|[k0 x0] ms IH]; intros st out st'.
  - intros [= <- <-] k y Hk. discriminate Hk.
  - rewrite walk_members_cons.
    destruct (walk_value fn k0 (lookup k0 structure) x0 st) as [[r st1]|e] eqn:Ex;
      [|discriminate].
    destruct (walk_members fn structure ms st1) as [[rs st2]|e] eqn:Ers; [|discriminate].
    intros [= <- <-] k y. cbn [lookup].
    destruct (String.eqb_spec k k0) as [->|_].
    + intros [= <-]. exists x0, st, st1. split; [now left | exact Ex].
    + intros Hk. destruct (IH _ _ _ Ers k y Hk) as (x & s1 & s2 & Hin & Hw).
      exists x, s1, s2. split; [now right | exact Hw].
Qed.

Lemma salt_leaf_eq key v s w :
  salt_leaf key v s w = OK (JStr (fst (generate_salt w)), snd (generate_salt w)).
Proof.
  unfold salt_leaf. generalize (generate_salt w). intros [str w1]. reflexivity.
Qed.

Lemma salt_leaf_inv key v s w sv w' :
  match s with
  | Some (JObj _) => Err StructureMismatch
  | _ => salt_leaf key v s w
  end = OK (sv, w') ->
  exists str,
    sv = JStr str
    /\ (String.length str = 22 /\ all_chars is_b64_char str = true)
    /\ (cursor (random_module w') = 16 + cursor (random_module w)
        /\ tape (random_module w') = tape (random_module w)
        /\ os_entropy w' = os_entropy w).
Proof.
  intros H.
  assert (E : salt_leaf key v s w = OK (sv, w'))
    by (destruct s as [[]|]; solve [exact H | discriminate H]).
  clear H. rewrite salt_leaf_eq in E.
  pose proof (generate_salt_shape w) as H1. pose proof (generate_salt_state w) as H2.
  revert E H1 H2. generalize (generate_salt w). intros [str w1].
  cbn [fst snd]. intros [= <- <-] H1 H2. exists str. now split.
Qed.

(** Every leaf of the tree of salts is a salt. *)
Lemma salt_leaves v : forall key s w sv w',
  walk_value salt_leaf key s v w = OK (sv, w') ->
  forall path y, leaf_at path sv = Some y ->
  exists str, y = JStr str /\ String.length str = 22
              /\ all_chars is_b64_char str = true.
Proof.
  induction v as [| | | | |ms IH] using json_ind; intros key o w sv w' Hw path y Hy.
  1-5: rewrite walk_value_leaf in Hw by reflexivity;
       apply salt_leaf_inv in Hw as (str & -> & Hshape & _);
       (destruct path; [|discriminate Hy]); injection Hy as <-;
       exists str; split; [reflexivity | exact Hshape].
  rewrite Forall_forall in IH.
  apply walk_value_tree_inv in Hw as (d & l & -> & Hm & _).
  destruct path as [|k p]; [discriminate Hy|].
  cbn [leaf_at] in Hy. destruct (lookup k l) as [r|] eqn:Ek; [|discriminate Hy].
  destruct (walk_members_lookup _ _ _ _ _ _ _ Hm k r Ek) as (x & w1 & w2 & Hin & Hx).
  exact (IH (k, x) Hin k (lookup k d) w1 r w2 Hx p y Hy).
Qed.

(** The walk that draws the salts draws sixteen values of the generator
    of module [random] for each leaf and leaves the entropy of the
    operating system alone. *)
Lemma salts_draws v : forall key s w sv w',
  walk_value salt_leaf key s v w = OK (sv, w') ->
  cursor (random_module w') = 16 * leaves v + cursor (random_module w)
  /\ tape (random_module w') = tape (random_module w)
  /\ os_entropy w' = os_entropy w.
Proof.
  induction v as [| | | | |ms IH] using json_ind; intros key o w sv w' Hw.
  1-5: rewrite walk_value_leaf in Hw by reflexivity;
       apply salt_leaf_inv in Hw as (str & _ & _ & Hstate);
       exact Hstate.
  apply walk_value_tree_inv in Hw as (d & l & _ & Hm & _).
  cbn [leaves]. clear key o sv. revert w l w' Hm.
  induction ms as [|[k x] ms IHms]; intros w l w'.
  - intros [= <- <-]. repeat split.
  - rewrite walk_members_cons.
    destruct (walk_value salt_leaf k (lookup k d) x w) as [[r w1]|e] eqn:Ex; [|discriminate].
    destruct (walk_members salt_leaf d ms w1) as [[rs w2]|e] eqn:Ers; [|discriminate].
    intros [= <- <-].
    apply Forall_cons_iff in IH as [Hx Hrest]. cbn [snd] in Hx.
    destruct (Hx k (lookup k d) w r w1 Ex) as (C1 & T1 & O1).
    destruct (IHms Hrest w1 rs w2 Ers) as (C2 & T2 & O2).
    split; [lia|]. split; congruence.
Qed.

Lemma commitment_is_leaf (k : string) (v : json) (s : option json) (y : json) :
  _create_sd_claim_entry k v s = OK y ->
  match s with Some (JObj _) => True | _ => is_tree y = false end.
Proof.
  destruct s as [sv|]; [|discriminate]. cbn [_create_sd_claim_entry required bind].
  intros [= <-]. destruct sv; exact I || reflexivity.
Qed.

Lemma disclosure_is_leaf (k : string) (v : json) (s : option json) (y : json) :
  _create_svc_entry k v s = OK y ->
  match s with Some (JObj _) => True | _ => is_tree y = false end.
Proof.
  destruct s as [sv|]; [|discriminate]. cbn [_create_svc_entry required bind].
  intros [= <-]. destruct sv; exact I || reflexivity.
Qed.

(** X13. Issuance commits to every claim and to nothing else.  When
    issuance returns, the payload of the token has a tree of commitments
    and the payload of the container a tree of disclosures; for every leaf
    of the claims there is a salt of twenty-two characters of the URL-safe
    alphabet such that the disclosure at the path of the leaf is the text
    of the pair of the salt and the value, and the commitment at that path
    is the hash of that text; and the two trees have no leaf where the
    claims have none. *)
Theorem issuance_commits_every_claim (T : Settings X)
    user_claims issuer issuer_key holder_key claim_structure iat exp w
    sd_jwt_payload sd_jwt svc_payload svc w' :
  create_sd_jwt_and_svc user_claims issuer issuer_key holder_key claim_structure iat exp w
  = OK ((sd_jwt_payload, sd_jwt, svc_payload, svc), w') ->
  exists commitments disclosures,
    getitem sd_jwt_payload SD_CLAIMS_KEY = OK (JObj commitments)
    /\ getitem svc_payload SD_CLAIMS_KEY = OK (JObj disclosures)
    /\ (forall path value, leaf_at path (JObj user_claims) = Some value ->
        exists salt,
          String.length salt = 22
          /\ all_chars is_b64_char salt = true
          /\ leaf_at path (JObj disclosures)
             = Some (JStr (dumps (JArr [JStr salt; value])))
          /\ leaf_at path (JObj commitments)
             = Some (JStr (hash_raw (dumps (JArr [JStr salt; value])))))
    /\ (forall path y,
          leaf_at path (JObj commitments) = Some y
          \/ leaf_at path (JObj disclosures) = Some y ->
          exists value, leaf_at path (JObj user_claims) = Some value).
Proof.
  intros Hi.
  apply create_sd_jwt_and_svc_inv in Hi
    as (salts & cms & dms & Hs & Hc & Hd & Hp & _ & Hv & _).
  rewrite (sd_jwt_payload_display T) in Hp. subst sd_jwt_payload svc_payload.
  unfold by_structure in Hs. unfold walk_by_structure, by_structure in Hc, Hd.
  destruct (walk_members (pure_leaf _create_sd_claim_entry) salts user_claims tt)
    as [[cms' []]|e] eqn:Ec; [|discriminate Hc].
  destruct (walk_members (pure_leaf _create_svc_entry) salts user_claims tt)
    as [[dms' []]|e] eqn:Ed; [|discriminate Hd].
  cbn [bind fst] in Hc, Hd. injection Hc as ->. injection Hd as ->.
  assert (Wc : walk_value (pure_leaf _create_sd_claim_entry) EmptyString
                 (Some (JObj salts)) (JObj user_claims) tt = OK (JObj cms, tt))
    by (rewrite walk_value_tree, Ec; reflexivity).
  assert (Wd : walk_value (pure_leaf _create_svc_entry) EmptyString
                 (Some (JObj salts)) (JObj user_claims) tt = OK (JObj dms, tt))
    by (rewrite walk_value_tree, Ed; reflexivity).
  assert (Ws : walk_value salt_leaf EmptyString (Some (JObj claim_structure))
                 (JObj user_claims) w = OK (JObj salts, w'))
    by (rewrite walk_value_tree, Hs; reflexivity).
  exists cms, dms. split; [|split; [|split]].
  - cbn [getitem].
    match goal with |- context [lookup SD_CLAIMS_KEY [("iss", ?a); ("sub_jwk", ?b);
                                  ("iat", ?c); ("exp", ?d); (SD_CLAIMS_KEY, ?e)]] =>
      destruct (sd_jwt_payload_fields T a b c d e) as (_ & _ & _ & _ & ->) end.
    reflexivity.
  - cbn [getitem mkdict fold_left dict_set lookup]. now rewrite String.eqb_refl.
  - intros path value Hx.
    destruct (walk_leaf_at _ _ _ _ _ Wc path value Hx) as (k1 & y1 & F1 & V1).
    destruct (walk_leaf_at _ _ _ _ _ Wd path value Hx) as (k2 & y2 & F2 & V2).
    destruct (leaf_at path (JObj salts)) as [salt|] eqn:Es; [|discriminate F1].
    destruct (salt_leaves _ _ _ _ _ _ Ws path salt Es) as (str & -> & Hlen & Hch).
    cbn [_create_sd_claim_entry _create_svc_entry required bind] in F1, F2.
    injection F1 as <-. injection F2 as <-.
    exists str. split; [exact Hlen|]. split; [exact Hch|].
    split; apply leaf_at_value_at; (split; [assumption | reflexivity]).
  - intros path y [Hy|Hy].
    + exact (walk_paths _ _ commitment_is_leaf _ _ _ Wc path y Hy).
    + exact (walk_paths _ _ disclosure_is_leaf _ _ _ Wd path y Hy).
Qed.

(** X14. Issuance draws one salt for each leaf of the claims: when it
    returns, the generator of module [random] has produced sixteen values
    for each leaf, in order and with nothing skipped, and the entropy of
    the operating system is as it was. *)
Theorem issuance_draws_one_salt_per_claim
    user_claims issuer issuer_key holder_key claim_structure iat exp w result w' :
  create_sd_jwt_and_svc user_claims issuer issuer_key holder_key claim_structure iat exp w
  = OK (result, w') ->
  cursor (random_module w') = 16 * leaves (JObj user_claims) + cursor (random_module w)
  /\ tape (random_module w') = tape (random_module w)
  /\ os_entropy w' = os_entropy w.
Proof.
  destruct result as [[[sd_jwt_payload sd_jwt] svc_payload] svc]. intros Hi.
  apply create_sd_jwt_and_svc_inv in Hi as (salts & cms & dms & Hs & _).
  apply (salts_draws (JObj user_claims) EmptyString (Some (JObj claim_structure)) w
           (JObj salts) w').
  rewrite walk_value_tree. unfold by_structure in Hs. now rewrite Hs.
Qed.

(** X10. The disclosure container survives its encoding: whatever the
    length of its JSON text, the container that issuance returns, with the
    padding stripped, decodes after two padding characters are appended
    and parses to the container payload that issuance returned. *)
Theorem container_round_trip (J : JsonCodec X)
    user_claims issuer issuer_key holder_key claim_structure iat exp w
    sd_jwt_payload sd_jwt svc_payload svc w' :
  create_sd_jwt_and_svc user_claims issuer issuer_key holder_key claim_structure iat exp w
  = OK ((sd_jwt_payload, sd_jwt, svc_payload, svc), w') ->
  (bytes <- urlsafe_b64decode (svc ++ "==") ;; loads bytes) = OK svc_payload.
Proof.
  intros Hi.
  apply create_sd_jwt_and_svc_inv in Hi as (salts & cms & dms & _ & _ & _ & _ & _ & _ & ->).
  rewrite urlsafe_b64decode_encode. cbn [bind].
  apply loads_dumps_indent.
Qed.

End Commit.

(** ** The placeholders of a choice *)

Section Placeholders.

Context {X : Collaborators}.

Lemma release_walk_same_shape a : forall a' key o,
  same_shape a a' = true ->
  walk_value (pure_leaf (without_default release_leaf)) key o a tt
  = walk_value (pure_leaf (without_default release_leaf)) key o a' tt.
Proof.
  induction a as [| | | | |ma IH] using json_ind; intros a' key o Hs.
  1-5: destruct a'; try discriminate Hs;
       rewrite !walk_value_leaf by reflexivity; reflexivity.
  destruct a' as [| | | | |mb]; try discriminate Hs.
  rewrite !walk_value_tree.
  assert (E : forall d, walk_members (pure_leaf (without_default release_leaf)) d ma tt
                        = walk_members (pure_leaf (without_default release_leaf)) d mb tt).
  { intros d. cbn [same_shape] in Hs. revert mb Hs.
    induction ma as [|[k x] ma IHma]; intros [|[k' y] mb] Hs; try discriminate Hs;
      [reflexivity|].
    apply andb_true_iff in Hs as [Hs Hrest]. apply andb_true_iff in Hs as [Hk Hxy].
    apply String.eqb_eq in Hk. subst k'.
    apply Forall_cons_iff in IH as [Hx Hma]. cbn [snd] in Hx.
    rewrite !walk_members_cons, (Hx y k (lookup k d) Hxy).
    destruct (walk_value (pure_leaf (without_default release_leaf)) k (lookup k d) y tt)
      as [[r []]|e];
      [|reflexivity].
    now rewrite (IHma Hma mb Hrest). }
  destruct o as [[| | | | |d]|]; try reflexivity; now rewrite E.
Qed.

(** X15. Release looks at the keys of the chosen claims only: two
    choices with the same keys in the same order and the same nesting,
    whatever values stand at their leaves, give the same release payload
    and the same release token, or fail alike. *)
Theorem release_ignores_placeholders
    nonce aud disclosed_claims disclosed_claims' serialized_svc holder_key :
  same_shape (JObj disclosed_claims) (JObj disclosed_claims') = true ->
  create_release_jwt nonce aud disclosed_claims serialized_svc holder_key
  = create_release_jwt nonce aud disclosed_claims' serialized_svc holder_key.
Proof.
  intros Hs. unfold create_release_jwt.
  destruct (urlsafe_b64decode _) as [bytes|e]; [|reflexivity]. cbn [bind].
  destruct (loads bytes) as [svc|e]; [|reflexivity]. cbn [bind].
  destruct (getitem svc SD_CLAIMS_KEY) as [raw|e]; [|reflexivity]. cbn [bind].
  destruct (as_tree raw) as [tree|e]; [|reflexivity]. cbn [bind].
  pose proof (release_walk_same_shape _ _ EmptyString (Some (JObj tree)) Hs) as E.
  rewrite !walk_value_tree in E.
  unfold walk_by_structure, by_structure.
  destruct (walk_members (pure_leaf (without_default release_leaf)) tree disclosed_claims tt)
    as [[r1 []]|e1];
    destruct (walk_members (pure_leaf (without_default release_leaf)) tree disclosed_claims' tt)
      as [[r2 []]|e2]; try discriminate E; injection E as E; subst; reflexivity.
Qed.

End Placeholders.

(** ** The errors of the arguments and of the format *)

Lemma length_split_dot s : List.length (split_dot s) = S (count_dots s).
Proof.
  induction s as [|c s IH]; [reflexivity|].
  cbn [split_dot count_dots]. destruct (Ascii.eqb c dot).
  - cbn [List.length]. now rewrite IH.
  - destruct (split_dot s) as [|p ps]; [discriminate IH|]. exact IH.
Qed.

Section Errors.

Context {X : Collaborators}.

Ltac listed := repeat first [left; reflexivity | right].

Lemma _verify_sd_jwt_errors sd_jwt issuer_public_key expected_issuer e :
  _verify_sd_jwt sd_jwt issuer_public_key expected_issuer = Err e ->
  In e sd_jwt_errors.
Proof.
  unfold _verify_sd_jwt, JWS_verify, JWS_payload, sd_jwt_errors.
  destruct (JWS_deserialize sd_jwt) as [t|e0] eqn:Ed.
  2:{ cbn [bind]. intros [= <-]. apply JWS_deserialize_error in Ed as ->. listed. }
  cbn [bind].
  destruct (check_signature _ _ _ _); cbn [bind jws_valid jws_payload];
    [|intros [= <-]; listed].
  destruct (loads (jws_payload t)) as [p|e0] eqn:El.
  2:{ cbn [bind]. intros [= <-]. unfold loads in El.
      destruct (json_decode (jws_payload t)); [discriminate El|].
      injection El as <-. listed. }
  cbn [bind].
  destruct (getitem p "iss") as [iss|e0] eqn:Ei.
  2:{ cbn [bind]. intros [= <-]. apply getitem_error in Ei as [->| ->]; listed. }
  cbn [bind]. apply getitem_inv in Ei as (d & -> & Ei).
  destruct (negb (py_eq_opt_str iss (Some expected_issuer)));
    [intros [= <-]; listed|].
  cbn [py_in bind getitem].
  destruct (lookup SD_CLAIMS_KEY d); cbn [negb bind];
    [|intros [= <-]; listed].
  destruct (lookup "sub_jwk" d); cbn [bind]; discriminate.
Qed.

Lemma _verify_sd_jwt_release_errors
    sd_jwt_release holder_public_key expected_aud expected_nonce embedded e :
  _verify_sd_jwt_release sd_jwt_release holder_public_key expected_aud expected_nonce
    embedded = Err e ->
  In e release_errors.
Proof.
  unfold _verify_sd_jwt_release, JWS_verify, JWS_payload, release_errors.
  destruct (JWS_deserialize sd_jwt_release) as [t|e0] eqn:Ed.
  2:{ cbn [bind]. intros [= <-]. apply JWS_deserialize_error in Ed as ->. listed. }
  cbn [bind].
  match goal with |- bind ?c _ = _ -> _ => destruct c as [[]|e0] eqn:Ek end.
  2:{ cbn [bind]. intros [= <-].
      destruct holder_public_key as [key|]; [|discriminate Ek].
      destruct embedded as [em|]; [|discriminate Ek].
      destruct (truthy em); [|discriminate Ek].
      unfold JWK_from_json in Ek.
      destruct (JWK_import (dumps em)) as [pubkey|];
        [|injection Ek as <-; listed].
      cbn [bind] in Ek. destruct (negb (JWK_eqb key pubkey)); [|discriminate Ek].
      injection Ek as <-. listed. }
  cbn [bind].
  match goal with |- bind ?c _ = _ -> _ => destruct c as [verified|e0] eqn:Es end.
  2:{ cbn [bind]. intros [= <-].
      destruct holder_public_key as [key|]; [|discriminate Es].
      destruct (check_signature _ _ _ _); [discriminate Es|].
      injection Es as <-. listed. }
  cbn [bind].
  destruct (jws_valid verified); cbn [bind]; [|intros [= <-]; listed].
  destruct (loads (jws_payload verified)) as [p|e0] eqn:El.
  2:{ cbn [bind]. intros [= <-]. unfold loads in El.
      destruct (json_decode (jws_payload verified)); [discriminate El|].
      injection El as <-. listed. }
  cbn [bind].
  match goal with |- bind ?c _ = _ -> _ => destruct c as [[]|e0] eqn:Eb end.
  2:{ cbn [bind]. intros [= <-].
      destruct holder_public_key as [key|]; [|discriminate Eb].
      destruct (getitem p "aud") as [a|e1] eqn:Ea.
      2:{ cbn [bind] in Eb. injection Eb as <-.
          apply getitem_error in Ea as [->| ->]; listed. }
      cbn [bind] in Eb.
      destruct (negb (py_eq_opt_str a expected_aud));
        [injection Eb as <-; listed|].
      destruct (getitem p "nonce") as [n|e1] eqn:En.
      2:{ cbn [bind] in Eb. injection Eb as <-.
          apply getitem_error in En as [->| ->]; listed. }
      cbn [bind] in Eb.
      destruct (negb (py_eq_opt_str n expected_nonce)); [|discriminate Eb].
      injection Eb as <-. listed. }
  cbn [bind].
  destruct (py_in SD_CLAIMS_KEY p) as [present|e0] eqn:Ep.
  2:{ cbn [bind]. intros [= <-]. apply py_in_error in Ep as ->. listed. }
  cbn [bind]. destruct present; cbn [negb].
  - intros Hg. destruct p as [| | |str|l|d]; try discriminate Ep;
      try (injection Hg as <-; listed).
    cbn [py_in] in Ep. cbn [getitem] in Hg.
    destruct (lookup SD_CLAIMS_KEY d); discriminate.
  - intros [= <-]. listed.
Qed.

Lemma _check_claim_errors claim_name released_value expected e :
  _check_claim claim_name released_value expected = Err e -> In e check_errors.
Proof.
  unfold _check_claim, check_errors.
  destruct expected as [c|]; cbn [required bind]; [|intros [= <-]; listed].
  destruct released_value as [| | |raw| |]; try (intros [= <-]; listed).
  destruct c as [| | |commitment| |]; try (intros [= <-]; listed).
  unfold compare_digest.
  destruct (is_ascii (hash_raw raw) && is_ascii commitment); cbn [bind];
    [|intros [= <-]; listed].
  destruct (negb (String.eqb (hash_raw raw) commitment));
    [intros [= <-]; listed|].
  unfold loads. destruct (json_decode raw) as [v|]; cbn [bind];
    [|intros [= <-]; listed].
  destruct v as [| | | |[|salt [|value [|y l]]]|]; try discriminate;
    intros [= <-]; listed.
Qed.

Lemma check_walk_errors c : forall key s e,
  walk_value (pure_leaf _check_claim) key s c tt = Err e -> In e check_errors.
Proof.
  induction c as [| | | | |ms IH] using json_ind; intros key o e Hw.
  1-5: rewrite walk_value_leaf in Hw by reflexivity;
       (destruct o as [[| | | | |d]|];
        try (injection Hw as <-; now left));
       unfold pure_leaf in Hw;
       match type of Hw with
       | bind ?r _ = _ =>
           destruct r as [y|err] eqn:Ec; [discriminate Hw|];
           cbn [bind] in Hw; injection Hw as <-;
           exact (_check_claim_errors _ _ _ _ Ec)
       end.
  rewrite walk_value_tree in Hw.
  assert (Hm : forall d, walk_members (pure_leaf _check_claim) d ms tt = Err e ->
                         In e check_errors).
  { intros d. clear Hw. induction ms as [|[k x] ms IHms]; [discriminate|].
    apply Forall_cons_iff in IH as [Hx Hrest]. cbn [snd] in Hx.
    rewrite walk_members_cons.
    destruct (walk_value (pure_leaf _check_claim) k (lookup k d) x tt) as [[r []]|e1] eqn:Ex.
    - destruct (walk_members (pure_leaf _check_claim) d ms tt) as [[rs []]|e2] eqn:Ers;
        [discriminate|].
      intros [= <-]. now apply IHms.
    - intros [= <-]. exact (Hx _ _ _ Ex). }
  destruct o as [[| | | | |d]|]; try (injection Hw as <-; now left).
  - apply (Hm d).
    destruct (walk_members (pure_leaf _check_claim) d ms tt) as [[l []]|e1];
      [discriminate Hw | now injection Hw as ->].
  - apply (Hm []).
    destruct (walk_members (pure_leaf _check_claim) [] ms tt) as [[l []]|e1];
      [discriminate Hw | now injection Hw as ->].
Qed.

(** Past the check of the arguments and of the number of segments,
    verification fails with an error of one of its three stages. *)
Lemma verify_stage_errors
    combined_presentation issuer_public_key expected_issuer holder_public_key
    expected_aud expected_nonce e :
  match holder_public_key with
  | Some _ => negb (given expected_aud) || negb (given expected_nonce)
  | None => false
  end = false ->
  List.length (split_dot combined_presentation) = 6 ->
  verify combined_presentation issuer_public_key expected_issuer holder_public_key
    expected_aud expected_nonce = Err e ->
  In e (sd_jwt_errors ++ release_errors ++ check_errors).
Proof.
  intros Ha Hl. unfold verify. rewrite Ha, Hl. cbn [Nat.eqb negb].
  destruct (_verify_sd_jwt _ issuer_public_key expected_issuer)
    as [[claims embedded]|e1] eqn:Esd.
  2:{ cbn [bind]. intros [= <-]. apply in_or_app. left.
      exact (_verify_sd_jwt_errors _ _ _ _ Esd). }
  cbn [bind].
  destruct (_verify_sd_jwt_release _ holder_public_key expected_aud expected_nonce embedded)
    as [rel|e1] eqn:Erel.
  2:{ cbn [bind]. intros [= <-]. apply in_or_app. right. apply in_or_app. left.
      exact (_verify_sd_jwt_release_errors _ _ _ _ _ _ Erel). }
  cbn [bind]. intros Hw. apply in_or_app. right. apply in_or_app. right.
  destruct claims as [| | | | |cm];
    try (injection Hw as <-; right; now left).
  destruct rel as [| | | | |rt];
    try (injection Hw as <-; right; now left).
  cbn [as_tree bind] in Hw. unfold walk_by_structure, by_structure in Hw.
  apply (check_walk_errors (JObj rt) EmptyString (Some (JObj cm))).
  rewrite walk_value_tree.
  destruct (walk_members (pure_leaf _check_claim) cm rt tt) as [[res []]|e1];
    [discriminate Hw|]. cbn [bind] in Hw. now injection Hw as ->.
Qed.

Lemma stage_errors_apart e :
  In e (sd_jwt_errors ++ release_errors ++ check_errors) ->
  e <> InvalidArguments /\ e <> MalformedPresentation.
Proof.
  intros H. cbn [sd_jwt_errors release_errors check_errors app In] in H.
  repeat (destruct H as [<-|H]; [split; discriminate|]). destruct H.
Qed.

(** X16. The two errors of the call itself have exactly their causes:
    verification fails with [InvalidArguments] exactly when a holder key
    is supplied and the expected audience or nonce is missing or empty,
    and with [MalformedPresentation] exactly when the arguments pass and
    the presentation does not have five dots.  Neither is raised by the
    check of a token or of a disclosure. *)
Theorem argument_and_format_errors
    combined_presentation issuer_public_key expected_issuer holder_public_key
    expected_aud expected_nonce :
  (verify combined_presentation issuer_public_key expected_issuer holder_public_key
     expected_aud expected_nonce = Err InvalidArguments
   <-> match holder_public_key with
       | Some _ => negb (given expected_aud) || negb (given expected_nonce)
       | None => false
       end = true)
  /\ (verify combined_presentation issuer_public_key expected_issuer holder_public_key
        expected_aud expected_nonce = Err MalformedPresentation
      <-> match holder_public_key with
          | Some _ => negb (given expected_aud) || negb (given expected_nonce)
          | None => false
          end = false
          /\ count_dots combined_presentation <> 5).
Proof.
  pose proof (length_split_dot combined_presentation) as L.
  pose proof (verify_stage_errors combined_presentation issuer_public_key expected_issuer
                holder_public_key expected_aud expected_nonce) as Hstage.
  destruct (match holder_public_key with
            | Some _ => negb (given expected_aud) || negb (given expected_nonce)
            | None => false
            end) eqn:Ea.
  - assert (E : verify combined_presentation issuer_public_key expected_issuer
                  holder_public_key expected_aud expected_nonce = Err InvalidArguments)
      by (unfold verify; now rewrite Ea).
    rewrite E. split; [tauto|]. split; [discriminate | intros [H _]; discriminate H].
  - destruct (Nat.eq_dec (count_dots combined_presentation) 5) as [Hd|Hd].
    + rewrite Hd in L. split.
      * split; [|discriminate]. intros H.
        destruct (stage_errors_apart _ (Hstage _ eq_refl L H)) as [N _]. now elim N.
      * split; [|tauto]. intros H.
        destruct (stage_errors_apart _ (Hstage _ eq_refl L H)) as [_ N]. now elim N.
    + assert (E : verify combined_presentation issuer_public_key expected_issuer
                    holder_public_key expected_aud expected_nonce
                  = Err MalformedPresentation).
      { unfold verify. rewrite Ea, L.
        destruct (Nat.eqb_spec (S (count_dots combined_presentation)) 6) as [E6|_];
          [|reflexivity]. exfalso. apply Hd. now injection E6. }
      rewrite E. split; [split; discriminate|]. split; [now split | reflexivity].
Qed.

End Errors.

(** ** The properties above on the concrete collaborators *)

Lemma stranger_key_rejects a k b k' :
  Ascii.eqb a b = false ->
  rejects (X := Demo.collaborators) (String a k) (String b k').
Proof.
  intros H alg msg. cbn [check_signature sign Demo.collaborators].
  unfold Demo.make_signature.
  induction alg as [|c alg IH].
  - cbn [append String.eqb]. now rewrite Ascii.eqb_refl, H.
  - cbn [append String.eqb]. now rewrite Ascii.eqb_refl.
Qed.

Lemma holder_key_is_embedded :
  embedded_key_is (X := Demo.collaborators) "holder" (Some (Demo.key_export "holder")).
Proof. intros _. exists "holder". split; reflexivity. Qed.

(** The token of the second run, whose expiry lies in the past of the
    clock, is accepted. *)
Lemma issued_token_is_checked_witness :
  (create_sd_jwt_and_svc (X := Demo.collaborators) Demo.claims0 "iss" "issuer" "holder" []
     (Some 5%Z) (Some 6%Z) Demo.world0
   = OK ((Demo.sd_jwt_payload1, Demo.sd_jwt1, Demo.svc_payload0, Demo.svc0), Demo.world1)
   /\ key_pair (X := Demo.collaborators) "issuer" "issuer")
  /\ _verify_sd_jwt (X := Demo.collaborators) Demo.sd_jwt1 "issuer" "iss"
     = OK (Demo.commitments0, Some (Demo.key_export "holder"))
  /\ _verify_sd_jwt (X := Demo.collaborators) Demo.sd_jwt1 "issuer" "someone else"
     = Err InvalidIssuer
  /\ _verify_sd_jwt (X := Demo.collaborators) Demo.sd_jwt1 "mallory" "iss"
     = Err InvalidJWSSignature.
Proof.
  assert (H1 : create_sd_jwt_and_svc (X := Demo.collaborators) Demo.claims0 "iss" "issuer"
                 "holder" [] (Some 5%Z) (Some 6%Z) Demo.world0
               = OK ((Demo.sd_jwt_payload1, Demo.sd_jwt1, Demo.svc_payload0, Demo.svc0),
                     Demo.world1)) by (vm_compute; reflexivity).
  assert (H2 : key_pair (X := Demo.collaborators) "issuer" "issuer")
    by apply DemoFacts.own_key_pair.
  split; [exact (conj H1 H2)|].
  destruct (issued_token_is_checked (X := Demo.collaborators)
              DemoFacts.json_codec DemoFacts.settings
              Demo.claims0 "iss" "issuer" "issuer" "holder" [] (Some 5%Z) (Some 6%Z)
              Demo.world0 Demo.sd_jwt_payload1 Demo.sd_jwt1 Demo.svc_payload0 Demo.svc0
              Demo.world1 H1 H2) as ((c & Hc & Hv) & Hi & Hs).
  split; [|split].
  - rewrite Hv. vm_compute in Hc. now injection Hc as <-.
  - apply Hi. discriminate.
  - apply Hs. now apply stranger_key_rejects.
Defined.



Lemma hash_raw_is_unpadded_base64url_witness :
  String.length (hash_raw (X := Demo.collaborators) "abc") = 6
  /\ urlsafe_b64decode (hash_raw (X := Demo.collaborators) "abc" ++ "==")
     = OK (Demo.checksum "abc").
Proof.
  destruct (hash_raw_is_unpadded_base64url (X := Demo.collaborators) "abc")
    as (L & _ & _ & _ & _ & D).
  split; [exact L | exact D].
Defined.

Lemma tampered_disclosure_is_rejected_witness :
  sha256_digest (Collaborators := Demo.collaborators) "tampered"
  <> sha256_digest (Collaborators := Demo.collaborators) "raw"
  /\ _check_claim (X := Demo.collaborators) "city" (JStr "tampered")
       (Some (JStr (hash_raw (X := Demo.collaborators) "raw")))
     = Err CommitmentMismatch.
Proof.
  assert (H : sha256_digest (Collaborators := Demo.collaborators) "tampered"
              <> sha256_digest (Collaborators := Demo.collaborators) "raw")
    by (vm_compute; discriminate).
  split; [exact H|].
  exact (tampered_disclosure_is_rejected (X := Demo.collaborators) "city" "raw" "tampered" H).
Defined.

Lemma equal_commitments_bind_witness :
  hash_claim (X := Demo.collaborators) (JStr "salt") (JNum 1) false
  = hash_claim (X := Demo.collaborators) (JStr "salt") (JNum 1) false
  /\ sha256_digest (Collaborators := Demo.collaborators)
       (hash_claim (X := Demo.collaborators) (JStr "salt") (JNum 1) true)
     = sha256_digest (Collaborators := Demo.collaborators)
         (hash_claim (X := Demo.collaborators) (JStr "salt") (JNum 1) true).
Proof.
  assert (H : hash_claim (X := Demo.collaborators) (JStr "salt") (JNum 1) false
              = hash_claim (X := Demo.collaborators) (JStr "salt") (JNum 1) false)
    by reflexivity.
  split; [exact H|].
  exact (proj1 (equal_commitments_bind (X := Demo.collaborators) DemoFacts.json_codec
                  (JStr "salt") (JNum 1) (JStr "salt") (JNum 1) H)).
Defined.

Lemma disclosure_opens_commitment_witness :
  (disclosure <- _create_svc_entry (X := Demo.collaborators) "zip" (JNum 42)
                   (Some (JStr "salt")) ;;
   commitment <- _create_sd_claim_entry (X := Demo.collaborators) "zip" (JNum 42)
                   (Some (JStr "salt")) ;;
   _check_claim (X := Demo.collaborators) "zip" disclosure (Some commitment))
  = OK (JNum 42).
Proof.
  exact (disclosure_opens_commitment (X := Demo.collaborators) DemoFacts.json_codec
           "zip" (JStr "salt") (JNum 42)).
Defined.

Lemma container_round_trip_witness :
  create_sd_jwt_and_svc (X := Demo.collaborators) Demo.claims0 "iss" "issuer" "holder" []
    None None Demo.world0
  = OK ((Demo.sd_jwt_payload0, Demo.sd_jwt0, Demo.svc_payload0, Demo.svc0), Demo.world1)
  /\ (bytes <- urlsafe_b64decode (Demo.svc0 ++ "==") ;;
      loads (X := Demo.collaborators) bytes) = OK Demo.svc_payload0.
Proof.
  assert (H : create_sd_jwt_and_svc (X := Demo.collaborators) Demo.claims0 "iss" "issuer"
                "holder" [] None None Demo.world0
              = OK ((Demo.sd_jwt_payload0, Demo.sd_jwt0, Demo.svc_payload0, Demo.svc0),
                    Demo.world1)) by (vm_compute; reflexivity).
  split; [exact H|].
  exact (container_round_trip (X := Demo.collaborators) DemoFacts.json_codec
           Demo.claims0 "iss" "issuer" "holder" [] None None Demo.world0
           Demo.sd_jwt_payload0 Demo.sd_jwt0 Demo.svc_payload0 Demo.svc0 Demo.world1 H).
Defined.

(** The presentation of the city, replayed with another nonce, to another
    verifier, under another issuer's name, or checked with other keys. *)
Lemma presentation_is_bound_witness :
  (create_sd_jwt_and_svc (X := Demo.collaborators) Demo.claims0 "iss" "issuer" "holder" []
     None None Demo.world0
   = OK ((Demo.sd_jwt_payload0, Demo.sd_jwt0, Demo.svc_payload0, Demo.svc0), Demo.world1)
   /\ create_release_jwt (X := Demo.collaborators) "n1" "aud1" Demo.chosen0 Demo.svc0 "holder"
      = OK (Demo.release_payload0, Demo.release0)
   /\ key_pair (X := Demo.collaborators) "issuer" "issuer"
   /\ key_pair (X := Demo.collaborators) "holder" "holder"
   /\ embedded_key_is (X := Demo.collaborators) "holder" (Some (Demo.key_export "holder"))
   /\ given (Some "aud1") = true
   /\ given (Some "n2") = true)
  /\ verify (X := Demo.collaborators) (Demo.sd_jwt0 ++ "." ++ Demo.release0) "issuer"
       "someone else" (Some "holder") (Some "aud1") (Some "n2") = Err InvalidIssuer
  /\ verify (X := Demo.collaborators) (Demo.sd_jwt0 ++ "." ++ Demo.release0) "issuer"
       "iss" (Some "holder") (Some "aud1") (Some "n2") = Err InvalidNonce
  /\ verify (X := Demo.collaborators) (Demo.sd_jwt0 ++ "." ++ Demo.release0) "mallory"
       "iss" (Some "holder") (Some "aud1") (Some "n2") = Err InvalidJWSSignature.
Proof.
  assert (H1 : create_sd_jwt_and_svc (X := Demo.collaborators) Demo.claims0 "iss" "issuer"
                 "holder" [] None None Demo.world0
               = OK ((Demo.sd_jwt_payload0, Demo.sd_jwt0, Demo.svc_payload0, Demo.svc0),
                     Demo.world1)) by (vm_compute; reflexivity).
  assert (H2 : create_release_jwt (X := Demo.collaborators) "n1" "aud1" Demo.chosen0
                 Demo.svc0 "holder"
               = OK (Demo.release_payload0, Demo.release0)) by (vm_compute; reflexivity).
  assert (H3 : key_pair (X := Demo.collaborators) "issuer" "issuer")
    by apply DemoFacts.own_key_pair.
  assert (H4 : key_pair (X := Demo.collaborators) "holder" "holder")
    by apply DemoFacts.own_key_pair.
  assert (H5 : embedded_key_is (X := Demo.collaborators) "holder"
                 (Some (Demo.key_export "holder"))) by exact holder_key_is_embedded.
  assert (H6 : given (Some "aud1") = true) by reflexivity.
  assert (H7 : given (Some "n2") = true) by reflexivity.
  split; [exact (conj H1 (conj H2 (conj H3 (conj H4 (conj H5 (conj H6 H7))))))|].
  destruct (presentation_is_bound (X := Demo.collaborators)
              DemoFacts.json_codec DemoFacts.settings
              Demo.claims0 "iss" "issuer" "issuer" "holder" "holder" [] None None
              Demo.world0 Demo.sd_jwt_payload0 Demo.sd_jwt0 Demo.svc_payload0 Demo.svc0
              Demo.world1 "n1" "aud1" Demo.chosen0 Demo.svc0 Demo.release_payload0
              Demo.release0 (Some "aud1") (Some "n2") H1 H2 H3 H4 H5 H6 H7)
    as (Hi & _ & Hn & Hs & _).
  split; [|split].
  - apply Hi. discriminate.
  - apply Hn; [reflexivity | discriminate].
  - apply Hs. now apply stranger_key_rejects.
Defined.

Lemma release_reveals_exactly_chosen_witness :
  create_release_jwt (X := Demo.collaborators) "n1" "aud1" Demo.chosen0 Demo.svc0 "holder"
  = OK (Demo.release_payload0, Demo.release0)
  /\ exists svc_payload disclosures released t,
       (bytes <- urlsafe_b64decode (Demo.svc0 ++ "==") ;;
        loads (X := Demo.collaborators) bytes) = OK svc_payload
       /\ getitem svc_payload "_sd" = OK (JObj disclosures)
       /\ Demo.release_payload0 =
          JObj [("nonce", JStr "n1"); ("aud", JStr "aud1"); ("_sd", JObj released)]
       /\ JWS_deserialize Demo.release0 = OK t
       /\ jws_payload t = dumps (Collaborators := Demo.collaborators) Demo.release_payload0
       /\ forall path y,
            leaf_at path (JObj released) = Some y
            <-> (exists x, leaf_at path (JObj Demo.chosen0) = Some x)
                /\ leaf_at path (JObj disclosures) = Some y.
Proof.
  assert (H : create_release_jwt (X := Demo.collaborators) "n1" "aud1" Demo.chosen0
                Demo.svc0 "holder"
              = OK (Demo.release_payload0, Demo.release0)) by (vm_compute; reflexivity).
  split; [exact H|].
  exact (release_reveals_exactly_chosen (X := Demo.collaborators) DemoFacts.settings
           "n1" "aud1" Demo.chosen0 Demo.svc0 "holder" Demo.release_payload0
           Demo.release0 H).
Defined.

Lemma issuance_commits_every_claim_witness :
  create_sd_jwt_and_svc (X := Demo.collaborators) Demo.claims0 "iss" "issuer" "holder" []
    None None Demo.world0
  = OK ((Demo.sd_jwt_payload0, Demo.sd_jwt0, Demo.svc_payload0, Demo.svc0), Demo.world1)
  /\ exists commitments disclosures,
       getitem Demo.sd_jwt_payload0 "_sd" = OK (JObj commitments)
       /\ getitem Demo.svc_payload0 "_sd" = OK (JObj disclosures)
       /\ (forall path value, leaf_at path (JObj Demo.claims0) = Some value ->
           exists salt,
             String.length salt = 22
             /\ all_chars is_b64_char salt = true
             /\ leaf_at path (JObj disclosures)
                = Some (JStr (dumps (Collaborators := Demo.collaborators)
                                (JArr [JStr salt; value])))
             /\ leaf_at path (JObj commitments)
                = Some (JStr (hash_raw (X := Demo.collaborators)
                                (dumps (Collaborators := Demo.collaborators)
                                   (JArr [JStr salt; value])))))
       /\ (forall path y,
             leaf_at path (JObj commitments) = Some y
             \/ leaf_at path (JObj disclosures) = Some y ->
             exists value, leaf_at path (JObj Demo.claims0) = Some value).
Proof.
  assert (H : create_sd_jwt_and_svc (X := Demo.collaborators) Demo.claims0 "iss" "issuer"
                "holder" [] None None Demo.world0
              = OK ((Demo.sd_jwt_payload0, Demo.sd_jwt0, Demo.svc_payload0, Demo.svc0),
                    Demo.world1)) by (vm_compute; reflexivity).
  split; [exact H|].
  exact (issuance_commits_every_claim (X := Demo.collaborators) DemoFacts.settings
           Demo.claims0 "iss" "issuer" "holder" [] None None Demo.world0
           Demo.sd_jwt_payload0 Demo.sd_jwt0 Demo.svc_payload0 Demo.svc0 Demo.world1 H).
Defined.

(** The three leaves of the claims cost forty-eight values of the
    generator. *)
Lemma issuance_draws_one_salt_per_claim_witness :
  create_sd_jwt_and_svc (X := Demo.collaborators) Demo.claims0 "iss" "issuer" "holder" []
    None None Demo.world0
  = OK ((Demo.sd_jwt_payload0, Demo.sd_jwt0, Demo.svc_payload0, Demo.svc0), Demo.world1)
  /\ cursor (random_module Demo.world1) = 48
  /\ os_entropy Demo.world1 = os_entropy Demo.world0.
Proof.
  assert (H : create_sd_jwt_and_svc (X := Demo.collaborators) Demo.claims0 "iss" "issuer"
                "holder" [] None None Demo.world0
              = OK ((Demo.sd_jwt_payload0, Demo.sd_jwt0, Demo.svc_payload0, Demo.svc0),
                    Demo.world1)) by (vm_compute; reflexivity).
  split; [exact H|].
  destruct (issuance_draws_one_salt_per_claim (X := Demo.collaborators)
              Demo.claims0 "iss" "issuer" "holder" [] None None Demo.world0
              (Demo.sd_jwt_payload0, Demo.sd_jwt0, Demo.svc_payload0, Demo.svc0)
              Demo.world1 H) as (C & _ & O).
  split; [exact C | exact O].
Defined.

Lemma release_ignores_placeholders_witness :
  same_shape (JObj Demo.chosen0) (JObj Demo.chosen1) = true
  /\ create_release_jwt (X := Demo.collaborators) "n1" "aud1" Demo.chosen0 Demo.svc0 "holder"
     = create_release_jwt (X := Demo.collaborators) "n1" "aud1" Demo.chosen1 Demo.svc0
         "holder".
Proof.
  assert (H : same_shape (JObj Demo.chosen0) (JObj Demo.chosen1) = true) by reflexivity.
  split; [exact H|].
  exact (release_ignores_placeholders (X := Demo.collaborators) "n1" "aud1"
           Demo.chosen0 Demo.chosen1 Demo.svc0 "holder" H).
Defined.

(** A presentation of two segments is malformed, and is not reported as
    an error of the arguments. *)
Lemma argument_and_format_errors_witness :
  verify (X := Demo.collaborators) "a.b" "issuer" "iss" None None None
  = Err MalformedPresentation.
Proof.
  apply (proj2 (argument_and_format_errors (X := Demo.collaborators)
                  "a.b" "issuer" "iss" None None None)).
  split; [reflexivity | discriminate].
Defined.
